(** * Spektacular: stream decoding, question markers and the plan loop

    A shallow embedding of [spektacular/runner.py] and [spektacular/plan.py]
    (with the worker loop of [spektacular/tui.py]), followed by the properties
    of the specification that were checked against it.

    Conventions.
    - A Python [str] is a Rocq [string]; a character stands for one code point
      below 256.
    - A decoded JSON document is a [pyval]; a [dict] is an association list in
      insertion order with unique keys, looked up from the left.
    - A Python call that may raise returns a [result]; the exceptions are the
      constructors of [exn].
    - What the interpreter and its libraries provide ([json.loads], [int] on a
      string) is an interface, [PyLib]; every general theorem holds for any
      implementation of it.  [cpython] is an executable implementation used to
      run the model on concrete texts. *)

From Stdlib Require Import List String Ascii ZArith Lia Bool DecimalString.
Import ListNotations.
Local Open Scope string_scope.
Local Open Scope list_scope.
Set Warnings "-register-all".

(* ================================================================== *)
(** ** Python values *)
(* ================================================================== *)

(** Values produced by [json.loads], and the [None] of absent results.  A
    float keeps the text it was read from. *)
Inductive pyval : Type :=
| PyNone
| PyBool (b : bool)
| PyInt (n : Z)
| PyFloat (lexeme : string)
| PyStr (s : string)
| PyList (items : list pyval)
| PyDict (entries : list (string * pyval)).

Definition dict : Type := list (string * pyval).

(** The exceptions the modelled code can meet. [AgentRuntimeError v] is
    [RuntimeError(f"Agent error: {v}")], kept unformatted. [Abort] is click's
    end of input. [RecursionError] and [ValueError] are what [json.loads]
    raises besides [JSONDecodeError]. *)
Inductive exn : Type :=
| JSONDecodeError
| RecursionError
| ValueError
| KeyError (key : string)
| IndexError
| AttributeError (attribute : string)
| TypeError
| Abort
| RuntimeError (message : string)
| AgentRuntimeError (result_text : pyval).

Inductive result (A : Type) : Type :=
| Ok (a : A)
| Raise (e : exn).
Arguments Ok {A} a.
Arguments Raise {A} e.

Definition bind {A B : Type} (c : result A) (k : A -> result B) : result B :=
  match c with
  | Ok a => k a
  | Raise e => Raise e
  end.

Declare Scope py_scope.
Delimit Scope py_scope with py.
Notation "x <- c ;; k" := (bind c (fun x => k))
  (at level 61, c at next level, right associativity) : py_scope.
Notation "c ;;; k" := (bind c (fun _ => k))
  (at level 61, right associativity) : py_scope.
Local Open Scope py_scope.

(** The line feed, and a double quote for writing JSON texts. *)
Definition nl : string := String "010" EmptyString.
Definition dquote : ascii := "034".

(** [d.get(key)] on a dict: the value of the first entry under [key]. *)
Fixpoint dict_get (key : string) (d : dict) : option pyval :=
  match d with
  | [] => None
  | (k, v) :: rest => if String.eqb k key then Some v else dict_get key rest
  end.

(** [d[key] = v]: replaces the value in place, or adds the entry at the end. *)
Fixpoint dict_set (key : string) (v : pyval) (d : dict) : dict :=
  match d with
  | [] => [(key, v)]
  | (k, w) :: rest =>
      if String.eqb k key then (k, v) :: rest else (k, w) :: dict_set key v rest
  end.

Definition dict_get_default (key : string) (default : pyval) (d : dict) : pyval :=
  match dict_get key d with
  | Some v => v
  | None => default
  end.

(** [v.get(key, default)]: only a dict has the method. *)
Definition py_get (v : pyval) (key : string) (default : pyval) : result pyval :=
  match v with
  | PyDict d => Ok (dict_get_default key default d)
  | _ => Raise (AttributeError "get")
  end.

(** [v[key]] with a string key: a missing key of a dict is a [KeyError]; a
    str, a list and the scalars reject a string subscript. *)
Definition py_getitem (v : pyval) (key : string) : result pyval :=
  match v with
  | PyDict d =>
      match dict_get key d with
      | Some w => Ok w
      | None => Raise (KeyError key)
      end
  | _ => Raise TypeError
  end.

(** [iter(v)]: the items of a list, the keys of a dict, the characters of a
    str; nothing else that JSON yields is iterable. *)
Definition py_iter (v : pyval) : result (list pyval) :=
  match v with
  | PyList l => Ok l
  | PyDict d => Ok (map (fun kv => PyStr (fst kv)) d)
  | PyStr s => Ok (map (fun c => PyStr (String c EmptyString)) (list_ascii_of_string s))
  | _ => Raise TypeError
  end.

(** [len(v)]. *)
Definition py_len (v : pyval) : result nat :=
  match v with
  | PyList l => Ok (List.length l)
  | PyDict d => Ok (List.length d)
  | PyStr s => Ok (String.length s)
  | _ => Raise TypeError
  end.

(** [str(n)] for an int. *)
Definition str_of_int (n : Z) : string := NilZero.string_of_int (Z.to_int n).

(** [v[i]] with [0 <= i]: an item of a list, a character of a str. *)
Definition py_index (v : pyval) (i : nat) : result pyval :=
  match v with
  | PyList l =>
      match nth_error l i with
      | Some w => Ok w
      | None => Raise IndexError
      end
  | PyStr s =>
      match String.get i s with
      | Some c => Ok (PyStr (String c EmptyString))
      | None => Raise IndexError
      end
  | PyDict _ => Raise (KeyError (str_of_int (Z.of_nat i)))
  | _ => Raise TypeError
  end.

(** A float read from [lexeme] is zero when its mantissa has a digit and all
    its digits are zeros (underflow of a tiny literal is not modelled); [NaN]
    and the infinities have no digit and are not zero. *)
Fixpoint mantissa (s : string) : string :=
  match s with
  | EmptyString => EmptyString
  | String c rest =>
      if (Ascii.eqb c "e" || Ascii.eqb c "E")%bool then EmptyString
      else String c (mantissa rest)
  end.

Definition is_digit (c : ascii) : bool :=
  let n := nat_of_ascii c in ((48 <=? n) && (n <=? 57))%nat.

Definition float_is_zero (lexeme : string) : bool :=
  let ds := filter is_digit (list_ascii_of_string (mantissa lexeme)) in
  match ds with
  | [] => false
  | _ => forallb (fun c => Ascii.eqb c "0") ds
  end.

(** Truth value testing. *)
Definition truthy (v : pyval) : bool :=
  match v with
  | PyNone => false
  | PyBool b => b
  | PyInt n => negb (n =? 0)%Z
  | PyFloat lexeme => negb (float_is_zero lexeme)
  | PyStr s => negb (String.eqb s EmptyString)
  | PyList l => match l with [] => false | _ => true end
  | PyDict d => match d with [] => false | _ => true end
  end.

(** [v == s] for a str literal [s]. *)
Definition py_eq_str (v : pyval) (s : string) : bool :=
  match v with
  | PyStr t => String.eqb t s
  | _ => false
  end.

(** [sep.join(items)]: every item has to be a str. *)
Fixpoint strs_of (items : list pyval) : result (list string) :=
  match items with
  | [] => Ok []
  | PyStr s :: rest => ss <- strs_of rest ;; Ok (s :: ss)
  | _ :: _ => Raise TypeError
  end.

Definition py_join (sep : string) (items : list pyval) : result string :=
  ss <- strs_of items ;; Ok (String.concat sep ss).

(** [str | None] as a value. *)
Definition opt_str (o : option string) : pyval :=
  match o with
  | Some s => PyStr s
  | None => PyNone
  end.

(** *** Strings *)

(** [str.isspace] on one character (code points below 256). *)
Definition is_space (c : ascii) : bool :=
  let n := nat_of_ascii c in
  (((9 <=? n) && (n <=? 13)) || ((28 <=? n) && (n <=? 32))
   || (n =? 133) || (n =? 160))%nat.

Fixpoint lstrip (s : string) : string :=
  match s with
  | EmptyString => EmptyString
  | String c rest => if is_space c then lstrip rest else s
  end.

Fixpoint rstrip (s : string) : string :=
  match s with
  | EmptyString => EmptyString
  | String c rest =>
      match rstrip rest with
      | EmptyString => if is_space c then EmptyString else String c EmptyString
      | r => String c r
      end
  end.

(** [s.strip()]. *)
Definition strip (s : string) : string := rstrip (lstrip s).

(** [s] without the prefix [p], when it starts with it. *)
Fixpoint strip_prefix (p s : string) : option string :=
  match p with
  | EmptyString => Some s
  | String a p' =>
      match s with
      | EmptyString => None
      | String b s' => if Ascii.eqb a b then strip_prefix p' s' else None
      end
  end.

(** The text before and after the leftmost occurrence of [sep] in [s]. *)
Fixpoint split_at (sep s : string) : option (string * string) :=
  match strip_prefix sep s with
  | Some rest => Some (EmptyString, rest)
  | None =>
      match s with
      | EmptyString => None
      | String c s' =>
          match split_at sep s' with
          | Some (before, after) => Some (String c before, after)
          | None => None
          end
      end
  end.

(** [needle in s]. *)
Definition contains (needle s : string) : bool :=
  match split_at needle s with
  | Some _ => true
  | None => false
  end.

(** ** The interpreter's library *)

(** [json_loads s] is the value that [json.loads(s)] returns, or the
    exception it raises: [JSONDecodeError] for a text that is not JSON, and
    also [RecursionError] (brackets nested too deep) and [ValueError] (an
    integer literal of more digits than the interpreter converts), which are
    not subclasses of it. [int_of_str s] is [None] where [int(s)] raises
    [ValueError]. *)
Class PyLib : Type := {
  json_loads : string -> result pyval;
  int_of_str : string -> option Z
}.

(* ================================================================== *)
(** ** config.py: the fields the runner reads *)
(* ================================================================== *)

Record DebugConfig : Type := {
  enabled : bool;
  log_dir : string
}.

Record AgentConfig : Type := {
  command : string;
  args : list string;
  allowed_tools : list string;
  dangerously_skip_permissions : bool
}.

Record SpektacularConfig : Type := {
  agent : AgentConfig;
  debug : DebugConfig
}.

(** The defaults of [AgentConfig] and [DebugConfig]. *)
Definition default_agent : AgentConfig := {|
  command := "claude";
  args := ["--output-format"; "stream-json"; "--verbose"];
  allowed_tools :=
    ["Bash"; "Read"; "Write"; "Edit"; "Glob"; "Grep"; "WebFetch"; "WebSearch"];
  dangerously_skip_permissions := false
|}.

Definition default_config : SpektacularConfig := {|
  agent := default_agent;
  debug := {| enabled := false; log_dir := ".spektacular/logs" |}
|}.

(* ================================================================== *)
(** ** runner.py *)
(* ================================================================== *)

(** *** ClaudeEvent *)

Record ClaudeEvent : Type := {
  type : pyval;
  data : dict
}.

(** [self.data.get("session_id")]. *)
Definition session_id (e : ClaudeEvent) : pyval :=
  dict_get_default "session_id" PyNone (data e).

(** [self.type == "result"]. *)
Definition is_result (e : ClaudeEvent) : bool := py_eq_str (type e) "result".

(** [self.is_result and self.data.get("is_error", False)]: the value of the
    conjunction, tested for truth by the callers. *)
Definition is_error (e : ClaudeEvent) : pyval :=
  if is_result e then dict_get_default "is_error" (PyBool false) (data e)
  else PyBool false.

Definition result_text (e : ClaudeEvent) : pyval :=
  if is_result e then dict_get_default "result" PyNone (data e) else PyNone.

(** [[block["text"] for block in content if block.get("type") == "text"]]. *)
Fixpoint text_blocks (content : list pyval) : result (list pyval) :=
  match content with
  | [] => Ok []
  | block :: rest =>
      tag <- py_get block "type" PyNone ;;
      if py_eq_str tag "text" then
        t <- py_getitem block "text" ;;
        ts <- text_blocks rest ;;
        Ok (t :: ts)
      else text_blocks rest
  end.

(** [text_content]: [None] of Python is [None] here. *)
Definition text_content (e : ClaudeEvent) : result (option string) :=
  if negb (py_eq_str (type e) "assistant") then Ok None
  else
    let message := dict_get_default "message" (PyDict []) (data e) in
    content <- py_get message "content" (PyList []) ;;
    blocks <- py_iter content ;;
    texts <- text_blocks blocks ;;
    match texts with
    | [] => Ok None
    | _ => s <- py_join nl texts ;; Ok (Some s)
    end.

(** [[block for block in content if block.get("type") == "tool_use"]]. *)
Fixpoint tool_use_blocks (content : list pyval) : result (list pyval) :=
  match content with
  | [] => Ok []
  | block :: rest =>
      tag <- py_get block "type" PyNone ;;
      bs <- tool_use_blocks rest ;;
      Ok (if py_eq_str tag "tool_use" then block :: bs else bs)
  end.

Definition tool_uses (e : ClaudeEvent) : result (list pyval) :=
  if negb (py_eq_str (type e) "assistant") then Ok []
  else
    let message := dict_get_default "message" (PyDict []) (data e) in
    content <- py_get message "content" (PyList []) ;;
    blocks <- py_iter content ;;
    tool_use_blocks blocks.

(** *** Question markers *)

Record Question : Type := {
  question : pyval;
  header : pyval;
  options : pyval
}.

Definition marker_open : string := "<!--QUESTION:".
Definition marker_close : string := "-->".

(** [QUESTION_PATTERN.finditer(text)], as the list of the first groups: at the
    leftmost opening delimiter that a closing delimiter follows, the payload
    runs to the nearest closing delimiter (the group is lazy and the dot
    matches a line feed), and the scan goes on after the match. Where the
    pattern does not match, the scan moves one character on. *)
Fixpoint finditer_from (fuel : nat) (text : string) : list string :=
  match fuel with
  | O => []
  | S fuel' =>
      let advance :=
        match text with
        | EmptyString => []
        | String _ rest => finditer_from fuel' rest
        end in
      match strip_prefix marker_open text with
      | Some body =>
          match split_at marker_close body with
          | Some (payload, after) => payload :: finditer_from fuel' after
          | None => advance
          end
      | None => advance
      end
  end.

Definition QUESTION_PATTERN_finditer (text : string) : list string :=
  finditer_from (S (String.length text)) text.

(** The handler of [detect_questions]: [except (json.JSONDecodeError, KeyError)]. *)
Definition caught_by_detect (e : exn) : bool :=
  match e with
  | JSONDecodeError | KeyError _ => true
  | _ => false
  end.

Section Runner.
Context {rt : PyLib}.

(** The inner loop [for q in data.get("questions", []): questions.append(...)]:
    the list after the loop, and the exception that ended it, if any. What
    was appended before an exception stays appended. *)
Fixpoint append_questions (qs : list pyval) (questions : list Question)
  : list Question * option exn :=
  match qs with
  | [] => (questions, None)
  | q :: rest =>
      match
        (text <- py_getitem q "question" ;;
         hd <- py_get q "header" (PyStr EmptyString) ;;
         opts <- py_get q "options" (PyList []) ;;
         Ok {| question := text; header := hd; options := opts |})
      with
      | Ok qu => append_questions rest (questions ++ [qu])
      | Raise e => (questions, Some e)
      end
  end.

(** The body of the [try] for one match. *)
Definition try_payload (payload : string) (questions : list Question)
  : list Question * option exn :=
  match json_loads payload with
  | Raise e => (questions, Some e)
  | Ok doc =>
      match (qs <- py_get doc "questions" (PyList []) ;; py_iter qs) with
      | Raise e => (questions, Some e)
      | Ok qs => append_questions qs questions
      end
  end.

(** The loop over the matches: a caught exception goes on with the next
    match, any other leaves the function. *)
Fixpoint detect_loop (payloads : list string) (questions : list Question)
  : result (list Question) :=
  match payloads with
  | [] => Ok questions
  | payload :: rest =>
      match try_payload payload questions with
      | (questions', None) => detect_loop rest questions'
      | (questions', Some e) =>
          if caught_by_detect e then detect_loop rest questions' else Raise e
      end
  end.

Definition detect_questions (text : string) : result (list Question) :=
  detect_loop (QUESTION_PATTERN_finditer text) [].

End Runner.

(** *** run_claude *)

(** What the child process does, as [run_claude] observes it: the lines of its
    standard output, all of its standard error, its exit code. *)
Record Process : Type := {
  stdout : list string;
  stderr : string;
  returncode : Z
}.

(** What one call of [run_claude] does, in order, when its consumer takes
    every event. *)
Inductive action : Type :=
| Popen (cmd : list string)
| StartDrain
| OpenLog
| LogWrite (s : string)
| LogFlush
| Yield (e : ClaudeEvent)
| JoinDrain
| Wait
| CloseLog.

Record Run : Type := {
  actions : list action;
  raised : option exn
}.

(** The events a run yields, in order. *)
Fixpoint yielded (acts : list action) : list ClaudeEvent :=
  match acts with
  | [] => []
  | Yield e :: rest => e :: yielded rest
  | _ :: rest => yielded rest
  end.

Definition events (r : Run) : list ClaudeEvent := yielded (actions r).

(** What has been written to the debug log. *)
Fixpoint logged (acts : list action) : string :=
  match acts with
  | [] => EmptyString
  | LogWrite s :: rest => s ++ logged rest
  | _ :: rest => logged rest
  end.

(** The argument list, lines 124 to 134. The session id is whatever the
    caller passes; a value that is not a str is rejected later, by [Popen]. *)
Definition run_claude_cmd (prompt : string) (config : SpektacularConfig)
    (sid : pyval) : list pyval :=
  let a := agent config in
  let cmd := [PyStr (command a); PyStr "-p"; PyStr prompt] in
  let cmd := cmd ++ map PyStr (args a) in
  let cmd :=
    match allowed_tools a with
    | [] => cmd
    | tools => cmd ++ [PyStr "--allowedTools"; PyStr (String.concat "," tools)]
    end in
  let cmd :=
    if dangerously_skip_permissions a
    then cmd ++ [PyStr "--dangerously-skip-permissions"] else cmd in
  if truthy sid then cmd ++ [PyStr "--resume"; sid] else cmd.

(** The message of the error raised on a non-zero exit code. *)
Definition exit_message (p : Process) : string :=
  "Claude process exited with code " ++ str_of_int (returncode p) ++ ": "
  ++ stderr p.

Section Supervisor.
Context {rt : PyLib}.

(** The loop over the lines of standard output, lines 157 to 168: the actions
    taken, and the exception that left the loop, if any. Only
    [JSONDecodeError] is handled: any other exception of [json.loads] leaves
    the loop, and [data.get] on a document that is not a dict raises
    [AttributeError]. *)
Fixpoint read_stdout (debug_log : bool) (lines : list string)
  : list action * option exn :=
  match lines with
  | [] => ([], None)
  | raw :: rest =>
      let line := strip raw in
      if String.eqb line EmptyString then read_stdout debug_log rest
      else
        let log :=
          if debug_log then [LogWrite (line ++ nl); LogFlush] else [] in
        match json_loads line with
        | Raise JSONDecodeError =>
            let (acts, r) := read_stdout debug_log rest in (log ++ acts, r)
        | Raise e => (log, Some e)
        | Ok (PyDict d) =>
            let e := {| type := dict_get_default "type" (PyStr "unknown") d;
                        data := d |} in
            let (acts, r) := read_stdout debug_log rest in
            (log ++ Yield e :: acts, r)
        | Ok _ => (log, Some (AttributeError "get"))
        end
  end.

(** [run_claude]. [popen] is the process that [subprocess.Popen] starts for
    an argument list; an argument that is not a str makes it raise
    [TypeError] before anything is started. The working directory and the
    name of the log file (the parameters [cwd] and [command]) select where
    the process runs and where the log goes, and are left out. *)
Definition run_claude (popen : list string -> Process) (prompt : string)
    (config : SpektacularConfig) (sid : pyval) : Run :=
  match strs_of (run_claude_cmd prompt config sid) with
  | Raise e => {| actions := []; raised := Some e |}
  | Ok cmd =>
      let process := popen cmd in
      let debug_log := enabled (debug config) in
      let opened :=
        [Popen cmd; StartDrain] ++ (if debug_log then [OpenLog] else []) in
      let closed := if debug_log then [CloseLog] else [] in
      match read_stdout debug_log (stdout process) with
      | (acts, Some e) =>
          {| actions := opened ++ acts ++ closed; raised := Some e |}
      | (acts, None) =>
          {| actions := opened ++ acts ++ [JoinDrain; Wait] ++ closed;
             raised :=
               if (returncode process =? 0)%Z then None
               else Some (RuntimeError (exit_message process)) |}
      end
  end.

End Supervisor.

(* ================================================================== *)
(** ** plan.py *)
(* ================================================================== *)

(** [click.prompt(text, default=default)] on the lines the user types: a line
    that is not empty is the value; an empty line gives the default when
    there is one, and without a default the prompt is shown again and the
    next line read. The end of the input is click's [Abort]. The value
    returned, and what is left of the input. *)
Fixpoint click_prompt (default : option string) (replies : list string)
  : result (string * list string) :=
  match replies with
  | [] => Raise Abort
  | reply :: rest =>
      if String.eqb reply EmptyString then
        match default with
        | Some value => Ok (value, rest)
        | None => click_prompt None rest
        end
      else Ok (reply, rest)
  end.

(** The loop that prints the options: [opt['label']] and
    [opt.get('description', '')] are evaluated for every option. *)
Fixpoint echo_options (opts : list pyval) : result unit :=
  match opts with
  | [] => Ok tt
  | opt :: rest =>
      py_getitem opt "label" ;;;
      py_get opt "description" (PyStr EmptyString) ;;;
      echo_options rest
  end.

Definition no_result_message : string :=
  "Agent completed without producing a result".

Section Plan.
Context {rt : PyLib}.

(** The body of the loop of [prompt_user_for_answer] for one question: the
    answer appended, and the input left. *)
Definition answer_question (q : Question) (replies : list string)
  : result (pyval * list string) :=
  if truthy (options q) then
    opts <- py_iter (options q) ;;
    echo_options opts ;;;
    p <- click_prompt (Some "1") replies ;;
    let (choice, replies') := p in
    match int_of_str choice with
    | Some n =>
        let idx := (n - 1)%Z in
        len <- py_len (options q) ;;
        if ((0 <=? idx) && (idx <? Z.of_nat len))%Z then
          opt <- py_index (options q) (Z.to_nat idx) ;;
          label <- py_getitem opt "label" ;;
          Ok (label, replies')
        else Ok (PyStr choice, replies')
    | None => Ok (PyStr choice, replies')
    end
  else
    p <- click_prompt None replies ;;
    let (answer, replies') := p in
    Ok (PyStr answer, replies').

Fixpoint collect_answers (questions : list Question) (answers : list pyval)
    (replies : list string) : result (list pyval * list string) :=
  match questions with
  | [] => Ok (answers, replies)
  | q :: rest =>
      p <- answer_question q replies ;;
      let (a, replies') := p in
      collect_answers rest (answers ++ [a]) replies'
  end.

Definition prompt_user_for_answer (questions : list Question)
    (replies : list string) : result (string * list string) :=
  p <- collect_answers questions [] replies ;;
  let (answers, replies') := p in
  joined <- py_join "; " answers ;;
  Ok (joined, replies').

(** The variables of [run_plan] that the loop over the events updates. *)
Record Turn : Type := {
  turn_session_id : pyval;
  turn_final_result : pyval;
  questions_found : list Question
}.

(** The body of [for event in run_claude(...)], lines 92 to 102. *)
Definition on_event (t : Turn) (event : ClaudeEvent) : result Turn :=
  let sid :=
    if truthy (session_id event) then session_id event
    else turn_session_id t in
  text <- text_content event ;;
  found <-
    match text with
    | Some s =>
        if negb (String.eqb s EmptyString) then
          detected <- detect_questions s ;;
          Ok (questions_found t ++ detected)
        else Ok (questions_found t)
    | None => Ok (questions_found t)
    end ;;
  if is_result event then
    if truthy (is_error event) then Raise (AgentRuntimeError (result_text event))
    else Ok {| turn_session_id := sid;
               turn_final_result := result_text event;
               questions_found := found |}
  else Ok {| turn_session_id := sid;
             turn_final_result := turn_final_result t;
             questions_found := found |}.

Fixpoint consume (evs : list ClaudeEvent) (t : Turn) : result Turn :=
  match evs with
  | [] => Ok t
  | event :: rest => t' <- on_event t event ;; consume rest t'
  end.

(** How [run_plan] ends. [Completed text]: [plan.md] was written with [text]
    and the plan directory returned. [Unfinished]: the model ran out of
    turns. *)
Inductive plan_result : Type :=
| Completed (plan_md : string)
| Failed (e : exn)
| Unfinished.

(** The calls of [run_claude] made, each with its prompt and session id, and
    the end of the run. *)
Record PlanRun : Type := {
  invocations : list (string * pyval);
  outcome : plan_result
}.

Definition invoked (call : string * pyval) (r : PlanRun) : PlanRun :=
  {| invocations := call :: invocations r; outcome := outcome r |}.

Definition ended (o : plan_result) : PlanRun :=
  {| invocations := []; outcome := o |}.

(** Lines 111 to 116. [write_text] takes a str. *)
Definition write_result (final_result : pyval) : plan_result :=
  if truthy final_result then
    match final_result with
    | PyStr s => Completed s
    | _ => Failed TypeError
    end
  else Failed (RuntimeError no_result_message).

(** The [while True] loop of [run_plan], lines 89 to 109, and what follows
    it. [popen n] is the process started by the call number [n]; [replies] is
    what the user types. An exception raised by the loop body of the consumer
    comes before anything the generator raises after its last event. *)
Fixpoint plan_loop (fuel : nat) (popen : nat -> list string -> Process)
    (config : SpektacularConfig) (n : nat) (current_prompt : string)
    (sid final_result : pyval) (replies : list string) : PlanRun :=
  match fuel with
  | O => ended Unfinished
  | S fuel' =>
      let run := run_claude (popen n) current_prompt config sid in
      invoked (current_prompt, sid)
        match consume (events run)
                {| turn_session_id := sid;
                   turn_final_result := final_result;
                   questions_found := [] |} with
        | Raise e => ended (Failed e)
        | Ok t =>
            match raised run with
            | Some e => ended (Failed e)
            | None =>
                match questions_found t with
                | [] => ended (write_result (turn_final_result t))
                | qs =>
                    match prompt_user_for_answer qs replies with
                    | Raise e => ended (Failed e)
                    | Ok (answer, replies') =>
                        plan_loop fuel' popen config (S n) answer
                          (turn_session_id t) (turn_final_result t) replies'
                    end
                end
            end
        end
  end.

(** [run_plan], from the prompt that [build_prompt] returned. *)
Definition run_plan (fuel : nat) (popen : nat -> list string -> Process)
    (config : SpektacularConfig) (prompt : string) (replies : list string)
  : PlanRun :=
  plan_loop fuel popen config 0 prompt PyNone PyNone replies.

End Plan.

(* ================================================================== *)
(** ** An executable [PyLib] *)
(* ================================================================== *)

(** [json.loads] for texts over code points below 256: the grammar of the
    [json] module (the literals [NaN], [Infinity] and [-Infinity] included,
    control characters refused inside strings, the last of two equal keys
    kept). An escape above code point 255 is outside this model of str and is
    refused. The scanner works from left to right and stops at the first
    exception, as the module does. *)
Module Json.

(** The nesting that the scanner of CPython 3.11 accepts when [json.loads] is
    called from the top of a script, under the default recursion limit: one
    more opening bracket raises [RecursionError]. Frames already on the stack
    lower the bound. *)
Definition max_depth : nat := 994.

(** [sys.get_int_max_str_digits()]: an integer literal of more digits raises
    [ValueError]. *)
Definition max_digits : nat := 4300.

Definition is_ws (c : ascii) : bool :=
  (Ascii.eqb c " " || Ascii.eqb c "009" || Ascii.eqb c "010" || Ascii.eqb c "013")%bool.

Fixpoint skip_ws (s : string) : string :=
  match s with
  | EmptyString => EmptyString
  | String c rest => if is_ws c then skip_ws rest else s
  end.

Definition hex_digit (c : ascii) : option nat :=
  let n := nat_of_ascii c in
  if ((48 <=? n) && (n <=? 57))%nat then Some (n - 48)
  else if ((97 <=? n) && (n <=? 102))%nat then Some (n - 87)
  else if ((65 <=? n) && (n <=? 70))%nat then Some (n - 55)
  else None.

Definition hex4 (a b c d : ascii) : option nat :=
  match hex_digit a, hex_digit b, hex_digit c, hex_digit d with
  | Some x, Some y, Some z, Some w => Some (((x * 16 + y) * 16 + z) * 16 + w)
  | _, _, _, _ => None
  end.

Definition unescape (c : ascii) : option ascii :=
  if Ascii.eqb c dquote then Some dquote
  else if Ascii.eqb c "\" then Some "\"%char
  else if Ascii.eqb c "/" then Some "/"%char
  else if Ascii.eqb c "b" then Some "008"%char
  else if Ascii.eqb c "f" then Some "012"%char
  else if Ascii.eqb c "n" then Some "010"%char
  else if Ascii.eqb c "r" then Some "013"%char
  else if Ascii.eqb c "t" then Some "009"%char
  else None.

Definition cons_to (c : ascii) (r : option (string * string))
  : option (string * string) :=
  match r with
  | Some (s, rest) => Some (String c s, rest)
  | None => None
  end.

(** The string that starts after an opening quote, and the text after its
    closing quote. *)
Fixpoint scan_string (s : string) : option (string * string) :=
  match s with
  | EmptyString => None
  | String c rest =>
      if Ascii.eqb c dquote then Some (EmptyString, rest)
      else if Ascii.eqb c "\" then
        match rest with
        | EmptyString => None
        | String e rest' =>
            if Ascii.eqb e "u" then
              match rest' with
              | String h1 (String h2 (String h3 (String h4 rest''))) =>
                  match hex4 h1 h2 h3 h4 with
                  | Some cp =>
                      if (cp <? 256)%nat
                      then cons_to (ascii_of_nat cp) (scan_string rest'')
                      else None
                  | None => None
                  end
              | _ => None
              end
            else
              match unescape e with
              | Some ch => cons_to ch (scan_string rest')
              | None => None
              end
        end
      else if (nat_of_ascii c <? 32)%nat then None
      else cons_to c (scan_string rest)
  end.

Fixpoint span_digits (s : string) : string * string :=
  match s with
  | EmptyString => (EmptyString, EmptyString)
  | String c rest =>
      if is_digit c then
        let (ds, r) := span_digits rest in (String c ds, r)
      else (EmptyString, s)
  end.

Fixpoint digits_value (acc : Z) (ds : string) : Z :=
  match ds with
  | EmptyString => acc
  | String c rest =>
      digits_value (10 * acc + Z.of_nat (nat_of_ascii c - 48)) rest
  end.

(** A number at the head of [s]: sign, integer part without a leading zero,
    then an optional fraction and an optional exponent, each taken only when
    it has a digit. A number without fraction and exponent is converted by
    [int], which refuses more than [max_digits] digits with [ValueError]. *)
Definition scan_number (s : string) : result (pyval * string) :=
  let (neg, s1) :=
    match s with
    | String c r => if Ascii.eqb c "-" then (true, r) else (false, s)
    | EmptyString => (false, s)
    end in
  match s1 with
  | EmptyString => Raise JSONDecodeError
  | String c r =>
      if is_digit c then
        let (ipart, r1) :=
          if Ascii.eqb c "0" then (String c EmptyString, r)
          else let (ds, r') := span_digits r in (String c ds, r') in
        let (frac, r2) :=
          match r1 with
          | String dot after =>
              if Ascii.eqb dot "." then
                match span_digits after with
                | (EmptyString, _) => (EmptyString, r1)
                | (ds, r') => (String dot ds, r')
                end
              else (EmptyString, r1)
          | EmptyString => (EmptyString, r1)
          end in
        let (expo, r3) :=
          match r2 with
          | String e after =>
              if (Ascii.eqb e "e" || Ascii.eqb e "E")%bool then
                let (sign, after') :=
                  match after with
                  | String sg a =>
                      if (Ascii.eqb sg "+" || Ascii.eqb sg "-")%bool
                      then (String sg EmptyString, a) else (EmptyString, after)
                  | EmptyString => (EmptyString, after)
                  end in
                match span_digits after' with
                | (EmptyString, _) => (EmptyString, r2)
                | (ds, r') => (String e (sign ++ ds), r')
                end
              else (EmptyString, r2)
          | EmptyString => (EmptyString, r2)
          end in
        let sign := if neg then "-" else EmptyString in
        match frac, expo with
        | EmptyString, EmptyString =>
            if (max_digits <? String.length ipart)%nat then Raise ValueError
            else
              let n := digits_value 0 ipart in
              Ok (PyInt (if neg then - n else n), r3)
        | _, _ => Ok (PyFloat (sign ++ ipart ++ frac ++ expo), r3)
        end
      else Raise JSONDecodeError
  end.

Definition scan_literal (s : string) : result (pyval * string) :=
  match strip_prefix "null" s with
  | Some r => Ok (PyNone, r)
  | None =>
  match strip_prefix "true" s with
  | Some r => Ok (PyBool true, r)
  | None =>
  match strip_prefix "false" s with
  | Some r => Ok (PyBool false, r)
  | None =>
  match scan_number s with
  | Ok p => Ok p
  | Raise JSONDecodeError =>
      match strip_prefix "NaN" s with
      | Some r => Ok (PyFloat "NaN", r)
      | None =>
      match strip_prefix "Infinity" s with
      | Some r => Ok (PyFloat "Infinity", r)
      | None =>
      match strip_prefix "-Infinity" s with
      | Some r => Ok (PyFloat "-Infinity", r)
      | None => Raise JSONDecodeError
      end end end
  | Raise e => Raise e
  end end end end.

(** One value at the head of [s] (no white space before it), and the text
    after it. [depth] is the number of brackets that may still be opened.
    [scan_elements] starts at an element of an array, and [scan_members] at a
    key of an object. *)
Fixpoint scan_value (fuel depth : nat) (s : string) : result (pyval * string) :=
  match fuel with
  | O => Raise JSONDecodeError
  | S fuel' =>
      match s with
      | EmptyString => Raise JSONDecodeError
      | String c rest =>
          if Ascii.eqb c dquote then
            match scan_string rest with
            | Some (t, r) => Ok (PyStr t, r)
            | None => Raise JSONDecodeError
            end
          else if Ascii.eqb c "{" then
            match depth with
            | O => Raise RecursionError
            | S depth' =>
                match skip_ws rest with
                | String c' r =>
                    if Ascii.eqb c' "}" then Ok (PyDict [], r)
                    else scan_members fuel' depth' (String c' r) []
                | EmptyString => Raise JSONDecodeError
                end
            end
          else if Ascii.eqb c "[" then
            match depth with
            | O => Raise RecursionError
            | S depth' =>
                match skip_ws rest with
                | String c' r =>
                    if Ascii.eqb c' "]" then Ok (PyList [], r)
                    else scan_elements fuel' depth' (String c' r) []
                | EmptyString => Raise JSONDecodeError
                end
            end
          else scan_literal s
      end
  end
with scan_elements (fuel depth : nat) (s : string) (acc : list pyval)
  : result (pyval * string) :=
  match fuel with
  | O => Raise JSONDecodeError
  | S fuel' =>
      match scan_value fuel' depth s with
      | Raise e => Raise e
      | Ok (v, r) =>
          match skip_ws r with
          | String c r' =>
              if Ascii.eqb c ","
              then scan_elements fuel' depth (skip_ws r') (acc ++ [v])
              else if Ascii.eqb c "]" then Ok (PyList (acc ++ [v]), r')
              else Raise JSONDecodeError
          | EmptyString => Raise JSONDecodeError
          end
      end
  end
with scan_members (fuel depth : nat) (s : string) (acc : dict)
  : result (pyval * string) :=
  match fuel with
  | O => Raise JSONDecodeError
  | S fuel' =>
      match s with
      | EmptyString => Raise JSONDecodeError
      | String q r =>
          if Ascii.eqb q dquote then
            match scan_string r with
            | None => Raise JSONDecodeError
            | Some (k, r1) =>
                match skip_ws r1 with
                | String colon r2 =>
                    if Ascii.eqb colon ":" then
                      match scan_value fuel' depth (skip_ws r2) with
                      | Raise e => Raise e
                      | Ok (v, r3) =>
                          match skip_ws r3 with
                          | String c r4 =>
                              if Ascii.eqb c "," then
                                scan_members fuel' depth (skip_ws r4)
                                  (dict_set k v acc)
                              else if Ascii.eqb c "}" then
                                Ok (PyDict (dict_set k v acc), r4)
                              else Raise JSONDecodeError
                          | EmptyString => Raise JSONDecodeError
                          end
                      end
                    else Raise JSONDecodeError
                | EmptyString => Raise JSONDecodeError
                end
            end
          else Raise JSONDecodeError
      end
  end.

(** [json.loads]: one value, with white space allowed around it and nothing
    else after it. Every call of the scanner consumes a character, so twice
    the length of the text is fuel enough. *)
Definition loads (s : string) : result pyval :=
  match scan_value (2 * String.length s + 2) max_depth (skip_ws s) with
  | Ok (v, rest) =>
      match skip_ws rest with
      | EmptyString => Ok v
      | _ => Raise JSONDecodeError
      end
  | Raise e => Raise e
  end.

End Json.

(** [int(s)] for a str, base ten: white space around, a sign, digits, and
    single underscores between digits; more than [Json.max_digits] digits are
    refused. *)
Fixpoint int_digits (acc : Z) (after_digit : bool) (s : string) : option Z :=
  match s with
  | EmptyString => if after_digit then Some acc else None
  | String c rest =>
      if is_digit c
      then int_digits (10 * acc + Z.of_nat (nat_of_ascii c - 48)) true rest
      else if (Ascii.eqb c "_" && after_digit)%bool
      then match rest with
           | EmptyString => None
           | String c' _ => if is_digit c' then int_digits acc false rest else None
           end
      else None
  end.

Definition int_of_text (s : string) : option Z :=
  if (Json.max_digits <? List.length (filter is_digit (list_ascii_of_string s)))%nat
  then None
  else
    match strip s with
    | EmptyString => None
    | String c rest =>
        if Ascii.eqb c "-" then option_map Z.opp (int_digits 0 false rest)
        else if Ascii.eqb c "+" then int_digits 0 false rest
        else int_digits 0 false (String c rest)
    end.

Definition cpython : PyLib := {|
  json_loads := Json.loads;
  int_of_str := int_of_text
|}.

(** A JSON text written with apostrophes in place of its double quotes. *)
Fixpoint json_text (s : string) : string :=
  match s with
  | EmptyString => EmptyString
  | String c rest =>
      String (if Ascii.eqb c "'" then dquote else c) (json_text rest)
  end.

(* ================================================================== *)
(** ** tui.py: the worker of [PlanTUI] *)
(* ================================================================== *)

(** The messages the worker posts. [AgentErrorOf e] is [AgentError(str(e))].
    The description of a tool call is kept as the value that
    [_tool_description] turns into a str and cuts at 100 characters. *)
Inductive Message : Type :=
| AgentOutput (text : string)
| AgentToolUse (tool_name : pyval) (described : pyval)
| AgentQuestion (questions : list Question)
| AgentComplete (plan_md : string)
| AgentError (error : pyval)
| AgentErrorOf (e : exn).

Definition TOOL_INPUT_KEYS : list (string * string) :=
  [("Bash", "command"); ("Read", "file_path"); ("Write", "file_path");
   ("Edit", "file_path"); ("Glob", "pattern"); ("Grep", "pattern");
   ("WebFetch", "url"); ("Task", "description"); ("WebSearch", "query")].

Fixpoint input_key (name : string) (table : list (string * string))
  : option string :=
  match table with
  | [] => None
  | (k, v) :: rest => if String.eqb k name then Some v else input_key name rest
  end.

(** [_tool_description], up to the conversion to str: looking up a name that
    cannot be hashed raises [TypeError]. *)
Definition tool_description (name input_data : pyval) : result pyval :=
  match name with
  | PyList _ | PyDict _ => Raise TypeError
  | _ =>
      let key :=
        match name with
        | PyStr s => input_key s TOOL_INPUT_KEYS
        | _ => None
        end in
      match key with
      | Some k => py_get input_data k (PyStr EmptyString)
      | None =>
          if truthy input_data then
            match input_data with
            | PyDict ((_, v) :: _) => Ok v
            | PyDict [] => Ok (PyStr EmptyString)
            | _ => Raise (AttributeError "values")
            end
          else Ok (PyStr EmptyString)
      end
  end.

(** The fields of the app and the locals of [_run_agent] that the loop over
    the events updates. *)
Record Worker : Type := {
  worker_session_id : pyval;
  posted : list Message;
  worker_questions : list Question;
  worker_final_result : pyval
}.

(** Why the worker left its loop: a [return], or an exception. *)
Inductive halt : Type :=
| Returned
| Raised (e : exn).

(** [for tool in event.tool_uses: ... self.post_message(AgentToolUse(...))]. *)
Fixpoint post_tools (tools : list pyval) (msgs : list Message)
  : list Message * option exn :=
  match tools with
  | [] => (msgs, None)
  | tool :: rest =>
      match
        (name <- py_get tool "name" (PyStr "tool") ;;
         input_data <- py_get tool "input" (PyDict []) ;;
         described <- tool_description name input_data ;;
         Ok (AgentToolUse name described))
      with
      | Ok m => post_tools rest (msgs ++ [m])
      | Raise e => (msgs, Some e)
      end
  end.

Section TUI.
Context {rt : PyLib}.

(** The body of the loop of [_run_agent], lines 426 to 439. What was assigned
    and posted before a [return] or an exception stays. *)
Definition worker_event (w : Worker) (event : ClaudeEvent)
  : Worker * option halt :=
  let sid :=
    if truthy (session_id event) then session_id event
    else worker_session_id w in
  let w1 := {| worker_session_id := sid; posted := posted w;
               worker_questions := worker_questions w;
               worker_final_result := worker_final_result w |} in
  match tool_uses event with
  | Raise e => (w1, Some (Raised e))
  | Ok tools =>
      let (msgs, r) := post_tools tools (posted w) in
      let w2 := {| worker_session_id := sid; posted := msgs;
                   worker_questions := worker_questions w;
                   worker_final_result := worker_final_result w |} in
      match r with
      | Some e => (w2, Some (Raised e))
      | None =>
          match text_content event with
          | Raise e => (w2, Some (Raised e))
          | Ok text =>
              let said :=
                match text with
                | Some s => negb (String.eqb s EmptyString)
                | None => false
                end in
              let s := match text with Some s => s | None => EmptyString end in
              let msgs' := if said then msgs ++ [AgentOutput s] else msgs in
              match (if said then detect_questions s else Ok []) with
              | Raise e =>
                  ({| worker_session_id := sid; posted := msgs';
                      worker_questions := worker_questions w;
                      worker_final_result := worker_final_result w |},
                   Some (Raised e))
              | Ok detected =>
                  let found := worker_questions w ++ detected in
                  if is_result event then
                    if truthy (is_error event) then
                      let shown :=
                        if truthy (result_text event) then result_text event
                        else PyStr "Unknown error" in
                      ({| worker_session_id := sid;
                          posted := msgs' ++ [AgentError shown];
                          worker_questions := found;
                          worker_final_result := worker_final_result w |},
                       Some Returned)
                    else
                      ({| worker_session_id := sid; posted := msgs';
                          worker_questions := found;
                          worker_final_result := result_text event |}, None)
                  else
                    ({| worker_session_id := sid; posted := msgs';
                        worker_questions := found;
                        worker_final_result := worker_final_result w |}, None)
              end
          end
      end
  end.

Fixpoint worker_loop (evs : list ClaudeEvent) (w : Worker)
  : Worker * option halt :=
  match evs with
  | [] => (w, None)
  | event :: rest =>
      match worker_event w event with
      | (w', None) => worker_loop rest w'
      | stopped => stopped
      end
  end.

(** [_run_agent(prompt)] with [self._session_id = sid]: the session id it
    leaves in the app, the messages it posts, and the exception that ends the
    worker when [write_plan_output] refuses the result. *)
Definition run_agent (popen : list string -> Process)
    (config : SpektacularConfig) (sid : pyval) (prompt : string)
  : pyval * list Message * option exn :=
  let run := run_claude popen prompt config sid in
  let start := {| worker_session_id := sid; posted := [];
                  worker_questions := []; worker_final_result := PyNone |} in
  match worker_loop (events run) start with
  | (w, Some Returned) => (worker_session_id w, posted w, None)
  | (w, Some (Raised e)) =>
      (worker_session_id w, posted w ++ [AgentErrorOf e], None)
  | (w, None) =>
      match raised run with
      | Some e => (worker_session_id w, posted w ++ [AgentErrorOf e], None)
      | None =>
          match worker_questions w with
          | _ :: _ =>
              (worker_session_id w,
               posted w ++ [AgentQuestion (worker_questions w)], None)
          | [] =>
              if truthy (worker_final_result w) then
                match worker_final_result w with
                | PyStr s => (worker_session_id w, posted w ++ [AgentComplete s], None)
                | _ => (worker_session_id w, posted w, Some TypeError)
                end
              else
                (worker_session_id w,
                 posted w ++ [AgentError (PyStr no_result_message)], None)
          end
      end
  end.

End TUI.

(* ================================================================== *)
(** ** runner.py: build_prompt *)
(* ================================================================== *)

(** [f"\n## {filename}\n{content}\n"]. *)
Definition knowledge_part (entry : string * string) : string :=
  nl ++ "## " ++ fst entry ++ nl ++ snd entry ++ nl.

Definition knowledge_heading : string :=
  nl ++ nl ++ "---" ++ nl ++ nl ++ "# Knowledge Base" ++ nl.

Definition specification_heading : string :=
  nl ++ "---" ++ nl ++ nl ++ "# Specification to Plan" ++ nl ++ nl.

(** [build_prompt]: [knowledge_contents] is the dict of file names and
    contents, in its order. *)
Definition build_prompt (spec_content agent_prompt : string)
    (knowledge_contents : list (string * string)) : string :=
  let parts :=
    [agent_prompt; knowledge_heading]
    ++ map knowledge_part knowledge_contents
    ++ [(specification_heading ++ spec_content)%string] in
  String.concat nl parts.

(* ================================================================== *)
(** ** config.py: _expand_env_vars *)
(* ================================================================== *)

(** [s.startswith(p)] and [s.endswith(p)]. *)
Definition startswith (p s : string) : bool :=
  match strip_prefix p s with
  | Some _ => true
  | None => false
  end.

Definition endswith (p s : string) : bool :=
  ((String.length p <=? String.length s)%nat
   && String.eqb (substring (String.length s - String.length p)
                    (String.length p) s) p)%bool.

(** [_expand_env_vars] on what [yaml.safe_load] returns (mappings with str
    keys). [getenv name] is the value of the environment variable, when it is
    set: [os.getenv(name, data)] is that value, or [data]. *)
Fixpoint expand_env_vars (getenv : string -> option string) (data : pyval)
  : pyval :=
  match data with
  | PyDict d =>
      PyDict (map (fun '(key, value) => (key, expand_env_vars getenv value)) d)
  | PyList l => PyList (map (expand_env_vars getenv) l)
  | PyStr s =>
      if (startswith "${}" s && endswith "}" s)%bool then
        let env_var := substring 2 (String.length s - 3) s in
        match getenv env_var with
        | Some v => PyStr v
        | None => data
        end
      else data
  | _ => data
  end.

(* ================================================================== *)
(** ** tui.py: answering the questions *)
(* ================================================================== *)

(** [QuestionPanel.action_select(idx)] on the panel of [questions]: the label
    posted in [AnswerSelected], if any. The keys 1 to 9 call it with the
    indices 0 to 8. *)
Definition action_select (questions : list Question) (idx : nat)
  : result (option pyval) :=
  match questions with
  | [] => Raise IndexError
  | q :: _ =>
      len <- py_len (options q) ;;
      if (idx <? len)%nat then
        opt <- py_index (options q) idx ;;
        label <- py_getitem opt "label" ;;
        Ok (Some label)
      else Ok None
  end.

(** [_pending_questions] and [_pending_answers] of the app. *)
Record Pending : Type := {
  pending_questions : list Question;
  pending_answers : list pyval
}.

(** [on_agent_question]. *)
Definition on_agent_question (questions : list Question) : Pending :=
  {| pending_questions := questions; pending_answers := [] |}.

(** [on_answer_selected]: the fields after the message, and the prompt the
    worker is restarted with, if it is. *)
Definition on_answer_selected (p : Pending) (answer : pyval)
  : Pending * result (option string) :=
  match pending_questions p with
  | [] => (p, Ok None)
  | _ :: rest =>
      let p' := {| pending_questions := rest;
                   pending_answers := pending_answers p ++ [answer] |} in
      match rest with
      | _ :: _ => (p', Ok None)
      | [] =>
          (p', prompt <- py_join nl (pending_answers p') ;; Ok (Some prompt))
      end
  end.

(** The messages [answers], one after the other: the fields at the end, and
    what each message restarted. *)
Fixpoint select_answers (p : Pending) (answers : list pyval)
  : Pending * list (result (option string)) :=
  match answers with
  | [] => (p, [])
  | a :: rest =>
      let (p', r) := on_answer_selected p a in
      let (p'', rs) := select_answers p' rest in
      (p'', r :: rs)
  end.

(* ================================================================== *)
(** ** Vocabulary of the properties *)
(* ================================================================== *)

(** [x] occurs in [s]. *)
Definition occurs_in (x s : string) : Prop :=
  exists before after, s = (before ++ x ++ after)%string.

(** The position of the first [x] in [l]. *)
Fixpoint index_of (x : string) (l : list string) : option nat :=
  match l with
  | [] => None
  | y :: rest =>
      if String.eqb y x then Some 0 else option_map S (index_of x rest)
  end.

(** *** The command line *)

Definition allow_args (tools : list string) : list string :=
  match tools with
  | [] => []
  | _ => ["--allowedTools"; String.concat "," tools]
  end.

Definition bypass_args (skip : bool) : list string :=
  if skip then ["--dangerously-skip-permissions"] else [].

Definition resume_args (sid : option string) : list string :=
  match sid with
  | Some s => if String.eqb s EmptyString then [] else ["--resume"; s]
  | None => []
  end.

(** The order of the code: executable, [-p] and the input text, the
    configured flags, the allow-list, the permission bypass, the resume
    flag. *)
Definition argv (prompt : string) (config : SpektacularConfig)
    (sid : option string) : list string :=
  let a := agent config in
  [command a; "-p"; prompt] ++ args a ++ allow_args (allowed_tools a)
  ++ bypass_args (dangerously_skip_permissions a) ++ resume_args sid.

(** The order the specification words: executable, the fixed flags, the input
    text (that [-p] introduces), the allow-list, the resume flag, the
    permission bypass. *)
Definition argv_in_spec_order (prompt : string) (config : SpektacularConfig)
    (sid : option string) : list string :=
  let a := agent config in
  [command a] ++ args a ++ ["-p"; prompt] ++ allow_args (allowed_tools a)
  ++ resume_args sid ++ bypass_args (dangerously_skip_permissions a).

(** *** The stream of lines *)

Section Vocabulary.
Context {rt : PyLib}.

(** The line is blank, makes [json.loads] raise [JSONDecodeError], or decodes
    to an object. *)
Definition object_or_skipped (raw : string) : Prop :=
  strip raw = EmptyString \/
  json_loads (strip raw) = Raise JSONDecodeError \/
  exists d, json_loads (strip raw) = Ok (PyDict d).

(** The line is not blank and decodes. *)
Definition decodes (raw : string) : bool :=
  if String.eqb (strip raw) EmptyString then false
  else match json_loads (strip raw) with
       | Ok _ => true
       | Raise _ => false
       end.

(** The event of a line that is not blank and decodes to an object. *)
Definition event_of_line (raw : string) : list ClaudeEvent :=
  if String.eqb (strip raw) EmptyString then []
  else match json_loads (strip raw) with
       | Ok (PyDict d) =>
           [{| type := dict_get_default "type" (PyStr "unknown") d; data := d |}]
       | _ => []
       end.

(** The texts handed to [json.loads], in order: the stripped lines that are
    not blank, up to the first one that decodes to something else than an
    object or on which the decoder raises something else than
    [JSONDecodeError]. *)
Fixpoint decoder_inputs (lines : list string) : list string :=
  match lines with
  | [] => []
  | raw :: rest =>
      let line := strip raw in
      if String.eqb line EmptyString then decoder_inputs rest
      else match json_loads line with
           | Raise JSONDecodeError | Ok (PyDict _) => line :: decoder_inputs rest
           | _ => [line]
           end
  end.

(** The content of a debug log after these texts were written. *)
Fixpoint log_of (texts : list string) : string :=
  match texts with
  | [] => EmptyString
  | line :: rest => line ++ nl ++ log_of rest
  end.

(** *** Question markers *)

(** The descriptors of the entries up to the first one without a
    [question]. *)
Fixpoint leading_questions (entries : list dict) : list Question :=
  match entries with
  | [] => []
  | q :: rest =>
      match dict_get "question" q with
      | Some text =>
          {| question := text;
             header := dict_get_default "header" (PyStr EmptyString) q;
             options := dict_get_default "options" (PyList []) q |}
          :: leading_questions rest
      | None => []
      end
  end.

(** A payload on which [json.loads] raises [JSONDecodeError], or that decodes
    to an object whose [questions], when present, is a list of objects. *)
Definition payload_entries (payload : string) (entries : list dict) : Prop :=
  (json_loads payload = Raise JSONDecodeError /\ entries = []) \/
  exists d, json_loads payload = Ok (PyDict d) /\
            dict_get_default "questions" (PyList []) d = PyList (map PyDict entries).

(** *** Events *)

(** The block is tagged [text]. *)
Definition tagged_text (block : dict) : bool :=
  py_eq_str (dict_get_default "type" PyNone block) "text".

(** The texts of the blocks tagged [text], in order. *)
Fixpoint texts_of (blocks : list dict) : list string :=
  match blocks with
  | [] => []
  | b :: rest =>
      if tagged_text b then
        match dict_get "text" b with
        | Some (PyStr s) => s :: texts_of rest
        | _ => texts_of rest
        end
      else texts_of rest
  end.

(** Every block tagged [text] has a str under [text]. *)
Definition text_blocks_carry_text (blocks : list dict) : Prop :=
  Forall (fun b => tagged_text b = true ->
                   exists s, dict_get "text" b = Some (PyStr s)) blocks.

(** The content of the message of an event: the default of each [get]
    applies where the field is absent. *)
Definition message_content (e : ClaudeEvent) : result pyval :=
  py_get (dict_get_default "message" (PyDict []) (data e)) "content" (PyList []).

(** *** The conversation *)

(** The value of a prompt with a default, for the line typed. *)
Definition entered (default reply : string) : string :=
  if String.eqb reply EmptyString then default else reply.

(** The session id after an event: the one the event carries when it is
    true, the previous one otherwise. *)
Definition observe_session_id (sid : pyval) (e : ClaudeEvent) : pyval :=
  if truthy (session_id e) then session_id e else sid.

Definition last_session_id (evs : list ClaudeEvent) (sid : pyval) : pyval :=
  fold_left observe_session_id evs sid.

(** The result text after an event: the one of a result event, the previous
    one otherwise. *)
Definition observe_result (final_result : pyval) (e : ClaudeEvent) : pyval :=
  if is_result e then result_text e else final_result.

Definition last_result (evs : list ClaudeEvent) (final_result : pyval) : pyval :=
  fold_left observe_result evs final_result.

(** The event raises nothing in the consumer and carries no question. *)
Definition quiet (e : ClaudeEvent) : Prop :=
  text_content e = Ok None \/
  exists s, text_content e = Ok (Some s) /\
            (s = EmptyString \/ detect_questions s = Ok []).

(** The questions are answered one after the other, each with a str, from
    the replies typed. *)
Inductive Answered : list Question -> list string -> list string ->
                     list string -> Prop :=
| Answered_nil : forall replies, Answered [] replies [] replies
| Answered_cons : forall q qs replies a replies' answers replies'',
    answer_question q replies = Ok (PyStr a, replies') ->
    Answered qs replies' answers replies'' ->
    Answered (q :: qs) replies (a :: answers) replies''.

End Vocabulary.

(* ================================================================== *)
(** ** Vocabulary of the further properties *)
(* ================================================================== *)

(** The sections of the knowledge files in a prompt, each after a line
    feed. *)
Fixpoint knowledge_sections (entries : list (string * string)) : string :=
  match entries with
  | [] => EmptyString
  | entry :: rest => nl ++ knowledge_part entry ++ knowledge_sections rest
  end.

(** The action touches the debug log. *)
Definition is_log_action (a : action) : bool :=
  match a with
  | OpenLog | LogWrite _ | LogFlush | CloseLog => true
  | _ => false
  end.

(** The action opens or closes the debug log. *)
Definition opens_or_closes (a : action) : bool :=
  match a with
  | OpenLog | CloseLog => true
  | _ => false
  end.

(** The action joins the drain thread or waits for the process. *)
Definition joins_or_waits (a : action) : bool :=
  match a with
  | JoinDrain | Wait => true
  | _ => false
  end.

(** The stripped lines that are not blank. *)
Fixpoint stripped_lines (lines : list string) : list string :=
  match lines with
  | [] => []
  | raw :: rest =>
      if String.eqb (strip raw) EmptyString then stripped_lines rest
      else strip raw :: stripped_lines rest
  end.

(** The block is tagged [tool_use]. *)
Definition tagged_tool_use (block : dict) : bool :=
  py_eq_str (dict_get_default "type" PyNone block) "tool_use".

(** The message ends a turn of the worker. *)
Definition closing (m : Message) : bool :=
  match m with
  | AgentQuestion _ | AgentComplete _ | AgentError _ | AgentErrorOf _ => true
  | AgentOutput _ | AgentToolUse _ _ => false
  end.

(** No message of the list ends a turn. *)
Definition no_closing (msgs : list Message) : bool :=
  forallb (fun m => negb (closing m)) msgs.

(** The texts that the worker shows for the events of a turn: the text
    contents that are not empty. *)
Fixpoint outputs_of (evs : list ClaudeEvent) : list Message :=
  match evs with
  | [] => []
  | e :: rest =>
      match text_content e with
      | Ok (Some s) =>
          if String.eqb s EmptyString then outputs_of rest
          else AgentOutput s :: outputs_of rest
      | _ => outputs_of rest
      end
  end.

(** What the worker does at the end of a turn without questions, for each
    way the console loop ends on the same result text. *)
Definition worker_verdict (o : plan_result) : list Message * option exn :=
  match o with
  | Completed text => ([AgentComplete text], None)
  | Failed (RuntimeError message) => ([AgentError (PyStr message)], None)
  | Failed e => ([], Some e)
  | Unfinished => ([], None)
  end.

(* ================================================================== *)
(** ** Concrete inputs *)
(* ================================================================== *)

(** A process that prints [lines], writes [err] to its standard error and
    exits with [code], whatever its arguments. *)
Definition process_of (lines : list string) (err : string) (code : Z)
  : list string -> Process :=
  fun _ => {| stdout := lines; stderr := err; returncode := code |}.

(** A configuration with the permission bypass on. *)
Definition bypass_config : SpektacularConfig := {|
  agent := {| command := "claude";
              args := ["--output-format"; "stream-json"; "--verbose"];
              allowed_tools := ["Bash"; "Read"];
              dangerously_skip_permissions := true |};
  debug := {| enabled := false; log_dir := ".spektacular/logs" |}
|}.

(** A configuration with the debug log on. *)
Definition debug_config : SpektacularConfig := {|
  agent := default_agent;
  debug := {| enabled := true; log_dir := ".spektacular/logs" |}
|}.

Definition system_line : string :=
  json_text "{'type': 'system', 'session_id': 's1'}".

Definition result_line : string :=
  json_text "{'type': 'result', 'result': 'done', 'is_error': false}".

(** Three lines that all decode; the second one is a number. *)
Definition lines_with_number : list string :=
  [system_line; "42"; result_line].

(** A result record with an empty text. *)
Definition empty_result_line : string :=
  json_text "{'type': 'result', 'result': '', 'is_error': false}".

(** A record without a [type]. *)
Definition untyped_line : string :=
  json_text "{'session_id': 's1', 'note': 'x'}".

(** Three markers: a payload that is not JSON, a payload whose second entry
    of three has no [question], and a payload with one entry. *)
Definition three_markers : string :=
  json_text
    ("<!--QUESTION:not json--> then "
     ++ "<!--QUESTION:{'questions': [{'question': 'Q1'}, {'header': 'h'}, "
     ++ "{'question': 'Q2'}]}--> then "
     ++ "<!--QUESTION:{'questions': [{'question': 'Q3', 'header': 'H3'}]}-->").

(** A payload whose first entry has no [question] and whose second entry is
    a valid question. *)
Definition bad_entry_first : string :=
  json_text
    "<!--QUESTION:{'questions': [{'header': 'h'}, {'question': 'Q2'}]}-->".

(** The same marker with the valid entry alone. *)
Definition good_entry_alone : string :=
  json_text "<!--QUESTION:{'questions': [{'question': 'Q2'}]}-->".

(** A question with two options, and a question without options. *)
Definition two_options : list dict :=
  [[("label", PyStr "A"); ("description", PyStr "Option A")];
   [("label", PyStr "B")]].

Definition choice_question : Question := {|
  question := PyStr "Which approach?";
  header := PyStr "Approach";
  options := PyList (map PyDict two_options)
|}.

Definition free_question : Question := {|
  question := PyStr "Why?";
  header := PyStr EmptyString;
  options := PyList []
|}.

(** An assistant record that carries the session id [s2] and a text with one
    question marker. *)
Definition question_line : string :=
  json_text
    ("{'type': 'assistant', 'session_id': 's2', 'message': {'content': "
     ++ "[{'type': 'text', 'text': "
     ++ "'<!--QUESTION:{\'questions\': [{\'question\': \'Go on?\'}]}-->'}]}}").

(** An agent that first announces the session [s1], then asks a question
    under the session [s2], and answers the next call with a result. *)
Definition two_session_agent (n : nat) : list string -> Process :=
  match n with
  | O => process_of [system_line; question_line] EmptyString 0
  | S _ => process_of [result_line] EmptyString 0
  end.

(** An agent whose only record is a result with an empty text. *)
Definition empty_result_agent (n : nat) : list string -> Process :=
  process_of [empty_result_line] EmptyString 0.

(** An agent that prints a system record and a result, and exits with 0. *)
Definition done_agent (n : nat) : list string -> Process :=
  process_of [system_line; result_line] EmptyString 0.

(** The inputs of [tests/test_runner.py]. *)
Definition single_question_text : string :=
  json_text
    ("<!--QUESTION:{'questions': [{'question': 'Which approach?', "
     ++ "'header': 'Approach', 'options': "
     ++ "[{'label': 'A', 'description': 'Option A'}]}]}-->").

Definition two_questions_text : string :=
  json_text
    ("<!--QUESTION:{'questions': ["
     ++ "{'question': 'Q1?', 'header': 'H1', 'options': []}, "
     ++ "{'question': 'Q2?', 'header': 'H2', 'options': []}]}-->").

Definition ok_result_line : string :=
  json_text "{'type': 'result', 'result': 'ok', 'is_error': false}".

(** A result record that reports an error. *)
Definition error_result_line : string :=
  json_text "{'type': 'result', 'result': 'out of credit', 'is_error': true}".

(** An agent that announces a session, reports an error, prints one more
    record and exits with code 1. *)
Definition error_agent (n : nat) : list string -> Process :=
  process_of [system_line; error_result_line; result_line] "boom" 1.

(** An agent that prints a result and exits with code 1. *)
Definition failing_agent (n : nat) : list string -> Process :=
  process_of [result_line] "boom" 1.

(** An agent that gives its result and asks a question in the first turn,
    and prints only a system record in the second. *)
Definition result_then_question_agent (n : nat) : list string -> Process :=
  match n with
  | O => process_of [result_line; question_line] EmptyString 0
  | S _ => process_of [system_line] EmptyString 0
  end.

(** [n] times the character [c]. *)
Fixpoint copies (n : nat) (c : ascii) : string :=
  match n with
  | O => EmptyString
  | S n' => String c (copies n' c)
  end.

(** An array nested deeper than the decoder goes, left open. *)
Definition deep_text : string := copies 1000 "[".

(** An integer literal of one digit more than [int] converts. *)
Definition long_integer : string := copies 4301 "1".

(* ================================================================== *)
(** ** Properties of the runner *)
(* ================================================================== *)

Lemma strs_of_map_PyStr (l : list string) : strs_of (map PyStr l) = Ok l.
Proof.
  induction l as [|s l IH]; simpl; [reflexivity|].
  now rewrite IH.
Qed.

Lemma append_assoc (a b c : string) :
  ((a ++ b) ++ c = a ++ (b ++ c))%string.
Proof. induction a as [|x a IH]; simpl; [reflexivity|now rewrite IH]. Qed.

Lemma append_nil_r (a : string) : (a ++ EmptyString)%string = a.
Proof. induction a as [|x a IH]; simpl; [reflexivity|now rewrite IH]. Qed.

Lemma length_append (a b : string) :
  String.length (a ++ b) = String.length a + String.length b.
Proof. induction a as [|x a IH]; simpl; [reflexivity|now rewrite IH]. Qed.

Lemma yielded_app (a b : list action) :
  yielded (a ++ b) = yielded a ++ yielded b.
Proof.
  induction a as [|x a IH]; simpl; [reflexivity|].
  destruct x; simpl; now rewrite ?IH.
Qed.

Lemma logged_app (a b : list action) :
  logged (a ++ b) = (logged a ++ logged b)%string.
Proof.
  induction a as [|x a IH]; simpl; [reflexivity|].
  destruct x; simpl; rewrite ?IH; try reflexivity.
  now rewrite append_assoc.
Qed.

(** The argument list that [run_claude] builds for a session id that is a str
    or [None] is [argv], and [Popen] accepts it. *)
Lemma run_claude_cmd_argv (prompt : string) (config : SpektacularConfig)
    (sid : option string) :
  run_claude_cmd prompt config (opt_str sid) = map PyStr (argv prompt config sid).
Proof.
  unfold run_claude_cmd, argv, allow_args, bypass_args, resume_args.
  destruct config as [[cmd flags tools skip] dbg]; simpl.
  assert (Hsid : forall l : list pyval,
            (if truthy (opt_str sid) then l ++ [PyStr "--resume"; opt_str sid] else l)
            = l ++ map PyStr (match sid with
                              | Some s => if String.eqb s EmptyString then []
                                          else ["--resume"; s]
                              | None => []
                              end)).
  { intros l. destruct sid as [s|]; simpl.
    - destruct (String.eqb s EmptyString); simpl; [now rewrite app_nil_r|reflexivity].
    - now rewrite app_nil_r. }
  rewrite Hsid.
  destruct tools as [|t tools]; destruct skip; simpl;
    repeat (rewrite ?map_app, <- ?app_assoc; simpl); reflexivity.
Qed.

Lemma popen_accepts_argv (prompt : string) (config : SpektacularConfig)
    (sid : option string) :
  strs_of (run_claude_cmd prompt config (opt_str sid))
  = Ok (argv prompt config sid).
Proof. rewrite run_claude_cmd_argv. apply strs_of_map_PyStr. Qed.

Section RunnerProperties.
Context {rt : PyLib}.

(** [run_claude], unfolded at a session id that is a str or [None]. *)
Lemma run_claude_unfold (popen : list string -> Process) (prompt : string)
    (config : SpektacularConfig) (sid : option string) :
  run_claude popen prompt config (opt_str sid) =
  let process := popen (argv prompt config sid) in
  let debug_log := enabled (debug config) in
  let opened :=
    [Popen (argv prompt config sid); StartDrain]
    ++ (if debug_log then [OpenLog] else []) in
  let closed := if debug_log then [CloseLog] else [] in
  match read_stdout debug_log (stdout process) with
  | (acts, Some e) => {| actions := opened ++ acts ++ closed; raised := Some e |}
  | (acts, None) =>
      {| actions := opened ++ acts ++ [JoinDrain; Wait] ++ closed;
         raised := if (returncode process =? 0)%Z then None
                   else Some (RuntimeError (exit_message process)) |}
  end.
Proof. unfold run_claude. now rewrite popen_accepts_argv. Qed.

Lemma yielded_opened (debug_log : bool) (cmd : list string) (acts : list action) :
  yielded (([Popen cmd; StartDrain] ++ (if debug_log then [OpenLog] else [])) ++ acts)
  = yielded acts.
Proof. destruct debug_log; reflexivity. Qed.

Lemma yielded_closed (debug_log : bool) :
  yielded (if debug_log then [CloseLog] else []) = [].
Proof. destruct debug_log; reflexivity. Qed.

Lemma yielded_log (debug_log : bool) (line : string) (acts : list action) :
  yielded ((if debug_log then [LogWrite line; LogFlush] else []) ++ acts)
  = yielded acts.
Proof. destruct debug_log; reflexivity. Qed.

(** The events of a run are those of the loop over the lines. *)
Lemma events_run_claude (popen : list string -> Process) (prompt : string)
    (config : SpektacularConfig) (sid : option string) :
  events (run_claude popen prompt config (opt_str sid))
  = yielded (fst (read_stdout (enabled (debug config))
                    (stdout (popen (argv prompt config sid))))).
Proof.
  rewrite run_claude_unfold. cbv zeta.
  destruct (read_stdout _ _) as [acts [e|]]; unfold events; cbn [actions fst];
    rewrite yielded_opened, !yielded_app, yielded_closed; simpl;
    now rewrite ?app_nil_r.
Qed.

(** What a run raises: what left the loop, or the error of a non-zero exit
    code. *)
Lemma raised_run_claude (popen : list string -> Process) (prompt : string)
    (config : SpektacularConfig) (sid : option string) :
  raised (run_claude popen prompt config (opt_str sid))
  = match snd (read_stdout (enabled (debug config))
                 (stdout (popen (argv prompt config sid)))) with
    | Some e => Some e
    | None =>
        if (returncode (popen (argv prompt config sid)) =? 0)%Z then None
        else Some (RuntimeError (exit_message (popen (argv prompt config sid))))
    end.
Proof.
  rewrite run_claude_unfold. cbv zeta.
  destruct (read_stdout _ _) as [acts [e|]]; reflexivity.
Qed.

(** On lines that are blank, are refused with [JSONDecodeError] or decode to
    objects, the loop runs to the end of the stream and yields the event of
    each line. *)
Lemma read_stdout_objects (debug_log : bool) (lines : list string) :
  Forall object_or_skipped lines ->
  snd (read_stdout debug_log lines) = None /\
  yielded (fst (read_stdout debug_log lines)) = flat_map event_of_line lines.
Proof.
  induction 1 as [|raw lines Hraw _ IH]; simpl; [split; reflexivity|].
  unfold event_of_line.
  destruct (String.eqb (strip raw) EmptyString) eqn:Hblank; [exact IH|].
  destruct IH as [IHr IHy].
  destruct Hraw as [Hb | [Hnone | [d Hd]]].
  - rewrite Hb in Hblank. discriminate.
  - rewrite Hnone.
    destruct (read_stdout debug_log lines) as [acts r]; simpl in *.
    split; [assumption|]. now rewrite yielded_log.
  - rewrite Hd.
    destruct (read_stdout debug_log lines) as [acts r]; simpl in *.
    split; [assumption|]. rewrite yielded_log. simpl. now rewrite IHy.
Qed.

Lemma event_of_line_length (raw : string) :
  object_or_skipped raw ->
  List.length (event_of_line raw) = if decodes raw then 1 else 0.
Proof.
  unfold event_of_line, decodes. intros [Hb | [Hnone | [d Hd]]].
  - rewrite Hb. reflexivity.
  - rewrite Hnone. now destruct (String.eqb (strip raw) EmptyString).
  - rewrite Hd. now destruct (String.eqb (strip raw) EmptyString).
Qed.

Lemma events_count (lines : list string) :
  Forall object_or_skipped lines ->
  List.length (flat_map event_of_line lines) = List.length (filter decodes lines).
Proof.
  induction 1 as [|raw lines Hraw _ IH]; simpl; [reflexivity|].
  rewrite length_app, IH, (event_of_line_length raw Hraw).
  now destruct (decodes raw).
Qed.

(** C1 (amended). On a standard output in which every line is blank, makes
    [json.loads] raise [JSONDecodeError], or decodes to a JSON object,
    [run_claude] yields exactly the event of each line that is not blank and
    decodes, in the order of the lines: as many events as there are such
    lines. Blank lines and lines refused with [JSONDecodeError] yield nothing
    and do not stop the iteration: the only error is the one raised for a
    non-zero exit code once the stream is exhausted. Nothing is promised for
    a line that decodes to something else than an object, or on which
    [json.loads] raises another exception. *)
Theorem run_claude_one_event_per_object_line
    (popen : list string -> Process) (prompt : string)
    (config : SpektacularConfig) (sid : option string) :
  Forall object_or_skipped (stdout (popen (argv prompt config sid))) ->
  events (run_claude popen prompt config (opt_str sid))
  = flat_map event_of_line (stdout (popen (argv prompt config sid))) /\
  List.length (events (run_claude popen prompt config (opt_str sid)))
  = List.length (filter decodes (stdout (popen (argv prompt config sid)))) /\
  raised (run_claude popen prompt config (opt_str sid))
  = if (returncode (popen (argv prompt config sid)) =? 0)%Z then None
    else Some (RuntimeError (exit_message (popen (argv prompt config sid)))).
Proof.
  intros Hlines.
  destruct (read_stdout_objects (enabled (debug config)) _ Hlines) as [Hr Hy].
  rewrite events_run_claude, raised_run_claude, Hr, Hy.
  repeat split. now apply events_count.
Qed.

End RunnerProperties.

(** A run on three lines, one of them blank and one that does not decode
    between two records. *)
Lemma run_claude_one_event_per_object_line_witness :
  events (run_claude (rt := cpython)
            (process_of [system_line; "  "; "not json"; result_line] "" 0)
            "prompt" default_config (opt_str None))
  = flat_map (event_of_line (rt := cpython))
      [system_line; "  "; "not json"; result_line] /\
  List.length (events (run_claude (rt := cpython)
            (process_of [system_line; "  "; "not json"; result_line] "" 0)
            "prompt" default_config (opt_str None)))
  = List.length (filter (decodes (rt := cpython))
      [system_line; "  "; "not json"; result_line]) /\
  raised (run_claude (rt := cpython)
            (process_of [system_line; "  "; "not json"; result_line] "" 0)
            "prompt" default_config (opt_str None))
  = None.
Proof.
  apply (run_claude_one_event_per_object_line (rt := cpython)
           (process_of [system_line; "  "; "not json"; result_line] "" 0)
           "prompt" default_config None).
  simpl stdout.
  repeat apply Forall_cons; try apply Forall_nil.
  - right; right. eexists. vm_compute. reflexivity.
  - left. vm_compute. reflexivity.
  - right; left. vm_compute. reflexivity.
  - right; right. eexists. vm_compute. reflexivity.
Defined.

(** C1, as stated, fails. The three lines of [lines_with_number] are not
    blank and decode as JSON, the second one to the number 42; the run yields
    one event, not three, and ends with the [AttributeError] of [data.get],
    so the third line is never read. *)
Lemma number_line_stops_run_claude :
  List.length (filter (decodes (rt := cpython)) lines_with_number) = 3 /\
  List.length (events (run_claude (rt := cpython)
                         (process_of lines_with_number "" 0)
                         "prompt" default_config PyNone)) = 1 /\
  raised (run_claude (rt := cpython) (process_of lines_with_number "" 0)
            "prompt" default_config PyNone)
  = Some (AttributeError "get").
Proof. vm_compute. repeat split. Qed.

Section CommandLine.
Context {rt : PyLib}.

(** C3 (amended). For every configuration, prompt and optional session id,
    the argument list that [run_claude] builds is, in this order: the
    executable, [-p] and the input text, the configured flags, the allow-list
    flag with the comma-joined tools when the list is not empty, the
    permission-bypass flag when configured, and last the resume flag with the
    session id when one is supplied and not empty. It is a function of these
    inputs alone, and it is the list handed to [Popen] before anything else
    is done. *)
Theorem run_claude_command_line_order
    (popen : list string -> Process) (prompt : string)
    (config : SpektacularConfig) (sid : option string) :
  run_claude_cmd prompt config (opt_str sid)
  = map PyStr
      ([command (agent config); "-p"; prompt]
       ++ args (agent config)
       ++ allow_args (allowed_tools (agent config))
       ++ bypass_args (dangerously_skip_permissions (agent config))
       ++ resume_args sid) /\
  exists rest,
    actions (run_claude popen prompt config (opt_str sid))
    = Popen ([command (agent config); "-p"; prompt]
             ++ args (agent config)
             ++ allow_args (allowed_tools (agent config))
             ++ bypass_args (dangerously_skip_permissions (agent config))
             ++ resume_args sid) :: rest.
Proof.
  split; [apply run_claude_cmd_argv|].
  rewrite run_claude_unfold. cbv zeta.
  destruct (read_stdout _ _) as [acts [e|]]; cbn [actions];
    eexists; unfold argv; simpl; reflexivity.
Qed.

End CommandLine.

(** C3, as stated, fails. With the permission bypass configured and the
    session id [s1], the bypass flag (position 8) comes before the resume
    flag (position 9), and the list differs from the one in the order of the
    specification. *)
Lemma bypass_flag_precedes_resume_flag :
  run_claude_cmd "hi" bypass_config (PyStr "s1")
  = map PyStr
      ["claude"; "-p"; "hi"; "--output-format"; "stream-json"; "--verbose";
       "--allowedTools"; "Bash,Read"; "--dangerously-skip-permissions";
       "--resume"; "s1"] /\
  index_of "--dangerously-skip-permissions" (argv "hi" bypass_config (Some "s1"))
  = Some 8 /\
  index_of "--resume" (argv "hi" bypass_config (Some "s1")) = Some 9 /\
  run_claude_cmd "hi" bypass_config (PyStr "s1")
  <> map PyStr (argv_in_spec_order "hi" bypass_config (Some "s1")).
Proof.
  repeat split; try (vm_compute; reflexivity).
  vm_compute. discriminate.
Qed.

Section StreamProperties.
Context {rt : PyLib}.

Lemma read_stdout_app (debug_log : bool) (before rest : list string) :
  snd (read_stdout debug_log before) = None ->
  read_stdout debug_log (before ++ rest)
  = (fst (read_stdout debug_log before) ++ fst (read_stdout debug_log rest),
     snd (read_stdout debug_log rest)).
Proof.
  induction before as [|raw before IH]; simpl; intros H.
  - now destruct (read_stdout debug_log rest).
  - destruct (String.eqb (strip raw) EmptyString); [now apply IH|].
    destruct (json_loads (strip raw)) as [[| | | | | |d]|[]];
      try discriminate;
      (destruct (read_stdout debug_log before) as [acts r]; simpl in *;
       rewrite (IH H); simpl; now rewrite <- app_assoc).
Qed.

(** C9. A line of standard output that [run_claude] reaches (the lines
    before it are blank, refused with [JSONDecodeError] or decode to
    objects), that is not
    blank and that decodes to a JSON object, yields an event that keeps the
    whole object as its data, whatever the object has under [type]; the kind
    of the event is the value under [type], and it is the str [unknown] when
    the object has no [type]. The event comes right after those of the lines
    before. *)
Theorem run_claude_unknown_kind
    (popen : list string -> Process) (prompt : string)
    (config : SpektacularConfig) (sid : option string)
    (before after : list string) (raw : string) (d : dict) :
  stdout (popen (argv prompt config sid)) = before ++ raw :: after ->
  Forall object_or_skipped before ->
  strip raw <> EmptyString ->
  json_loads (strip raw) = Ok (PyDict d) ->
  (exists later,
     events (run_claude popen prompt config (opt_str sid))
     = flat_map event_of_line before
       ++ {| type := dict_get_default "type" (PyStr "unknown") d; data := d |}
       :: later) /\
  (dict_get "type" d = None ->
   exists later,
     events (run_claude popen prompt config (opt_str sid))
     = flat_map event_of_line before
       ++ {| type := PyStr "unknown"; data := d |} :: later).
Proof.
  intros Hout Hbefore Hraw Hd.
  assert (H : exists later,
     events (run_claude popen prompt config (opt_str sid))
     = flat_map event_of_line before
       ++ {| type := dict_get_default "type" (PyStr "unknown") d; data := d |}
       :: later).
  { rewrite events_run_claude, Hout.
    destruct (read_stdout_objects (enabled (debug config)) before Hbefore)
      as [Hr Hy].
    rewrite (read_stdout_app _ _ _ Hr). cbn [fst].
    rewrite yielded_app, Hy. simpl.
    apply String.eqb_neq in Hraw. rewrite Hraw, Hd.
    destruct (read_stdout (enabled (debug config)) after) as [acts r].
    cbn [fst]. rewrite yielded_log. simpl. eexists. reflexivity. }
  split; [exact H|].
  intros Hty. unfold dict_get_default in H. now rewrite Hty in H.
Qed.

End StreamProperties.

(** A record without a [type] after a line that does not decode. *)
Lemma run_claude_unknown_kind_witness :
  (exists later,
     events (run_claude (rt := cpython)
               (process_of ["oops"; untyped_line; result_line] "" 0)
               "prompt" default_config (opt_str None))
     = flat_map (event_of_line (rt := cpython)) ["oops"]
       ++ {| type := dict_get_default "type" (PyStr "unknown")
                       [("session_id", PyStr "s1"); ("note", PyStr "x")];
             data := [("session_id", PyStr "s1"); ("note", PyStr "x")] |}
       :: later) /\
  (dict_get "type" [("session_id", PyStr "s1"); ("note", PyStr "x")] = None ->
   exists later,
     events (run_claude (rt := cpython)
               (process_of ["oops"; untyped_line; result_line] "" 0)
               "prompt" default_config (opt_str None))
     = flat_map (event_of_line (rt := cpython)) ["oops"]
       ++ {| type := PyStr "unknown";
             data := [("session_id", PyStr "s1"); ("note", PyStr "x")] |}
       :: later).
Proof.
  apply (run_claude_unknown_kind (rt := cpython)
           (process_of ["oops"; untyped_line; result_line] "" 0)
           "prompt" default_config None ["oops"] [result_line] untyped_line).
  - reflexivity.
  - apply Forall_cons; [|apply Forall_nil].
    right; left. vm_compute. reflexivity.
  - vm_compute. discriminate.
  - vm_compute. reflexivity.
Defined.

Section ExitCode.
Context {rt : PyLib}.

Lemma occurs_in_middle (a x b : string) : occurs_in x (a ++ x ++ b).
Proof. exists a, b. reflexivity. Qed.

Lemma occurs_in_end (a x : string) : occurs_in x (a ++ x).
Proof. exists a, EmptyString. now rewrite append_nil_r. Qed.

(** C5. When the loop over standard output has run to the end of the stream,
    [run_claude] joins the thread that drains standard error and then waits
    for the process, after the last event; with exit code 0 it raises
    nothing; with any other exit code it raises a [RuntimeError] whose
    message contains the exit code and the whole text read from standard
    error. For exit code 1 and the text [boom] the message is
    [Claude process exited with code 1: boom]. *)
Theorem run_claude_exit_code
    (popen : list string -> Process) (prompt : string)
    (config : SpektacularConfig) (sid : option string) :
  snd (read_stdout (enabled (debug config))
         (stdout (popen (argv prompt config sid)))) = None ->
  (exists before closed,
     actions (run_claude popen prompt config (opt_str sid))
     = before ++ [JoinDrain; Wait] ++ closed /\
     yielded before = events (run_claude popen prompt config (opt_str sid)) /\
     (closed = [] \/ closed = [CloseLog])) /\
  (returncode (popen (argv prompt config sid)) = 0%Z ->
   raised (run_claude popen prompt config (opt_str sid)) = None) /\
  (returncode (popen (argv prompt config sid)) <> 0%Z ->
   exists message,
     raised (run_claude popen prompt config (opt_str sid))
     = Some (RuntimeError message) /\
     occurs_in (str_of_int (returncode (popen (argv prompt config sid)))) message /\
     occurs_in (stderr (popen (argv prompt config sid))) message) /\
  (returncode (popen (argv prompt config sid)) = 1%Z ->
   stderr (popen (argv prompt config sid)) = "boom" ->
   raised (run_claude popen prompt config (opt_str sid))
   = Some (RuntimeError "Claude process exited with code 1: boom")).
Proof.
  intros Hend.
  split; [|rewrite raised_run_claude, Hend; repeat split].
  - pose proof (events_run_claude popen prompt config sid) as Hev.
    rewrite run_claude_unfold in *. cbv zeta in *.
    destruct (read_stdout _ _) as [acts r]. simpl in Hend. subst r.
    cbn [actions fst] in *.
    exists (([Popen (argv prompt config sid); StartDrain]
             ++ (if enabled (debug config) then [OpenLog] else [])) ++ acts),
           (if enabled (debug config) then [CloseLog] else []).
    split; [now rewrite <- !app_assoc|].
    split.
    + rewrite yielded_opened. symmetry. exact Hev.
    + destruct (enabled (debug config)); [right|left]; reflexivity.
  - intros ->. reflexivity.
  - intros Hcode. apply Z.eqb_neq in Hcode. rewrite Hcode.
    eexists. split; [reflexivity|]. unfold exit_message. split.
    + apply occurs_in_middle.
    + rewrite <- !append_assoc. apply occurs_in_end.
  - intros Hcode Herr. unfold exit_message. rewrite Hcode, Herr. reflexivity.
Qed.

End ExitCode.

(** A process that prints one record, writes [boom] to its standard error and
    exits with code 1. *)
Lemma run_claude_exit_code_witness :
  raised (run_claude (rt := cpython) (process_of [system_line] "boom" 1)
            "prompt" default_config (opt_str None))
  = Some (RuntimeError "Claude process exited with code 1: boom").
Proof.
  refine (proj2 (proj2 (proj2
    (run_claude_exit_code (rt := cpython) (process_of [system_line] "boom" 1)
       "prompt" default_config None _))) _ _).
  - vm_compute. reflexivity.
  - reflexivity.
  - reflexivity.
Defined.

Section DebugLog.
Context {rt : PyLib}.

Lemma yield_after_prefix (pre l before after : list action) (e : ClaudeEvent) :
  yielded pre = [] ->
  pre ++ l = before ++ Yield e :: after ->
  exists b, before = pre ++ b /\ l = b ++ Yield e :: after.
Proof.
  revert before. induction pre as [|x pre IH]; intros before Hpre H.
  - exists before. split; [reflexivity|exact H].
  - destruct before as [|y before]; simpl in H; injection H as Hx H.
    + subst x. discriminate Hpre.
    + subst y. destruct (IH before) as [b [Hb Hl]]; [|exact H|].
      * destruct x; simpl in Hpre; try exact Hpre. discriminate Hpre.
      * exists b. split; [now rewrite Hb|exact Hl].
Qed.

Lemma yield_before_suffix (l tail before after : list action) (e : ClaudeEvent) :
  yielded tail = [] ->
  l ++ tail = before ++ Yield e :: after ->
  exists a, l = before ++ Yield e :: a.
Proof.
  revert before. induction l as [|x l IH]; intros before Htail H.
  - simpl in H. rewrite H, yielded_app in Htail. simpl in Htail.
    now destruct (yielded before).
  - destruct before as [|y before]; simpl in H; injection H as Hx H.
    + subst x. now exists l.
    + subst y. destruct (IH before Htail H) as [a Ha].
      exists a. now rewrite Ha.
Qed.

(** The log after the loop holds the texts handed to the decoder. *)
Lemma read_stdout_logged (lines : list string) :
  logged (fst (read_stdout true lines)) = log_of (decoder_inputs lines).
Proof.
  induction lines as [|raw lines IH]; simpl; [reflexivity|].
  destruct (String.eqb (strip raw) EmptyString); [exact IH|].
  destruct (json_loads (strip raw)) as [[| | | | | |d]|[]];
    try (simpl; now rewrite append_nil_r);
    destruct (read_stdout true lines) as [acts r]; simpl in *;
    now rewrite IH, append_assoc.
Qed.

(** At each event the loop yields, the log holds the texts handed to the
    decoder so far, the last of them the text of the event, written and
    flushed just before. *)
Lemma read_stdout_yield_point (lines : list string) :
  forall before e after,
    fst (read_stdout true lines) = before ++ Yield e :: after ->
    exists seen line rest b,
      decoder_inputs lines = seen ++ line :: rest /\
      json_loads line = Ok (PyDict (data e)) /\
      logged before = log_of (seen ++ [line]) /\
      before = b ++ [LogWrite (line ++ nl); LogFlush].
Proof.
  induction lines as [|raw lines IH]; simpl; intros before e after H.
  - now destruct before.
  - destruct (String.eqb (strip raw) EmptyString);
      [now apply (IH before e after)|].
    destruct (json_loads (strip raw)) as [[| | | | | |d]|[]] eqn:Hd;
      try (simpl in H;
           destruct before as [|a1 [|a2 [|a3 before]]]; simpl in H;
           discriminate H).
    + destruct (read_stdout true lines) as [acts r]. simpl in H, IH.
      destruct before as [|a1 [|a2 [|a3 before]]]; simpl in H;
        try discriminate H.
      * injection H as H1 H2 He Hacts. subst a1 a2 e.
        exists [], (strip raw), (decoder_inputs lines), [].
        repeat split; simpl; try assumption.
        now rewrite append_nil_r.
      * injection H as H1 H2 H3 H. subst a1 a2 a3.
        destruct (IH before e after H) as [seen [line [rest [b [Hi [Hj [Hl Hb]]]]]]].
        exists (strip raw :: seen), line, rest,
               (LogWrite (strip raw ++ nl) :: LogFlush
                :: Yield {| type := dict_get_default "type" (PyStr "unknown") d;
                            data := d |} :: b).
        repeat split; simpl.
        -- now rewrite Hi.
        -- exact Hj.
        -- now rewrite Hl, append_assoc.
        -- now rewrite Hb.
    + destruct (read_stdout true lines) as [acts r]. simpl in H, IH.
      destruct before as [|a1 [|a2 before]]; simpl in H; try discriminate H.
      injection H as H1 H2 H. subst a1 a2.
      destruct (IH before e after H) as [seen [line [rest [b [Hi [Hj [Hl Hb]]]]]]].
      exists (strip raw :: seen), line, rest,
             (LogWrite (strip raw ++ nl) :: LogFlush :: b).
      repeat split; simpl.
      * now rewrite Hi.
      * exact Hj.
      * now rewrite Hl, append_assoc.
      * now rewrite Hb.
Qed.

(** The log of a whole run, and the log at each yield. *)
Lemma run_claude_log_and_yields
    (popen : list string -> Process) (prompt : string)
    (config : SpektacularConfig) (sid : option string) :
  enabled (debug config) = true ->
  logged (actions (run_claude popen prompt config (opt_str sid)))
  = log_of (decoder_inputs (stdout (popen (argv prompt config sid)))) /\
  forall before e after,
    actions (run_claude popen prompt config (opt_str sid))
    = before ++ Yield e :: after ->
    exists seen line rest b,
      decoder_inputs (stdout (popen (argv prompt config sid)))
      = seen ++ line :: rest /\
      json_loads line = Ok (PyDict (data e)) /\
      logged before = log_of (seen ++ [line]) /\
      before = b ++ [LogWrite (line ++ nl); LogFlush].
Proof.
  intros Hdebug.
  pose proof (read_stdout_logged (stdout (popen (argv prompt config sid)))) as Hlog.
  pose proof (read_stdout_yield_point (stdout (popen (argv prompt config sid))))
    as Hyield.
  rewrite run_claude_unfold. cbv zeta. rewrite Hdebug.
  destruct (read_stdout true (stdout (popen (argv prompt config sid))))
    as [acts r].
  cbn [fst] in Hlog, Hyield.
  set (opened := [Popen (argv prompt config sid); StartDrain] ++ [OpenLog]).
  assert (Hactions : exists tail,
            yielded tail = [] /\ logged tail = EmptyString /\
            actions (match r with
                     | Some e => {| actions := opened ++ acts ++ [CloseLog];
                                    raised := Some e |}
                     | None =>
                         {| actions := opened ++ acts ++ [JoinDrain; Wait] ++ [CloseLog];
                            raised :=
                              if (returncode (popen (argv prompt config sid)) =? 0)%Z
                              then None
                              else Some (RuntimeError
                                           (exit_message (popen (argv prompt config sid)))) |}
                     end)
            = opened ++ acts ++ tail).
  { destruct r; [exists [CloseLog] | exists ([JoinDrain; Wait] ++ [CloseLog])];
      repeat split. }
  destruct Hactions as [tail [Hty [Htl ->]]].
  split.
  - rewrite !logged_app, Hlog, Htl. simpl. now rewrite append_nil_r.
  - intros before e after H.
    destruct (yield_after_prefix opened (acts ++ tail) before after e
                eq_refl H) as [b0 [Hb0 H0]].
    destruct (yield_before_suffix acts tail b0 after e Hty H0) as [a Ha].
    destruct (Hyield b0 e a Ha) as [seen [line [rest [b [Hi [Hj [Hl Hb]]]]]]].
    exists seen, line, rest, (opened ++ b).
    repeat split; try assumption.
    + rewrite Hb0, logged_app. simpl. exact Hl.
    + rewrite Hb0, Hb. now rewrite app_assoc.
Qed.

Lemma decoder_inputs_app (before rest : list string) :
  Forall object_or_skipped before ->
  decoder_inputs (before ++ rest) = decoder_inputs before ++ decoder_inputs rest.
Proof.
  induction 1 as [|raw before Hraw _ IH]; simpl; [reflexivity|].
  destruct (String.eqb (strip raw) EmptyString) eqn:Hblank; [exact IH|].
  destruct Hraw as [Hb | [Hnone | [d Hd]]].
  - rewrite Hb in Hblank. discriminate.
  - rewrite Hnone. simpl. now rewrite IH.
  - rewrite Hd. simpl. now rewrite IH.
Qed.

Lemma decoder_inputs_head (raw : string) (rest : list string) :
  strip raw <> EmptyString ->
  exists tail, decoder_inputs (raw :: rest) = strip raw :: tail.
Proof.
  intros H. apply String.eqb_neq in H. simpl. rewrite H.
  destruct (json_loads (strip raw)) as [[| | | | | |d]|[]]; eexists; reflexivity.
Qed.

Lemma log_of_app (a b : list string) :
  log_of (a ++ b) = (log_of a ++ log_of b)%string.
Proof.
  induction a as [|x a IH]; simpl; [reflexivity|].
  now rewrite IH, !append_assoc.
Qed.

(** C8. With the debug log enabled, the log of a run holds every text handed
    to the decoder, each followed by a line feed, in order: every line that
    the loop reaches and that is not blank is in it, whether it decodes or
    not. At the moment an event is yielded the log holds all the texts
    handed to the decoder so far, the last one being the text the event was
    decoded from, whose write and flush are the two actions right before the
    yield. *)
Theorem run_claude_debug_log
    (popen : list string -> Process) (prompt : string)
    (config : SpektacularConfig) (sid : option string) :
  enabled (debug config) = true ->
  logged (actions (run_claude popen prompt config (opt_str sid)))
  = log_of (decoder_inputs (stdout (popen (argv prompt config sid)))) /\
  (forall before raw after,
     stdout (popen (argv prompt config sid)) = before ++ raw :: after ->
     Forall object_or_skipped before ->
     strip raw <> EmptyString ->
     occurs_in (strip raw ++ nl)
       (logged (actions (run_claude popen prompt config (opt_str sid))))) /\
  (forall before e after,
     actions (run_claude popen prompt config (opt_str sid))
     = before ++ Yield e :: after ->
     exists seen line rest b,
       decoder_inputs (stdout (popen (argv prompt config sid)))
       = seen ++ line :: rest /\
       json_loads line = Ok (PyDict (data e)) /\
       logged before = log_of (seen ++ [line]) /\
       before = b ++ [LogWrite (line ++ nl); LogFlush]).
Proof.
  intros Hdebug.
  destruct (run_claude_log_and_yields popen prompt config sid Hdebug)
    as [Hlog Hyield].
  split; [exact Hlog|]. split; [|exact Hyield].
  intros before raw after Hout Hbefore Hraw.
  rewrite Hlog, Hout, (decoder_inputs_app _ _ Hbefore).
  destruct (decoder_inputs_head raw after Hraw) as [tail ->].
  rewrite log_of_app. simpl.
  exists (log_of (decoder_inputs before)), (log_of tail).
  now rewrite !append_assoc.
Qed.

End DebugLog.

(** A run with the debug log enabled over a record, a line that does not
    decode and a second record. *)
Lemma run_claude_debug_log_witness :
  logged (actions (run_claude (rt := cpython)
                     (process_of [system_line; "not json"; result_line] "" 0)
                     "prompt" debug_config (opt_str None)))
  = log_of [system_line; "not json"; result_line].
Proof.
  refine (proj1 (run_claude_debug_log (rt := cpython)
                   (process_of [system_line; "not json"; result_line] "" 0)
                   "prompt" debug_config None _)).
  reflexivity.
Defined.

(* ================================================================== *)
(** ** Properties of the event model *)
(* ================================================================== *)

Lemma text_blocks_of_dicts (blocks : list dict) :
  text_blocks_carry_text blocks ->
  text_blocks (map PyDict blocks) = Ok (map PyStr (texts_of blocks)).
Proof.
  induction 1 as [|b blocks Hb _ IH]; simpl; [reflexivity|].
  fold (tagged_text b).
  destruct (tagged_text b) eqn:Htag; [|exact IH].
  destruct (Hb eq_refl) as [s Hs]. rewrite Hs, IH. reflexivity.
Qed.

Lemma texts_of_nil_iff (blocks : list dict) :
  text_blocks_carry_text blocks ->
  texts_of blocks = [] <-> existsb tagged_text blocks = false.
Proof.
  induction 1 as [|b blocks Hb _ IH]; simpl; [tauto|].
  destruct (tagged_text b) eqn:Htag; simpl; [|exact IH].
  destruct (Hb eq_refl) as [s Hs]. rewrite Hs. split; discriminate.
Qed.

(** C7. [text_content] of an event whose kind is not [assistant] is [None].
    For an event of kind [assistant] whose message content is a list of
    blocks (objects; an absent message or content counts as the empty list)
    in which every block tagged [text] carries a str under [text],
    [text_content] is the texts of the blocks tagged [text], in their order,
    joined by line feeds, when there is such a block, and [None] when there
    is none: it is a str exactly when the kind is [assistant] and some block
    is tagged [text]. *)
Theorem text_content_joins_text_blocks (e : ClaudeEvent) :
  (py_eq_str (type e) "assistant" = false -> text_content e = Ok None) /\
  (forall blocks : list dict,
     py_eq_str (type e) "assistant" = true ->
     message_content e = Ok (PyList (map PyDict blocks)) ->
     text_blocks_carry_text blocks ->
     text_content e
     = Ok (match texts_of blocks with
           | [] => None
           | texts => Some (String.concat nl texts)
           end) /\
     ((exists s, text_content e = Ok (Some s))
      <-> existsb tagged_text blocks = true)).
Proof.
  split.
  - intros Hkind. unfold text_content. now rewrite Hkind.
  - intros blocks Hkind Hcontent Hblocks.
    assert (Htc : text_content e
                  = Ok (match texts_of blocks with
                        | [] => None
                        | texts => Some (String.concat nl texts)
                        end)).
    { unfold text_content. rewrite Hkind. simpl negb. cbv iota.
      unfold message_content in Hcontent. rewrite Hcontent. simpl.
      rewrite (text_blocks_of_dicts blocks Hblocks). simpl.
      destruct (texts_of blocks) as [|t ts] eqn:Hts; [reflexivity|].
      change (map PyStr (t :: ts)) with (PyStr t :: map PyStr ts).
      cbv iota. unfold py_join.
      change (PyStr t :: map PyStr ts) with (map PyStr (t :: ts)).
      now rewrite strs_of_map_PyStr. }
    split; [exact Htc|].
    rewrite Htc. pose proof (texts_of_nil_iff blocks Hblocks) as Hnil.
    destruct (texts_of blocks) as [|t ts].
    + split.
      * intros [s Hs]. discriminate Hs.
      * intros Hex. destruct Hnil as [Hnil _]. rewrite (Hnil eq_refl) in Hex.
        discriminate Hex.
    + split.
      * intros _. destruct (existsb tagged_text blocks); [reflexivity|].
        destruct Hnil as [_ Hnil]. discriminate (Hnil eq_refl).
      * intros _. eexists. reflexivity.
Qed.

(** The event of the test [test_text_content_multiple_blocks]: two text
    blocks around a tool call. *)
Lemma text_content_joins_text_blocks_witness :
  text_content
    {| type := PyStr "assistant";
       data := [("message",
                 PyDict [("content",
                          PyList (map PyDict
                            [[("type", PyStr "text"); ("text", PyStr "hello")];
                             [("type", PyStr "tool_use"); ("name", PyStr "Bash")];
                             [("type", PyStr "text"); ("text", PyStr "world")]]))])] |}
  = Ok (Some ("hello" ++ nl ++ "world")%string).
Proof.
  refine (proj1 (proj2 (text_content_joins_text_blocks _)
                   [[("type", PyStr "text"); ("text", PyStr "hello")];
                    [("type", PyStr "tool_use"); ("name", PyStr "Bash")];
                    [("type", PyStr "text"); ("text", PyStr "world")]] _ _ _)).
  - reflexivity.
  - reflexivity.
  - repeat apply Forall_cons; try apply Forall_nil; simpl; intros H;
      try discriminate H; eexists; reflexivity.
Defined.

(* ================================================================== *)
(** ** Properties of the question decoder *)
(* ================================================================== *)

Lemma strip_prefix_length (p s r : string) :
  strip_prefix p s = Some r ->
  String.length s = String.length p + String.length r.
Proof.
  revert s. induction p as [|a p IH]; simpl; intros s H.
  - now injection H as ->.
  - destruct s as [|b s]; [discriminate|].
    destruct (Ascii.eqb a b); [|discriminate].
    simpl. now rewrite (IH s H).
Qed.

Lemma split_at_length (sep s a b : string) :
  split_at sep s = Some (a, b) ->
  String.length s = String.length a + String.length sep + String.length b.
Proof.
  revert a. induction s as [|c s IH]; intros a H.
  - simpl in H. destruct (strip_prefix sep EmptyString) as [r|] eqn:Hp;
      [|discriminate].
    injection H as <- <-. apply strip_prefix_length in Hp. simpl in *. lia.
  - simpl in H. destruct (strip_prefix sep (String c s)) as [r|] eqn:Hp.
    + injection H as <- <-. apply strip_prefix_length in Hp. simpl in *. lia.
    + destruct (split_at sep s) as [[a' b']|]; [|discriminate].
      injection H as <- <-. simpl. now rewrite (IH a' eq_refl).
Qed.

Lemma finditer_from_S (fuel : nat) (text : string) :
  finditer_from (S fuel) text =
  match strip_prefix marker_open text with
  | Some body =>
      match split_at marker_close body with
      | Some (payload, after) => payload :: finditer_from fuel after
      | None =>
          match text with
          | EmptyString => []
          | String _ rest => finditer_from fuel rest
          end
      end
  | None =>
      match text with
      | EmptyString => []
      | String _ rest => finditer_from fuel rest
      end
  end.
Proof. reflexivity. Qed.

(** The scan for markers never runs out of fuel: any fuel above the length of
    the text gives the same matches. *)
Lemma finditer_fuel (fuel1 fuel2 : nat) (text : string) :
  String.length text < fuel1 -> String.length text < fuel2 ->
  finditer_from fuel1 text = finditer_from fuel2 text.
Proof.
  revert fuel2 text.
  induction fuel1 as [|fuel1 IH]; intros fuel2 text H1 H2; [lia|].
  destruct fuel2 as [|fuel2]; [lia|]. rewrite !finditer_from_S.
  assert (Hadv : match text with
                 | EmptyString => []
                 | String _ rest => finditer_from fuel1 rest
                 end
                 = match text with
                   | EmptyString => []
                   | String _ rest => finditer_from fuel2 rest
                   end).
  { destruct text as [|c rest]; [reflexivity|]. simpl in H1, H2.
    apply IH; lia. }
  destruct (strip_prefix marker_open text) as [body|] eqn:Hopen; [|exact Hadv].
  destruct (split_at marker_close body) as [[payload after]|] eqn:Hclose;
    [|exact Hadv].
  apply strip_prefix_length in Hopen. apply split_at_length in Hclose.
  simpl in Hopen, Hclose. f_equal. apply IH; lia.
Qed.

Lemma strip_prefix_app (p s : string) : strip_prefix p (p ++ s) = Some s.
Proof.
  induction p as [|a p IH]; simpl; [reflexivity|].
  now rewrite Ascii.eqb_refl.
Qed.

(** The scan finds a marker that no [<] precedes, with the payload that runs
    to the first closing delimiter, and goes on after it. *)
Lemma finditer_marker (before payload after : string) :
  (forall c, In c (list_ascii_of_string before) -> c <> "<"%char) ->
  split_at marker_close (payload ++ marker_close ++ after) = Some (payload, after) ->
  QUESTION_PATTERN_finditer
    (before ++ marker_open ++ payload ++ marker_close ++ after)
  = payload :: QUESTION_PATTERN_finditer after.
Proof.
  intros Hbefore Hclose. unfold QUESTION_PATTERN_finditer.
  induction before as [|c before IH].
  - cbn [append]. rewrite finditer_from_S, strip_prefix_app, Hclose.
    f_equal. apply finditer_fuel; [|lia].
    rewrite !length_append. unfold marker_open, marker_close. simpl. lia.
  - cbn [append]. rewrite finditer_from_S.
    assert (Hc : Ascii.eqb "<" c = false).
    { apply Ascii.eqb_neq. intros Heq.
      apply (Hbefore c); [now left|now symmetry]. }
    assert (Hopen : strip_prefix marker_open
                      (String c (before ++ marker_open ++ payload
                                 ++ marker_close ++ after)) = None).
    { unfold marker_open. cbn [strip_prefix]. now rewrite Hc. }
    rewrite Hopen.
    rewrite <- IH.
    + apply finditer_fuel; simpl; lia.
    + intros c' Hin. apply Hbefore. now right.
Qed.

Section DecoderProperties.
Context {rt : PyLib}.

Lemma append_questions_dicts (entries : list dict) :
  forall questions,
  exists r,
    append_questions (map PyDict entries) questions
    = (questions ++ leading_questions entries, r) /\
    match r with
    | Some e => caught_by_detect e = true
    | None => True
    end.
Proof.
  induction entries as [|q entries IH]; intros questions; simpl.
  - exists None. now rewrite app_nil_r.
  - destruct (dict_get "question" q) as [text|]; simpl.
    + destruct (IH (questions
                    ++ [{| question := text;
                           header := dict_get_default "header" (PyStr EmptyString) q;
                           options := dict_get_default "options" (PyList []) q |}]))
        as [r [Hr Hc]].
      exists r. rewrite Hr, <- app_assoc. now split.
    + exists (Some (KeyError "question")). now rewrite app_nil_r.
Qed.

Lemma try_payload_entries (payload : string) (entries : list dict)
    (questions : list Question) :
  payload_entries payload entries ->
  exists r,
    try_payload payload questions
    = (questions ++ leading_questions entries, r) /\
    match r with
    | Some e => caught_by_detect e = true
    | None => True
    end.
Proof.
  unfold try_payload. intros [[Hnone ->] | [d [Hd Hqs]]].
  - rewrite Hnone. exists (Some JSONDecodeError). now rewrite app_nil_r.
  - rewrite Hd. simpl. rewrite Hqs. simpl. apply append_questions_dicts.
Qed.

Lemma detect_loop_entries (payloads : list string) (entriess : list (list dict)) :
  Forall2 payload_entries payloads entriess ->
  forall questions,
    detect_loop payloads questions
    = Ok (questions ++ flat_map leading_questions entriess).
Proof.
  induction 1 as [|payload entries payloads entriess Hp _ IH];
    intros questions; simpl.
  - now rewrite app_nil_r.
  - destruct (try_payload_entries payload entries questions Hp) as [r [Hr Hc]].
    rewrite Hr. destruct r as [e|].
    + rewrite Hc, IH. now rewrite app_assoc.
    + rewrite IH. now rewrite app_assoc.
Qed.

(** C2 (amended). For every text in which each marker payload either makes
    [json.loads] raise [JSONDecodeError], or decodes to an object whose
    [questions], when present, is a list of objects, [detect_questions]
    returns, marker after marker in the order of the text, the descriptors
    of the entries of each payload that come before its first entry without
    a [question]. A payload refused with [JSONDecodeError] contributes
    nothing, and what a marker contributes does not depend on the other
    markers; within one payload, the first entry without a [question] ends
    the payload: the entries before it are kept, the entries after it are
    dropped. Nothing is promised for a text with a payload on which
    [json.loads] raises another exception, or that decodes to something
    else. *)
Theorem detect_questions_by_marker (text : string)
    (entriess : list (list dict)) :
  Forall2 payload_entries (QUESTION_PATTERN_finditer text) entriess ->
  detect_questions text = Ok (flat_map leading_questions entriess).
Proof.
  intros H. unfold detect_questions.
  now rewrite (detect_loop_entries _ _ H []).
Qed.

End DecoderProperties.

Lemma detect_questions_by_marker_witness :
  detect_questions (rt := cpython) three_markers
  = Ok [{| question := PyStr "Q1"; header := PyStr EmptyString;
           options := PyList [] |};
        {| question := PyStr "Q3"; header := PyStr "H3";
           options := PyList [] |}].
Proof.
  refine (detect_questions_by_marker (rt := cpython) three_markers
            [[];
             [[("question", PyStr "Q1")]; [("header", PyStr "h")];
              [("question", PyStr "Q2")]];
             [[("question", PyStr "Q3"); ("header", PyStr "H3")]]] _).
  change (QUESTION_PATTERN_finditer three_markers)
    with (ltac:(let v := eval vm_compute in (QUESTION_PATTERN_finditer three_markers)
                in exact v)).
  repeat apply Forall2_cons; try apply Forall2_nil.
  - left. split; vm_compute; reflexivity.
  - right. eexists. split; vm_compute; reflexivity.
  - right. eexists. split; vm_compute; reflexivity.
Defined.

(** C2, as stated, fails. The entry without a [question] discards the valid
    entry that follows it in the same payload: nothing is returned, where
    the valid entry alone is returned as a descriptor. *)
Lemma bad_entry_discards_later_entries :
  detect_questions (rt := cpython) bad_entry_first = Ok [] /\
  detect_questions (rt := cpython) good_entry_alone
  = Ok [{| question := PyStr "Q2"; header := PyStr EmptyString;
           options := PyList [] |}].
Proof. split; vm_compute; reflexivity. Qed.

(* ================================================================== *)
(** ** Properties of the console front end *)
(* ================================================================== *)

Lemma echo_options_labelled (opts : list dict) :
  Forall (fun o => dict_get "label" o <> None) opts ->
  echo_options (map PyDict opts) = Ok tt.
Proof.
  induction 1 as [|o opts Ho _ IH]; simpl; [reflexivity|].
  destruct (dict_get "label" o); [exact IH|congruence].
Qed.

Section ConsoleProperties.
Context {rt : PyLib}.

(** The prompt of a question with options reads one line. *)
Lemma click_prompt_default (default reply : string) (rest : list string) :
  click_prompt (Some default) (reply :: rest) = Ok (entered default reply, rest).
Proof. unfold entered. simpl. now destruct (String.eqb reply EmptyString). Qed.

(** What [answer_question] does once the options are printed and the line
    read. *)
Lemma answer_question_options (q : Question) (opts : list dict)
    (reply : string) (rest : list string) :
  options q = PyList (map PyDict opts) ->
  opts <> [] ->
  Forall (fun o => dict_get "label" o <> None) opts ->
  answer_question q (reply :: rest) =
  match int_of_str (entered "1" reply) with
  | Some n =>
      if ((0 <=? n - 1) && (n - 1 <? Z.of_nat (List.length opts)))%Z then
        match nth_error opts (Z.to_nat (n - 1)) with
        | Some o =>
            match dict_get "label" o with
            | Some label => Ok (label, rest)
            | None => Raise (KeyError "label")
            end
        | None => Raise IndexError
        end
      else Ok (PyStr (entered "1" reply), rest)
  | None => Ok (PyStr (entered "1" reply), rest)
  end.
Proof.
  intros Hopts Hne Hlabels. unfold answer_question. rewrite Hopts.
  assert (Htrue : truthy (PyList (map PyDict opts)) = true)
    by (destruct opts; [congruence|reflexivity]).
  rewrite Htrue. cbn [py_iter bind].
  rewrite (echo_options_labelled _ Hlabels). cbn [bind].
  rewrite click_prompt_default. cbn [bind].
  destruct (int_of_str (entered "1" reply)) as [n|]; [|reflexivity].
  cbn [py_len bind]. rewrite length_map. unfold dict in *.
  destruct ((0 <=? n - 1) && (n - 1 <? Z.of_nat (List.length opts)))%Z;
    [|reflexivity].
  cbn [py_index]. rewrite nth_error_map.
  destruct (nth_error opts (Z.to_nat (n - 1))) as [o'|]; cbn [option_map bind];
    [|reflexivity].
  cbn [py_getitem]. destruct (dict_get "label" o'); reflexivity.
Qed.

Lemma collect_answers_Answered (questions : list Question)
    (replies answers replies' : list string) :
  Answered questions replies answers replies' ->
  forall acc,
    collect_answers questions acc replies
    = Ok (acc ++ map PyStr answers, replies').
Proof.
  induction 1 as [replies|q qs replies a replies' answers replies'' Hq _ IH];
    intros acc; simpl.
  - now rewrite app_nil_r.
  - rewrite Hq. simpl. rewrite IH, <- app_assoc. reflexivity.
Qed.

(** C10 (amended). In the console front end, for a question whose options
    are a non-empty list of objects that each have a [label], the value of the
    prompt is the line typed, or the default [1] when the line is empty.
    When that value parses as an integer between 1 and the number of options,
    the answer recorded is the label of the option at that position, not the
    text typed; so an empty line records the label of the first option (where
    [int] reads [1] as 1). When the value parses as an integer outside that
    range, or does not parse as an integer, the answer recorded is the value
    itself, which for a line that is not empty is the text typed. When every
    question of a list is answered, each with a str, the answers, taken in
    the order of the questions, are joined with the separator made of a
    semicolon and a space. *)
Theorem console_answers (q : Question) (opts : list dict)
    (reply : string) (rest : list string)
    (questions : list Question) (replies answers replies' : list string) :
  options q = PyList (map PyDict opts) ->
  opts <> [] ->
  Forall (fun o => dict_get "label" o <> None) opts ->
  Answered questions replies answers replies' ->
  (forall n,
     int_of_str (entered "1" reply) = Some n ->
     (1 <= n <= Z.of_nat (List.length opts))%Z ->
     exists o label,
       nth_error opts (Z.to_nat (n - 1)) = Some o /\
       dict_get "label" o = Some label /\
       answer_question q (reply :: rest) = Ok (label, rest)) /\
  (forall n,
     int_of_str (entered "1" reply) = Some n ->
     (n < 1 \/ Z.of_nat (List.length opts) < n)%Z ->
     answer_question q (reply :: rest) = Ok (PyStr (entered "1" reply), rest)) /\
  (int_of_str (entered "1" reply) = None ->
   answer_question q (reply :: rest) = Ok (PyStr (entered "1" reply), rest)) /\
  (reply <> EmptyString -> entered "1" reply = reply) /\
  (int_of_str "1" = Some 1%Z ->
   exists o label,
     nth_error opts 0 = Some o /\
     dict_get "label" o = Some label /\
     answer_question q (EmptyString :: rest) = Ok (label, rest)) /\
  prompt_user_for_answer questions replies
  = Ok (String.concat "; " answers, replies').
Proof.
  intros Hopts Hne Hlabels Hanswered.
  pose proof (answer_question_options q opts reply rest Hopts Hne Hlabels) as Ha.
  assert (Hin : forall line n,
     int_of_str (entered "1" line) = Some n ->
     (1 <= n <= Z.of_nat (List.length opts))%Z ->
     exists o label,
       nth_error opts (Z.to_nat (n - 1)) = Some o /\
       dict_get "label" o = Some label /\
       answer_question q (line :: rest) = Ok (label, rest)).
  { intros line n Hn Hrange.
    pose proof (answer_question_options q opts line rest Hopts Hne Hlabels) as Hl.
    rewrite Hn in Hl.
    replace ((0 <=? n - 1) && (n - 1 <? Z.of_nat (List.length opts)))%Z
      with true in Hl
      by (symmetry; apply andb_true_iff; split;
          [apply Z.leb_le | apply Z.ltb_lt]; lia).
    destruct (nth_error opts (Z.to_nat (n - 1))) as [o|] eqn:Ho.
    - pose proof (proj1 (Forall_forall _ _) Hlabels o (nth_error_In _ _ Ho)) as Hlab.
      destruct (dict_get "label" o) as [label|] eqn:Hlabel; [|congruence].
      exists o, label. repeat split; assumption.
    - apply nth_error_None in Ho. lia. }
  split; [exact (Hin reply)|].
  split.
  { intros n Hn Hrange. rewrite Hn in Ha.
    replace ((0 <=? n - 1) && (n - 1 <? Z.of_nat (List.length opts)))%Z
      with false in Ha; [exact Ha|].
    symmetry. apply andb_false_iff.
    destruct Hrange; [left; apply Z.leb_gt | right; apply Z.ltb_ge]; lia. }
  split; [intros Hn; now rewrite Hn in Ha|].
  split.
  { intros Hreply. unfold entered.
    apply String.eqb_neq in Hreply. now rewrite Hreply. }
  split.
  { intros Hone.
    destruct (Hin EmptyString 1%Z Hone) as [o [label H]].
    - destruct opts; [congruence|]. simpl List.length. lia.
    - now exists o, label. }
  unfold prompt_user_for_answer.
  rewrite (collect_answers_Answered _ _ _ _ Hanswered []). simpl.
  unfold py_join. now rewrite strs_of_map_PyStr.
Qed.

End ConsoleProperties.

(** The second option chosen by its number, then a free answer. *)
Lemma console_answers_witness :
  prompt_user_for_answer (rt := cpython) [choice_question; free_question]
    ["2"; "because"]
  = Ok ("B; because", []).
Proof.
  refine (proj2 (proj2 (proj2 (proj2 (proj2
    (console_answers (rt := cpython) choice_question two_options "2" []
       [choice_question; free_question] ["2"; "because"] ["B"; "because"] []
       _ _ _ _)))))).
  - reflexivity.
  - discriminate.
  - repeat apply Forall_cons; try apply Forall_nil; discriminate.
  - apply Answered_cons with (replies' := ["because"]);
      [vm_compute; reflexivity|].
    apply Answered_cons with (replies' := []); [vm_compute; reflexivity|].
    apply Answered_nil.
Defined.

(** C10, as stated, fails. The prompt of a question with options has the
    default [1]: at an empty line, which is not an integer, the answer
    recorded is the label of the first option, not the line typed. *)
Lemma empty_reply_selects_first_option :
  int_of_str (PyLib := cpython) EmptyString = None /\
  answer_question (rt := cpython) choice_question [EmptyString]
  = Ok (PyStr "A", []) /\
  answer_question (rt := cpython) choice_question [EmptyString]
  <> Ok (PyStr EmptyString, []).
Proof. repeat split; try (vm_compute; reflexivity). vm_compute. discriminate. Qed.

(* ================================================================== *)
(** ** Properties of the conversation loop *)
(* ================================================================== *)

Lemma truthy_observe_session_id (sid : pyval) (e : ClaudeEvent) :
  truthy sid = true -> truthy (observe_session_id sid e) = true.
Proof.
  unfold observe_session_id. intros H.
  destruct (truthy (session_id e)) eqn:He; assumption.
Qed.

Lemma truthy_last_session_id (evs : list ClaudeEvent) (sid : pyval) :
  truthy sid = true -> truthy (last_session_id evs sid) = true.
Proof.
  revert sid. induction evs as [|e evs IH]; intros sid H; simpl; [exact H|].
  apply IH. now apply truthy_observe_session_id.
Qed.

Lemma last_result_no_result (evs : list ClaudeEvent) (final_result : pyval) :
  Forall (fun e => is_result e = false) evs ->
  last_result evs final_result = final_result.
Proof.
  revert final_result.
  induction evs as [|e evs IH]; intros final_result H; [reflexivity|].
  inversion H as [|? ? He Hevs]; subst.
  change (last_result (e :: evs) final_result)
    with (last_result evs (observe_result final_result e)).
  unfold observe_result. rewrite He. now apply IH.
Qed.

Lemma last_result_of_last_record (before after : list ClaudeEvent)
    (r : ClaudeEvent) (final_result : pyval) :
  is_result r = true ->
  Forall (fun e => is_result e = false) after ->
  last_result (before ++ r :: after) final_result = result_text r.
Proof.
  intros Hr Hafter. unfold last_result. rewrite fold_left_app.
  cbn [fold_left].
  fold (last_result after
          (observe_result (fold_left observe_result before final_result) r)).
  rewrite (last_result_no_result _ _ Hafter).
  unfold observe_result. now rewrite Hr.
Qed.

Section LoopProperties.
Context {rt : PyLib}.

Lemma on_event_session_id (t t' : Turn) (e : ClaudeEvent) :
  on_event t e = Ok t' ->
  turn_session_id t' = observe_session_id (turn_session_id t) e.
Proof.
  unfold on_event, observe_session_id. intros H.
  destruct (text_content e) as [text|]; [|discriminate]. cbn [bind] in H.
  destruct (match text with
            | Some s =>
                if negb (String.eqb s EmptyString)
                then detected <- detect_questions s ;;
                     Ok (questions_found t ++ detected)
                else Ok (questions_found t)
            | None => Ok (questions_found t)
            end) as [found|]; [|discriminate]. cbn [bind] in H.
  destruct (is_result e); [destruct (truthy (is_error e)); [discriminate|]|];
    injection H as <-; reflexivity.
Qed.

Lemma consume_session_id (evs : list ClaudeEvent) (t t' : Turn) :
  consume evs t = Ok t' ->
  turn_session_id t' = last_session_id evs (turn_session_id t).
Proof.
  revert t. induction evs as [|e evs IH]; intros t H; simpl in *.
  - now injection H as <-.
  - destruct (on_event t e) as [t1|] eqn:He; [|discriminate].
    cbn [bind] in H. rewrite (IH t1 H).
    now rewrite (on_event_session_id _ _ _ He).
Qed.

Lemma worker_event_session_id (w : Worker) (e : ClaudeEvent) :
  worker_session_id (fst (worker_event w e))
  = observe_session_id (worker_session_id w) e.
Proof.
  unfold worker_event, observe_session_id.
  destruct (tool_uses e) as [tools|]; [|reflexivity].
  destruct (post_tools tools (posted w)) as [msgs [x|]]; [reflexivity|].
  destruct (text_content e) as [text|]; [|reflexivity].
  destruct (if match text with
               | Some s => negb (String.eqb s EmptyString)
               | None => false
               end
            then detect_questions match text with
                                  | Some s => s
                                  | None => EmptyString
                                  end
            else Ok []); [|reflexivity].
  destruct (is_result e); [destruct (truthy (is_error e))|]; reflexivity.
Qed.

(** Two calls of [run_claude] in a row: the second one is given the session
    id left by the events of the first. *)
Lemma plan_loop_next_session_id (fuel : nat)
    (popen : nat -> list string -> Process) (config : SpektacularConfig) :
  forall (n : nat) (current_prompt : string) (sid final_result : pyval)
         (replies : list string) (k : nat) (p1 p2 : string) (s1 s2 : pyval),
    nth_error (invocations (plan_loop fuel popen config n current_prompt sid
                              final_result replies)) k = Some (p1, s1) ->
    nth_error (invocations (plan_loop fuel popen config n current_prompt sid
                              final_result replies)) (S k) = Some (p2, s2) ->
    s2 = last_session_id (events (run_claude (popen (n + k)) p1 config s1)) s1.
Proof.
  induction fuel as [|fuel IH];
    intros n current_prompt sid final_result replies k p1 p2 s1 s2 H1 H2.
  - destruct k; discriminate H1.
  - cbn [plan_loop] in H1, H2. unfold invoked in H1, H2.
    cbn [invocations] in H1, H2.
    destruct (consume (events (run_claude (popen n) current_prompt config sid))
                {| turn_session_id := sid; turn_final_result := final_result;
                   questions_found := [] |}) as [t|] eqn:Hc;
      [|destruct k as [|[|k]]; discriminate H2].
    destruct (raised (run_claude (popen n) current_prompt config sid));
      [destruct k as [|[|k]]; discriminate H2|].
    destruct (questions_found t) as [|q qs];
      [destruct k as [|[|k]]; discriminate H2|].
    destruct (prompt_user_for_answer (q :: qs) replies) as [[answer replies']|];
      [|destruct k as [|[|k]]; discriminate H2].
    destruct k as [|k].
    + cbn [nth_error] in H1, H2. injection H1 as <- <-.
      rewrite Nat.add_0_r.
      destruct fuel as [|fuel]; [discriminate H2|].
      cbn [plan_loop] in H2. unfold invoked in H2. cbn [invocations nth_error] in H2.
      injection H2 as _ <-.
      apply consume_session_id in Hc. exact Hc.
    + cbn [nth_error] in H1, H2.
      rewrite Nat.add_succ_r.
      exact (IH (S n) answer (turn_session_id t) (turn_final_result t) replies'
                k p1 p2 s1 s2 H1 H2).
Qed.

Lemma plan_loop_first_invocation (fuel : nat)
    (popen : nat -> list string -> Process) (config : SpektacularConfig)
    (n : nat) (current_prompt : string) (sid final_result : pyval)
    (replies : list string) (p : string) (s : pyval) :
  nth_error (invocations (plan_loop fuel popen config n current_prompt sid
                            final_result replies)) 0 = Some (p, s) ->
  p = current_prompt /\ s = sid.
Proof.
  destruct fuel as [|fuel]; [discriminate|].
  cbn [plan_loop]. unfold invoked. cbn [invocations nth_error].
  intros H. injection H as <- <-. split; reflexivity.
Qed.

(** C4 (amended). In the conversation loop of [run_plan], the first call of
    [run_claude] is given no session id, and each later call is given the
    session id left by the events of the call before it: the id carried by
    the last of those events that carries one (a value that is true), or,
    when none of them carries one, the id that call was given itself. So the
    session id is never cleared once it is set, but an event that carries a
    different id replaces it. The worker of the text interface updates the
    session id of the app in the same way at each event. *)
Theorem session_id_follows_latest_event (fuel : nat)
    (popen : nat -> list string -> Process) (config : SpektacularConfig)
    (prompt : string) (replies : list string) (k : nat) (p1 p2 : string)
    (s1 s2 : pyval) :
  nth_error (invocations (run_plan fuel popen config prompt replies)) k
  = Some (p1, s1) ->
  nth_error (invocations (run_plan fuel popen config prompt replies)) (S k)
  = Some (p2, s2) ->
  s2 = last_session_id (events (run_claude (popen k) p1 config s1)) s1 /\
  (truthy s1 = true -> truthy s2 = true) /\
  (k = 0 -> p1 = prompt /\ s1 = PyNone) /\
  (forall t e t', on_event t e = Ok t' ->
     turn_session_id t' = if truthy (session_id e) then session_id e
                          else turn_session_id t) /\
  (forall w e,
     worker_session_id (fst (worker_event w e))
     = if truthy (session_id e) then session_id e else worker_session_id w).
Proof.
  intros H1 H2. unfold run_plan in *.
  pose proof (plan_loop_next_session_id fuel popen config 0 prompt PyNone PyNone
                replies k p1 p2 s1 s2 H1 H2) as Hnext.
  simpl in Hnext. repeat split.
  - exact Hnext.
  - intros Hs1. rewrite Hnext. now apply truthy_last_session_id.
  - subst k. now destruct (plan_loop_first_invocation _ _ _ _ _ _ _ _ _ _ H1).
  - subst k. now destruct (plan_loop_first_invocation _ _ _ _ _ _ _ _ _ _ H1).
  - intros t e t' H. exact (on_event_session_id t t' e H).
  - intros w e. exact (worker_event_session_id w e).
Qed.

End LoopProperties.

(** The second call of the conversation with [two_session_agent]. *)
Lemma session_id_follows_latest_event_witness :
  PyStr "s2"
  = last_session_id
      (events (run_claude (rt := cpython) (two_session_agent 0) "prompt"
                 default_config PyNone)) PyNone.
Proof.
  refine (proj1 (session_id_follows_latest_event (rt := cpython) 5
                   two_session_agent default_config "prompt" ["yes"] 0
                   "prompt" "yes" PyNone (PyStr "s2") _ _)).
  - vm_compute. reflexivity.
  - vm_compute. reflexivity.
Defined.

(** C4, as stated, fails. In the first turn of [two_session_agent] the first
    event carries the session id [s1] and a later event carries [s2]; the
    second call of [run_claude] is given [s2], not [s1]. *)
Lemma later_event_replaces_session_id :
  map session_id
    (events (run_claude (rt := cpython) (two_session_agent 0) "prompt"
               default_config PyNone))
  = [PyStr "s1"; PyStr "s2"] /\
  invocations (run_plan (rt := cpython) 5 two_session_agent default_config
                 "prompt" ["yes"])
  = [("prompt", PyNone); ("yes", PyStr "s2")] /\
  fst (fst (run_agent (rt := cpython) (two_session_agent 0) default_config
              PyNone "prompt"))
  = PyStr "s2".
Proof. repeat split; vm_compute; reflexivity. Qed.

Section Completion.
Context {rt : PyLib}.

Lemma on_event_quiet (t : Turn) (e : ClaudeEvent) :
  quiet e ->
  truthy (is_error e) = false ->
  on_event t e
  = Ok {| turn_session_id := observe_session_id (turn_session_id t) e;
          turn_final_result := observe_result (turn_final_result t) e;
          questions_found := questions_found t |}.
Proof.
  intros Hq Herr. unfold on_event, observe_session_id, observe_result.
  assert (Hfound :
    (text <- text_content e ;;
     match text with
     | Some s =>
         if negb (String.eqb s EmptyString)
         then detected <- detect_questions s ;; Ok (questions_found t ++ detected)
         else Ok (questions_found t)
     | None => Ok (questions_found t)
     end) = Ok (questions_found t)).
  { destruct Hq as [Hnone | [s [Hs [Hempty | Hdetect]]]].
    - now rewrite Hnone.
    - rewrite Hs. subst s. reflexivity.
    - rewrite Hs. cbn [bind].
      destruct (negb (String.eqb s EmptyString)); [|reflexivity].
      rewrite Hdetect. cbn [bind]. now rewrite app_nil_r. }
  destruct (text_content e) as [text|]; [|discriminate Hfound].
  cbn [bind] in *. rewrite Hfound. cbn [bind].
  rewrite Herr. destruct (is_result e); reflexivity.
Qed.

Lemma consume_quiet (evs : list ClaudeEvent) :
  Forall quiet evs ->
  Forall (fun e => truthy (is_error e) = false) evs ->
  forall t,
    consume evs t
    = Ok {| turn_session_id := last_session_id evs (turn_session_id t);
            turn_final_result := last_result evs (turn_final_result t);
            questions_found := questions_found t |}.
Proof.
  induction evs as [|e evs IH]; intros Hq Herr t.
  - now destruct t.
  - inversion Hq as [|? ? Hqe Hqs]; subst.
    inversion Herr as [|? ? Hee Hes]; subst.
    cbn [consume]. rewrite (on_event_quiet t e Hqe Hee). cbn [bind].
    rewrite (IH Hqs Hes). reflexivity.
Qed.

(** A turn without questions, errors and failures ends the loop with the
    result text recorded so far. *)
Lemma plan_loop_last_turn (fuel : nat) (popen : nat -> list string -> Process)
    (config : SpektacularConfig) (n : nat) (current_prompt : string)
    (sid final_result : pyval) (replies : list string) :
  raised (run_claude (popen n) current_prompt config sid) = None ->
  Forall quiet (events (run_claude (popen n) current_prompt config sid)) ->
  Forall (fun e => truthy (is_error e) = false)
    (events (run_claude (popen n) current_prompt config sid)) ->
  plan_loop (S fuel) popen config n current_prompt sid final_result replies
  = {| invocations := [(current_prompt, sid)];
       outcome :=
         write_result
           (last_result (events (run_claude (popen n) current_prompt config sid))
              final_result) |}.
Proof.
  intros Hraised Hq Herr. cbn [plan_loop].
  rewrite (consume_quiet _ Hq Herr). cbn [turn_final_result questions_found].
  rewrite Hraised. reflexivity.
Qed.

(** C6 (amended). Take a turn of the conversation loop in which
    [run_claude] raises nothing (its loop over the lines reaches the end of
    the stream and the process exits with code 0), every event is handled
    without an exception and without a question being detected (its text
    content is absent, empty, or a text in which [detect_questions] finds no
    question), and no event has a true [is_error]. When the last result
    record of the stream has a result text that is a str and not empty, the
    loop ends as completed with that text, which is what is written to the
    plan. When the stream has no event at all and no result text was
    recorded in an earlier turn, the loop ends as failed with the error that
    the agent completed without producing a result. *)
Theorem plan_loop_completes_or_lacks_result (fuel : nat)
    (popen : nat -> list string -> Process) (config : SpektacularConfig)
    (n : nat) (current_prompt : string) (sid final_result : pyval)
    (replies : list string) :
  raised (run_claude (popen n) current_prompt config sid) = None ->
  Forall quiet (events (run_claude (popen n) current_prompt config sid)) ->
  Forall (fun e => truthy (is_error e) = false)
    (events (run_claude (popen n) current_prompt config sid)) ->
  (forall before r after text,
     events (run_claude (popen n) current_prompt config sid)
     = before ++ r :: after ->
     is_result r = true ->
     Forall (fun e => is_result e = false) after ->
     result_text r = PyStr text ->
     text <> EmptyString ->
     outcome (plan_loop (S fuel) popen config n current_prompt sid
                final_result replies)
     = Completed text) /\
  (events (run_claude (popen n) current_prompt config sid) = [] ->
   truthy final_result = false ->
   outcome (plan_loop (S fuel) popen config n current_prompt sid
              final_result replies)
   = Failed (RuntimeError no_result_message)).
Proof.
  intros Hraised Hq Herr.
  rewrite (plan_loop_last_turn fuel popen config n current_prompt sid
             final_result replies Hraised Hq Herr).
  cbn [outcome]. split.
  - intros before r after text Hev Hr Hafter Htext Hne.
    rewrite Hev, (last_result_of_last_record _ _ _ _ Hr Hafter), Htext.
    unfold write_result. cbn [truthy].
    apply String.eqb_neq in Hne. now rewrite Hne.
  - intros Hev Hfalse. rewrite Hev. cbn [last_result fold_left].
    unfold write_result. now rewrite Hfalse.
Qed.

End Completion.

(** The stream of [done_agent]: a system record, then a result record with
    the text [done]. *)
Lemma plan_loop_completes_or_lacks_result_witness :
  outcome (plan_loop (rt := cpython) 1 done_agent default_config 0 "prompt"
             PyNone PyNone [])
  = Completed "done".
Proof.
  refine (proj1 (plan_loop_completes_or_lacks_result (rt := cpython) 0
                   done_agent default_config 0 "prompt" PyNone PyNone [] _ _ _)
            [{| type := PyStr "system";
                data := [("type", PyStr "system"); ("session_id", PyStr "s1")] |}]
            {| type := PyStr "result";
               data := [("type", PyStr "result"); ("result", PyStr "done");
                        ("is_error", PyBool false)] |}
            [] "done" _ _ _ _ _).
  - vm_compute. reflexivity.
  - change (events (run_claude (done_agent 0) "prompt" default_config PyNone))
      with (ltac:(let v := eval vm_compute in
                    (events (run_claude (rt := cpython) (done_agent 0) "prompt"
                               default_config PyNone)) in exact v)).
    repeat apply Forall_cons; try apply Forall_nil; left; reflexivity.
  - change (events (run_claude (done_agent 0) "prompt" default_config PyNone))
      with (ltac:(let v := eval vm_compute in
                    (events (run_claude (rt := cpython) (done_agent 0) "prompt"
                               default_config PyNone)) in exact v)).
    repeat apply Forall_cons; try apply Forall_nil; reflexivity.
  - vm_compute. reflexivity.
  - reflexivity.
  - apply Forall_nil.
  - reflexivity.
  - discriminate.
Defined.

(** C6, as stated, fails. The stream of [empty_result_agent] is one result
    record with [is_error] false and an empty result text, no question is
    detected and the exit code is 0: [run_plan] does not complete with that
    text, it fails with the error of a missing result. *)
Lemma empty_result_is_no_result :
  map is_result
    (events (run_claude (rt := cpython) (empty_result_agent 0) "prompt"
               default_config PyNone)) = [true] /\
  map is_error
    (events (run_claude (rt := cpython) (empty_result_agent 0) "prompt"
               default_config PyNone)) = [PyBool false] /\
  map result_text
    (events (run_claude (rt := cpython) (empty_result_agent 0) "prompt"
               default_config PyNone)) = [PyStr EmptyString] /\
  outcome (run_plan (rt := cpython) 1 empty_result_agent default_config
             "prompt" [])
  = Failed (RuntimeError no_result_message) /\
  outcome (run_plan (rt := cpython) 1 empty_result_agent default_config
             "prompt" [])
  <> Completed EmptyString.
Proof.
  repeat split; try (vm_compute; reflexivity).
  vm_compute. discriminate.
Qed.

(* ================================================================== *)
(** ** The model on the cases of tests/test_runner.py *)
(* ================================================================== *)

Example test_session_id :
  session_id {| type := PyStr "system"; data := [("session_id", PyStr "abc123")] |}
  = PyStr "abc123".
Proof. reflexivity. Qed.

Example test_is_result :
  is_result {| type := PyStr "result"; data := [] |} = true /\
  is_result {| type := PyStr "assistant"; data := [] |} = false.
Proof. split; reflexivity. Qed.

Example test_is_error :
  truthy (is_error {| type := PyStr "result";
                      data := [("is_error", PyBool true)] |}) = true /\
  truthy (is_error {| type := PyStr "result";
                      data := [("is_error", PyBool false)] |}) = false.
Proof. split; reflexivity. Qed.

Example test_result_text :
  result_text {| type := PyStr "result"; data := [("result", PyStr "done")] |}
  = PyStr "done" /\
  result_text {| type := PyStr "assistant"; data := [] |} = PyNone.
Proof. split; reflexivity. Qed.

Example test_text_content :
  text_content
    {| type := PyStr "assistant";
       data := [("message",
                 PyDict [("content",
                          PyList [PyDict [("type", PyStr "text");
                                          ("text", PyStr "hello")]])])] |}
  = Ok (Some "hello") /\
  text_content {| type := PyStr "system"; data := [] |} = Ok None.
Proof. split; reflexivity. Qed.

Example test_single_question :
  detect_questions (rt := cpython) single_question_text
  = Ok [{| question := PyStr "Which approach?";
           header := PyStr "Approach";
           options := PyList [PyDict [("label", PyStr "A");
                                      ("description", PyStr "Option A")]] |}].
Proof. vm_compute. reflexivity. Qed.

Example test_no_questions :
  detect_questions (rt := cpython) "no markers here" = Ok [].
Proof. vm_compute. reflexivity. Qed.

Example test_invalid_json_skipped :
  detect_questions (rt := cpython) "<!--QUESTION:not json-->" = Ok [].
Proof. vm_compute. reflexivity. Qed.

Example test_multiple_questions_in_one_marker :
  option_map (@List.length Question)
    match detect_questions (rt := cpython) two_questions_text with
    | Ok qs => Some qs
    | Raise _ => None
    end
  = Some 2.
Proof. vm_compute. reflexivity. Qed.

Example test_yields_parsed_events :
  map type (events (run_claude (rt := cpython)
                      (process_of [system_line; result_line; EmptyString]
                         EmptyString 0)
                      "prompt" default_config PyNone))
  = [PyStr "system"; PyStr "result"] /\
  raised (run_claude (rt := cpython)
            (process_of [system_line; result_line; EmptyString] EmptyString 0)
            "prompt" default_config PyNone)
  = None.
Proof. split; vm_compute; reflexivity. Qed.

Example test_raises_on_nonzero_exit :
  raised (run_claude (rt := cpython) (process_of [] "error output" 1)
            "prompt" default_config PyNone)
  = Some (RuntimeError "Claude process exited with code 1: error output").
Proof. vm_compute. reflexivity. Qed.

Example test_skips_invalid_json_lines :
  map type (events (run_claude (rt := cpython)
                      (process_of ["not json"; ok_result_line] EmptyString 0)
                      "prompt" default_config PyNone))
  = [PyStr "result"].
Proof. vm_compute. reflexivity. Qed.

Example test_log_when_debug_enabled :
  logged (actions (run_claude (rt := cpython)
                     (process_of [system_line; result_line] EmptyString 0)
                     "prompt" debug_config PyNone))
  = (system_line ++ nl ++ result_line ++ nl)%string /\
  logged (actions (run_claude (rt := cpython)
                     (process_of [result_line] EmptyString 0)
                     "prompt" default_config PyNone))
  = EmptyString.
Proof. split; vm_compute; reflexivity. Qed.

(** The ways [json.loads] and the two prompts of the console end, on the
    executable library. *)
Example json_loads_outcomes :
  json_loads (PyLib := cpython) "42" = Ok (PyInt 42) /\
  json_loads (PyLib := cpython) "not json" = Raise JSONDecodeError /\
  json_loads (PyLib := cpython) deep_text = Raise RecursionError /\
  json_loads (PyLib := cpython) long_integer = Raise ValueError.
Proof. repeat split; vm_compute; reflexivity. Qed.

Example click_prompt_outcomes :
  click_prompt (Some "1") [""; "x"] = Ok ("1", ["x"]) /\
  click_prompt (Some "1") ["2"; "x"] = Ok ("2", ["x"]) /\
  click_prompt None [""; ""; "x"; "y"] = Ok ("x", ["y"]) /\
  click_prompt None [""; ""] = Raise Abort.
Proof. repeat split. Qed.

(* ================================================================== *)
(** ** Further properties: build_prompt *)
(* ================================================================== *)

Lemma concat_cons_cons (sep x y : string) (l : list string) :
  String.concat sep (x :: y :: l) = (x ++ sep ++ String.concat sep (y :: l))%string.
Proof. reflexivity. Qed.

Lemma knowledge_sections_app (a b : list (string * string)) :
  knowledge_sections (a ++ b)
  = (knowledge_sections a ++ knowledge_sections b)%string.
Proof.
  induction a as [|e a IH]; simpl; [reflexivity|].
  now rewrite IH, !append_assoc.
Qed.

Lemma concat_knowledge_parts (entries : list (string * string)) (last : string) :
  (nl ++ String.concat nl (map knowledge_part entries ++ [last]))%string
  = (knowledge_sections entries ++ nl ++ last)%string.
Proof.
  induction entries as [|e entries IH]; [reflexivity|].
  cbn [map app knowledge_sections].
  destruct (map knowledge_part entries ++ [last]) as [|y l] eqn:Hl.
  - destruct entries; discriminate Hl.
  - rewrite concat_cons_cons, IH. now rewrite !append_assoc.
Qed.

Lemma build_prompt_closed_form (spec_content agent_prompt : string)
    (knowledge_contents : list (string * string)) :
  build_prompt spec_content agent_prompt knowledge_contents
  = (agent_prompt ++ nl ++ knowledge_heading
     ++ knowledge_sections knowledge_contents
     ++ nl ++ specification_heading ++ spec_content)%string.
Proof.
  unfold build_prompt. cbn [app].
  rewrite concat_cons_cons.
  destruct (map knowledge_part knowledge_contents
            ++ [(specification_heading ++ spec_content)%string])
    as [|y l] eqn:Hl.
  - destruct knowledge_contents; discriminate Hl.
  - rewrite concat_cons_cons, <- Hl, concat_knowledge_parts.
    reflexivity.
Qed.

(** X1. The prompt starts with the agent prompt and ends with the specification
    under its heading; between them, after the heading of the knowledge
    base, every knowledge file has its section, a heading with the file name
    followed by the content, and the sections come in the order of the dict.
    Without knowledge files the two headings follow each other. *)
Theorem build_prompt_layout (spec_content agent_prompt : string)
    (before after : list (string * string)) (filename content : string) :
  build_prompt spec_content agent_prompt (before ++ (filename, content) :: after)
  = (agent_prompt ++ nl ++ knowledge_heading
     ++ knowledge_sections before
     ++ nl ++ (nl ++ "## " ++ filename ++ nl ++ content ++ nl)
     ++ knowledge_sections after
     ++ nl ++ specification_heading ++ spec_content)%string /\
  build_prompt spec_content agent_prompt []
  = (agent_prompt ++ nl ++ knowledge_heading
     ++ nl ++ specification_heading ++ spec_content)%string.
Proof.
  split; rewrite build_prompt_closed_form; [|reflexivity].
  rewrite knowledge_sections_app. cbn [knowledge_sections].
  unfold knowledge_part. cbn [fst snd].
  now rewrite !append_assoc.
Qed.

(* ================================================================== *)
(** ** Further properties: _expand_env_vars *)
(* ================================================================== *)

Lemma substring_0_length (a b : string) :
  substring 0 (String.length a) (a ++ b) = a.
Proof.
  induction a as [|c a IH]; simpl; [now destruct b|now rewrite IH].
Qed.

Lemma substring_length_suffix (a b : string) :
  substring (String.length a) (String.length b) (a ++ b) = b.
Proof.
  induction a as [|c a IH]; simpl; [|exact IH].
  rewrite <- (append_nil_r b) at 2. apply substring_0_length.
Qed.

(** X2. With no environment variable set, the configuration data come back
    unchanged. *)
Theorem expand_env_vars_without_environment (data : pyval) :
  expand_env_vars (fun _ => None) data = data.
Proof.
  revert data. fix IH 1. intros data.
  destruct data as [| | | |s|l|d]; cbn [expand_env_vars]; try reflexivity.
  - now destruct (startswith "${}" s && endswith "}" s)%bool.
  - f_equal. induction l as [|x l IHl]; [reflexivity|].
    cbn [map]. now rewrite IH, IHl.
  - f_equal. induction d as [|[k v] d IHd]; [reflexivity|].
    cbn [map]. now rewrite IH, IHd.
Qed.

Lemma strip_prefix_Some (p s r : string) :
  strip_prefix p s = Some r -> s = (p ++ r)%string.
Proof.
  revert s. induction p as [|a p IH]; simpl; intros s H.
  - now injection H as ->.
  - destruct s as [|b s]; [discriminate|].
    destruct (Ascii.eqb a b) eqn:Hab; [|discriminate].
    apply Ascii.eqb_eq in Hab. subst b. now rewrite (IH s H).
Qed.

Lemma string_snoc (r : string) :
  r <> EmptyString -> exists body c, r = (body ++ String c EmptyString)%string.
Proof.
  induction r as [|a r IH]; [congruence|]. intros _.
  destruct r as [|b r].
  - now exists EmptyString, a.
  - destruct IH as [body [c Hr]]; [discriminate|].
    exists (String a body), c. cbn [append]. now rewrite <- Hr.
Qed.

(** The variable looked up for a value between the three opening characters
    and a last character. *)
Lemma env_var_of_placeholder (body : string) (c : ascii) :
  substring 2 (String.length ("${}" ++ body ++ String c EmptyString) - 3)
    ("${}" ++ body ++ String c EmptyString)
  = ("}" ++ body)%string.
Proof.
  cbn [append String.length substring].
  replace (S (S (S (String.length (body ++ String c EmptyString)))) - 3)
    with (S (String.length body))
    by (rewrite length_append; cbn [String.length]; lia).
  f_equal. apply substring_0_length.
Qed.

Lemma endswith_last (body : string) (c : ascii) :
  endswith "}" ("${}" ++ body ++ String c EmptyString) = Ascii.eqb c "}".
Proof.
  unfold endswith. rewrite <- append_assoc, length_append.
  cbn [String.length]. rewrite Nat.add_sub.
  change 1 with (String.length (String c EmptyString)) at 3.
  rewrite substring_length_suffix.
  replace (1 <=? String.length ("${}" ++ body) + 1)%nat with true
    by (symmetry; apply Nat.leb_le; lia).
  cbn [andb String.eqb]. now destruct (Ascii.eqb c "}").
Qed.

(** X3. A value written as a dollar sign and a name in braces, the name not
    starting with a closing brace, is left as it is whatever the environment
    holds, also when a variable of that name is set: the test on the first
    characters asks for a closing brace right after the opening one. A
    value of the form dollar sign, opening brace, closing brace, some text,
    closing brace is replaced by the value of the variable named by the
    closing brace followed by the text, when that one is set. These are the
    only str values replaced, with the value made of the first three of these
    characters alone, for which the variable looked up has the empty name. *)
Theorem expand_env_vars_placeholder (getenv : string -> option string) :
  (forall (c : ascii) (name : string),
     c <> "}"%char ->
     expand_env_vars getenv (PyStr ("${" ++ String c name ++ "}"))
     = PyStr ("${" ++ String c name ++ "}")) /\
  (forall body value : string,
     getenv ("}" ++ body)%string = Some value ->
     expand_env_vars getenv (PyStr ("${}" ++ body ++ "}")) = PyStr value) /\
  (forall s : string,
     expand_env_vars getenv (PyStr s) <> PyStr s ->
     exists var value,
       s = ("${" ++ var ++ "}")%string /\
       (var = EmptyString \/ exists body, var = ("}" ++ body)%string) /\
       getenv var = Some value /\
       expand_env_vars getenv (PyStr s) = PyStr value).
Proof.
  split; [|split].
  - intros c name Hc.
    cbn [expand_env_vars]. unfold startswith. cbn [append strip_prefix].
    rewrite !Ascii.eqb_refl.
    assert (Hne : Ascii.eqb "}" c = false)
      by (apply Ascii.eqb_neq; congruence).
    now rewrite Hne.
  - intros body value Henv. cbn [expand_env_vars].
    assert (Hstart : startswith "${}" ("${}" ++ body ++ "}") = true)
      by (unfold startswith; now rewrite strip_prefix_app).
    rewrite Hstart, endswith_last, env_var_of_placeholder, Henv. reflexivity.
  - intros s Hs. cbn [expand_env_vars] in Hs |- *.
    unfold startswith in Hs |- *.
    destruct (strip_prefix "${}" s) as [r|] eqn:Hr; [|now destruct Hs].
    apply strip_prefix_Some in Hr. subst s.
    destruct r as [|a r'].
    + cbn in Hs |- *.
      destruct (getenv EmptyString) as [value|] eqn:Henv; [|now destruct Hs].
      exists EmptyString, value. repeat split; try assumption. now left.
    + destruct (string_snoc (String a r')) as [body [c Hbody]]; [discriminate|].
      rewrite Hbody in Hs |- *.
      rewrite endswith_last, env_var_of_placeholder in Hs |- *.
      destruct (Ascii.eqb c "}") eqn:Hc; [|now destruct Hs].
      apply Ascii.eqb_eq in Hc. subst c. cbn [andb] in Hs |- *.
      destruct (getenv ("}" ++ body)%string) as [value|] eqn:Henv;
        [|now destruct Hs].
      exists ("}" ++ body)%string, value. repeat split; try assumption.
      right. now exists body.
Qed.

(** The default API key, in an environment where every variable is set. *)
Lemma expand_env_vars_placeholder_witness :
  expand_env_vars (fun _ => Some "secret")
    (PyStr ("${" ++ String "A" "NTHROPIC_API_KEY" ++ "}"))
  = PyStr ("${" ++ String "A" "NTHROPIC_API_KEY" ++ "}").
Proof.
  refine (proj1 (expand_env_vars_placeholder (fun _ => Some "secret"))
            "A"%char "NTHROPIC_API_KEY" _).
  discriminate.
Defined.

(* ================================================================== *)
(** ** Further properties: question markers and tool calls *)
(* ================================================================== *)

Lemma split_at_None_tail (sep : string) (c : ascii) (s : string) :
  split_at sep (String c s) = None ->
  strip_prefix sep (String c s) = None /\ split_at sep s = None.
Proof.
  cbn [split_at]. destruct (strip_prefix sep (String c s)); [discriminate|].
  destruct (split_at sep s) as [[a b]|]; [discriminate|]. now split.
Qed.

Lemma split_at_None_head (sep s : string) :
  split_at sep s = None -> strip_prefix sep s = None.
Proof.
  destruct s as [|c s]; [|now intros H; apply split_at_None_tail in H].
  cbn [split_at]. now destruct (strip_prefix sep EmptyString).
Qed.

Lemma split_at_None_suffix (sep a b : string) :
  split_at sep (a ++ b) = None -> split_at sep b = None.
Proof.
  induction a as [|c a IH]; [trivial|].
  cbn [append]. intros H. apply split_at_None_tail in H. now apply IH.
Qed.

Lemma finditer_no_open (fuel : nat) (text : string) :
  split_at marker_open text = None -> finditer_from fuel text = [].
Proof.
  revert text. induction fuel as [|fuel IH]; intros text H; [reflexivity|].
  rewrite finditer_from_S, (split_at_None_head _ _ H).
  destruct text as [|c rest]; [reflexivity|].
  apply IH. now apply split_at_None_tail in H.
Qed.

Lemma finditer_no_close (fuel : nat) (text : string) :
  split_at marker_close text = None -> finditer_from fuel text = [].
Proof.
  revert text. induction fuel as [|fuel IH]; intros text H; [reflexivity|].
  rewrite finditer_from_S.
  assert (Hadv : match text with
                 | EmptyString => []
                 | String _ rest => finditer_from fuel rest
                 end = []).
  { destruct text as [|c rest]; [reflexivity|].
    apply IH. now apply split_at_None_tail in H. }
  destruct (strip_prefix marker_open text) as [body|] eqn:Hopen; [|exact Hadv].
  apply strip_prefix_Some in Hopen. subst text.
  now rewrite (split_at_None_suffix _ _ _ H).
Qed.

Section MarkerProperties.
Context {rt : PyLib}.

Lemma append_questions_acc (qs : list pyval) :
  forall questions,
    append_questions qs questions
    = (questions ++ fst (append_questions qs []), snd (append_questions qs [])).
Proof.
  induction qs as [|q qs IH]; intros questions; cbn [append_questions].
  - cbn [fst snd]. now rewrite app_nil_r.
  - destruct (text <- py_getitem q "question" ;;
              hd <- py_get q "header" (PyStr EmptyString) ;;
              opts <- py_get q "options" (PyList []) ;;
              Ok {| question := text; header := hd; options := opts |})
      as [qu|e].
    + rewrite (IH (questions ++ [qu])), (IH ([] ++ [qu])).
      cbn [fst snd app]. now rewrite <- app_assoc.
    + cbn [fst snd]. now rewrite app_nil_r.
Qed.

Lemma try_payload_acc (payload : string) (questions : list Question) :
  try_payload payload questions
  = (questions ++ fst (try_payload payload []), snd (try_payload payload [])).
Proof.
  unfold try_payload. destruct (json_loads payload) as [doc|].
  - destruct (qs <- py_get doc "questions" (PyList []) ;; py_iter qs) as [qs|e].
    + apply append_questions_acc.
    + cbn [fst snd]. now rewrite app_nil_r.
  - cbn [fst snd]. now rewrite app_nil_r.
Qed.

Lemma detect_loop_acc (payloads : list string) :
  forall questions,
    detect_loop payloads questions
    = (found <- detect_loop payloads [] ;; Ok (questions ++ found)).
Proof.
  induction payloads as [|payload rest IH]; intros questions;
    cbn [detect_loop].
  - cbn [bind]. now rewrite app_nil_r.
  - rewrite (try_payload_acc payload questions).
    destruct (try_payload payload []) as [found r]. cbn [fst snd app].
    rewrite (IH (questions ++ found)), (IH found).
    destruct r as [e|].
    + destruct (caught_by_detect e); [|reflexivity].
      destruct (detect_loop rest []) as [more|]; cbn [bind]; [|reflexivity].
      now rewrite app_assoc.
    + destruct (detect_loop rest []) as [more|]; cbn [bind]; [|reflexivity].
      now rewrite app_assoc.
Qed.

(** X4. A text without the opening delimiter of a marker, or without the closing
    one, holds no question: [detect_questions] returns the empty list and
    raises nothing, whatever the text decodes to. *)
Theorem detect_questions_without_marker (text : string) :
  split_at marker_open text = None \/ split_at marker_close text = None ->
  detect_questions text = Ok [].
Proof.
  unfold detect_questions, QUESTION_PATTERN_finditer.
  intros [H | H];
    [rewrite (finditer_no_open _ _ H) | rewrite (finditer_no_close _ _ H)];
    reflexivity.
Qed.

(** X5. Take a text that starts, after some text without [<], with a marker.
    When [json.loads] raises [JSONDecodeError] on the payload of the marker,
    or the payload decodes to an object whose [questions], when present, is
    a list of objects, the questions of the text are the questions of the
    marker (the entries of its payload before the first one without a
    [question]) followed by the questions of the text after the marker, and
    the whole raises only if the rest does: markers are read from left to
    right. When [json.loads] raises on the payload an exception that the
    handler does not take ([RecursionError], [ValueError]), or the payload
    decodes to something else than an object, [detect_questions] raises
    (that exception, or the [AttributeError] of [data.get]) whatever the rest
    of the text holds. *)
Theorem detect_questions_marker_then_rest (before payload after : string) :
  (forall c, In c (list_ascii_of_string before) -> c <> "<"%char) ->
  split_at marker_close (payload ++ marker_close ++ after) = Some (payload, after) ->
  (forall entries,
     payload_entries payload entries ->
     detect_questions (before ++ marker_open ++ payload ++ marker_close ++ after)
     = (found <- detect_questions after ;;
        Ok (leading_questions entries ++ found))) /\
  (forall e,
     json_loads payload = Raise e ->
     caught_by_detect e = false ->
     detect_questions (before ++ marker_open ++ payload ++ marker_close ++ after)
     = Raise e) /\
  (forall v,
     json_loads payload = Ok v ->
     (forall d, v <> PyDict d) ->
     detect_questions (before ++ marker_open ++ payload ++ marker_close ++ after)
     = Raise (AttributeError "get")).
Proof.
  intros Hbefore Hclose. unfold detect_questions.
  rewrite (finditer_marker _ _ _ Hbefore Hclose). cbn [detect_loop].
  split; [|split].
  - intros entries Hentries.
    destruct (try_payload_entries payload entries [] Hentries) as [r [Hr Hc]].
    rewrite Hr. cbn [app].
    rewrite (detect_loop_acc _ (leading_questions entries)).
    destruct r as [e|]; [now rewrite Hc|reflexivity].
  - intros e He Hcaught. unfold try_payload. rewrite He.
    now rewrite Hcaught.
  - intros v Hv Hnot. unfold try_payload. rewrite Hv.
    destruct v; try reflexivity. now destruct (Hnot entries).
Qed.

End MarkerProperties.

Lemma detect_questions_without_marker_witness :
  detect_questions (rt := cpython) "an arrow --> but no marker" = Ok [].
Proof.
  refine (detect_questions_without_marker (rt := cpython) _ _).
  left. vm_compute. reflexivity.
Defined.

(** A marker with one question, and a marker whose payload is nested too
    deep, after which a valid marker is lost. *)
Lemma detect_questions_marker_then_rest_witness :
  detect_questions (rt := cpython)
    ("see " ++ marker_open ++ json_text "{'questions': [{'question': 'Q1'}]}"
     ++ marker_close ++ " and more")
  = (found <- detect_questions (rt := cpython) " and more" ;;
     Ok (leading_questions [[("question", PyStr "Q1")]] ++ found)) /\
  detect_questions (rt := cpython)
    ("see " ++ marker_open ++ deep_text ++ marker_close ++ good_entry_alone)
  = Raise RecursionError.
Proof.
  split.
  - refine (proj1 (detect_questions_marker_then_rest (rt := cpython) "see "
                     (json_text "{'questions': [{'question': 'Q1'}]}")
                     " and more" _ _)
              [[("question", PyStr "Q1")]] _).
    + intros c Hin. vm_compute in Hin.
      repeat (destruct Hin as [<- | Hin]; [discriminate|]). destruct Hin.
    + vm_compute. reflexivity.
    + right. eexists. split; vm_compute; reflexivity.
  - refine (proj1 (proj2 (detect_questions_marker_then_rest (rt := cpython)
                            "see " deep_text good_entry_alone _ _))
              RecursionError _ _).
    + intros c Hin. vm_compute in Hin.
      repeat (destruct Hin as [<- | Hin]; [discriminate|]). destruct Hin.
    + vm_compute. reflexivity.
    + vm_compute. reflexivity.
    + reflexivity.
Defined.

Lemma tool_use_blocks_of_dicts (blocks : list dict) :
  tool_use_blocks (map PyDict blocks)
  = Ok (map PyDict (filter tagged_tool_use blocks)).
Proof.
  induction blocks as [|b blocks IH]; [reflexivity|].
  cbn [map tool_use_blocks py_get bind filter]. rewrite IH. cbn [bind].
  fold (tagged_tool_use b). now destruct (tagged_tool_use b).
Qed.

(** X6. [tool_uses] of every event whose kind is not [assistant] is empty,
    whatever its data; for an event of kind [assistant] whose message content
    is a list of objects it is the blocks tagged [tool_use], whole and in
    their order, whatever else the blocks hold. *)
Theorem tool_uses_lists_tool_blocks (e : ClaudeEvent) :
  (py_eq_str (type e) "assistant" = false -> tool_uses e = Ok []) /\
  (forall blocks,
     py_eq_str (type e) "assistant" = true ->
     message_content e = Ok (PyList (map PyDict blocks)) ->
     tool_uses e = Ok (map PyDict (filter tagged_tool_use blocks))).
Proof.
  unfold tool_uses. split.
  - now intros ->.
  - intros blocks -> Hcontent. cbn [negb].
    unfold message_content in Hcontent. rewrite Hcontent.
    cbn [bind py_iter]. apply tool_use_blocks_of_dicts.
Qed.

Lemma tool_uses_lists_tool_blocks_witness :
  tool_uses {| type := PyStr "system"; data := [("message", PyInt 3)] |}
  = Ok [] /\
  tool_uses
    {| type := PyStr "assistant";
       data := [("message",
                 PyDict [("content",
                          PyList (map PyDict
                            [[("type", PyStr "text"); ("text", PyStr "hello")];
                             [("type", PyStr "tool_use"); ("name", PyStr "Bash")]]))])] |}
  = Ok [PyDict [("type", PyStr "tool_use"); ("name", PyStr "Bash")]].
Proof.
  split.
  - refine (proj1 (tool_uses_lists_tool_blocks _) _). reflexivity.
  - refine (proj2 (tool_uses_lists_tool_blocks _)
                   [[("type", PyStr "text"); ("text", PyStr "hello")];
                    [("type", PyStr "tool_use"); ("name", PyStr "Bash")]] _ _);
      reflexivity.
Defined.

(* ================================================================== *)
(** ** Further properties: run_claude *)
(* ================================================================== *)

Section SupervisorProperties.
Context {rt : PyLib}.

Lemma read_stdout_no_log (lines : list string) :
  forallb (fun a => negb (is_log_action a)) (fst (read_stdout false lines)) = true.
Proof.
  induction lines as [|raw lines IH]; cbn [read_stdout]; [reflexivity|].
  destruct (String.eqb (strip raw) EmptyString); [exact IH|].
  destruct (json_loads (strip raw)) as [[| | | | | |d]|[]]; try reflexivity;
    destruct (read_stdout false lines) as [acts r]; exact IH.
Qed.

Lemma read_stdout_inside (debug_log : bool) (lines : list string) :
  forallb (fun a => negb (opens_or_closes a) && negb (joins_or_waits a))
    (fst (read_stdout debug_log lines)) = true.
Proof.
  induction lines as [|raw lines IH]; cbn [read_stdout]; [reflexivity|].
  destruct (String.eqb (strip raw) EmptyString); [exact IH|].
  destruct (json_loads (strip raw)) as [[| | | | | |d]|[]];
    try (now destruct debug_log);
    destruct (read_stdout debug_log lines) as [acts r]; cbn [fst] in *;
    rewrite forallb_app; destruct debug_log; cbn; exact IH.
Qed.

Lemma forallb_weaken {A : Type} (f g : A -> bool) (l : list A) :
  (forall x, f x = true -> g x = true) ->
  forallb f l = true -> forallb g l = true.
Proof.
  intros Hfg. induction l as [|x l IH]; cbn; [trivial|].
  intros H. apply andb_true_iff in H. destruct H as [Hx Hl].
  now rewrite (Hfg x Hx), (IH Hl).
Qed.

(** X7. With the debug log disabled no action of a run touches a log. With it
    enabled, the log is opened once, right after the process is started and
    the drain thread launched, and closed once, as the last action of the
    run, whether the run ends normally, with the error of a non-zero exit
    code or with an exception raised inside the loop. *)
Theorem run_claude_log_lifecycle
    (popen : list string -> Process) (prompt : string)
    (config : SpektacularConfig) (sid : option string) :
  (enabled (debug config) = false ->
   forallb (fun a => negb (is_log_action a))
     (actions (run_claude popen prompt config (opt_str sid))) = true) /\
  (enabled (debug config) = true ->
   exists inside,
     actions (run_claude popen prompt config (opt_str sid))
     = [Popen (argv prompt config sid); StartDrain; OpenLog]
       ++ inside ++ [CloseLog] /\
     forallb (fun a => negb (opens_or_closes a)) inside = true).
Proof.
  rewrite run_claude_unfold. cbv zeta. split; intros Hdebug; rewrite Hdebug.
  - pose proof (read_stdout_no_log (stdout (popen (argv prompt config sid))))
      as Hin.
    destruct (read_stdout false _) as [acts [e|]]; cbn [actions fst] in *;
      rewrite !forallb_app, Hin; reflexivity.
  - pose proof (read_stdout_inside true (stdout (popen (argv prompt config sid))))
      as Hin.
    apply (forallb_weaken _ (fun a => negb (opens_or_closes a))) in Hin;
      [|intros x Hx; apply andb_true_iff in Hx; tauto].
    destruct (read_stdout true _) as [acts [e|]]; cbn [actions fst] in *.
    + exists acts. split; [reflexivity|exact Hin].
    + exists (acts ++ [JoinDrain; Wait]). split.
      * cbn [app]. now rewrite <- app_assoc.
      * now rewrite forallb_app, Hin.
Qed.

(** X8. A line that is not blank and decodes to something else than an object
    ends the run: the events of the lines before it have been yielded, the
    run raises the [AttributeError] of [data.get], the lines after it are
    never read, and the process is neither joined nor waited for, so its
    exit code is not looked at. *)
Theorem run_claude_stops_at_non_object
    (popen : list string -> Process) (prompt : string)
    (config : SpektacularConfig) (sid : option string)
    (before after : list string) (raw : string) (v : pyval) :
  stdout (popen (argv prompt config sid)) = before ++ raw :: after ->
  Forall object_or_skipped before ->
  strip raw <> EmptyString ->
  json_loads (strip raw) = Ok v ->
  (forall d, v <> PyDict d) ->
  events (run_claude popen prompt config (opt_str sid))
  = flat_map event_of_line before /\
  raised (run_claude popen prompt config (opt_str sid))
  = Some (AttributeError "get") /\
  forallb (fun a => negb (joins_or_waits a))
    (actions (run_claude popen prompt config (opt_str sid))) = true.
Proof.
  intros Hout Hbefore Hraw Hv Hnot.
  destruct (read_stdout_objects (enabled (debug config)) before Hbefore)
    as [Hr Hy].
  assert (Hstop : read_stdout (enabled (debug config)) (raw :: after)
                  = ((if enabled (debug config)
                      then [LogWrite (strip raw ++ nl); LogFlush] else []),
                     Some (AttributeError "get"))).
  { cbn [read_stdout]. apply String.eqb_neq in Hraw. rewrite Hraw, Hv.
    destruct v; try reflexivity. now destruct (Hnot entries). }
  assert (Hread : read_stdout (enabled (debug config))
                    (stdout (popen (argv prompt config sid)))
                  = (fst (read_stdout (enabled (debug config)) before)
                     ++ (if enabled (debug config)
                         then [LogWrite (strip raw ++ nl); LogFlush] else []),
                     Some (AttributeError "get"))).
  { rewrite Hout, (read_stdout_app _ _ _ Hr), Hstop. reflexivity. }
  split; [|split].
  - rewrite events_run_claude, Hread. cbn [fst].
    rewrite yielded_app, Hy. destruct (enabled (debug config)); cbn;
      now rewrite app_nil_r.
  - now rewrite raised_run_claude, Hread.
  - pose proof (read_stdout_inside (enabled (debug config)) before) as Hin.
    apply (forallb_weaken _ (fun a => negb (joins_or_waits a))) in Hin;
      [|intros x Hx; apply andb_true_iff in Hx; tauto].
    rewrite run_claude_unfold. cbv zeta. rewrite Hread. cbn [actions].
    rewrite !forallb_app, Hin.
    destruct (enabled (debug config)); reflexivity.
Qed.

End SupervisorProperties.

Lemma run_claude_log_lifecycle_witness :
  exists inside,
    actions (run_claude (rt := cpython) (process_of lines_with_number "" 0)
               "prompt" debug_config (opt_str None))
    = [Popen (argv "prompt" debug_config None); StartDrain; OpenLog]
      ++ inside ++ [CloseLog] /\
    forallb (fun a => negb (opens_or_closes a)) inside = true.
Proof.
  refine (proj2 (run_claude_log_lifecycle (rt := cpython)
                   (process_of lines_with_number "" 0) "prompt" debug_config
                   None) _).
  reflexivity.
Defined.

Lemma run_claude_stops_at_non_object_witness :
  events (run_claude (rt := cpython) (process_of lines_with_number "" 0)
            "prompt" default_config (opt_str None))
  = flat_map (event_of_line (rt := cpython)) [system_line] /\
  raised (run_claude (rt := cpython) (process_of lines_with_number "" 0)
            "prompt" default_config (opt_str None))
  = Some (AttributeError "get") /\
  forallb (fun a => negb (joins_or_waits a))
    (actions (run_claude (rt := cpython) (process_of lines_with_number "" 0)
                "prompt" default_config (opt_str None))) = true.
Proof.
  refine (run_claude_stops_at_non_object (rt := cpython)
            (process_of lines_with_number "" 0) "prompt" default_config None
            [system_line] [result_line] "42" (PyInt 42) _ _ _ _ _).
  - reflexivity.
  - apply Forall_cons; [|apply Forall_nil].
    right; right. eexists. vm_compute. reflexivity.
  - vm_compute. discriminate.
  - vm_compute. reflexivity.
  - discriminate.
Defined.

Section StreamInvariants.
Context {rt : PyLib}.

Lemma read_stdout_all_blank (debug_log : bool) (lines : list string) :
  stripped_lines lines = [] -> read_stdout debug_log lines = ([], None).
Proof.
  induction lines as [|raw lines IH]; cbn [stripped_lines read_stdout];
    [reflexivity|].
  destruct (String.eqb (strip raw) EmptyString); [exact IH|discriminate].
Qed.

Lemma read_stdout_stripped (debug_log : bool) (lines1 : list string) :
  forall lines2,
    stripped_lines lines1 = stripped_lines lines2 ->
    read_stdout debug_log lines1 = read_stdout debug_log lines2.
Proof.
  induction lines1 as [|raw1 lines1 IH1]; intros lines2 H.
  - symmetry. apply read_stdout_all_blank. now rewrite <- H.
  - cbn [stripped_lines read_stdout] in *.
    destruct (String.eqb (strip raw1) EmptyString) eqn:Hblank1;
      [now apply IH1|].
    induction lines2 as [|raw2 lines2 IH2]; [discriminate H|].
    cbn [stripped_lines read_stdout] in *.
    destruct (String.eqb (strip raw2) EmptyString) eqn:Hblank2;
      [now apply IH2|].
    injection H as Hline Hrest.
    rewrite <- Hline, (IH1 lines2 Hrest). reflexivity.
Qed.

(** X9. A run depends on the standard output only through its stripped lines
    that are not blank: two processes whose outputs differ by blank lines
    and by white space around the lines, with the same standard error and
    exit code, give the same run, events, log and error included. *)
Theorem run_claude_ignores_blank_and_padding
    (popen1 popen2 : list string -> Process) (prompt : string)
    (config : SpektacularConfig) (sid : option string) :
  stripped_lines (stdout (popen1 (argv prompt config sid)))
  = stripped_lines (stdout (popen2 (argv prompt config sid))) ->
  stderr (popen1 (argv prompt config sid))
  = stderr (popen2 (argv prompt config sid)) ->
  returncode (popen1 (argv prompt config sid))
  = returncode (popen2 (argv prompt config sid)) ->
  run_claude popen1 prompt config (opt_str sid)
  = run_claude popen2 prompt config (opt_str sid).
Proof.
  intros Hout Herr Hcode. rewrite !run_claude_unfold. cbv zeta.
  rewrite (read_stdout_stripped _ _ _ Hout).
  unfold exit_message. now rewrite Herr, Hcode.
Qed.

Lemma read_stdout_yielded_from (debug_log : bool) (lines : list string)
    (e : ClaudeEvent) :
  In e (yielded (fst (read_stdout debug_log lines))) ->
  exists raw,
    In raw lines /\ strip raw <> EmptyString /\
    json_loads (strip raw) = Ok (PyDict (data e)) /\
    type e = dict_get_default "type" (PyStr "unknown") (data e).
Proof.
  induction lines as [|raw lines IH]; cbn [read_stdout]; [intros []|].
  destruct (String.eqb (strip raw) EmptyString) eqn:Hblank.
  - intros H. destruct (IH H) as [raw' [Hin Hrest]].
    exists raw'. split; [now right|exact Hrest].
  - apply String.eqb_neq in Hblank.
    destruct (json_loads (strip raw)) as [[| | | | | |d]|[]] eqn:Hd;
      try (destruct debug_log; intros []).
    + destruct (read_stdout debug_log lines) as [acts r]. cbn [fst] in *.
      rewrite yielded_log. cbn [yielded]. intros [<- | H].
      * exists raw. repeat split; try assumption. now left.
      * destruct (IH H) as [raw' [Hin Hrest]].
        exists raw'. split; [now right|exact Hrest].
    + destruct (read_stdout debug_log lines) as [acts r]. cbn [fst] in *.
      rewrite yielded_log. intros H.
      destruct (IH H) as [raw' [Hin Hrest]].
      exists raw'. split; [now right|exact Hrest].
Qed.

(** X10. Every event that [run_claude] yields, whatever session id it is given,
    comes from a line of the standard output of the process it started: the
    line is not blank, its stripped text decodes to the object that is the
    data of the event, and the kind of the event is what the object has
    under [type], or the str [unknown]. *)
Theorem run_claude_events_come_from_lines
    (popen : list string -> Process) (prompt : string)
    (config : SpektacularConfig) (sid : pyval) (e : ClaudeEvent) :
  In e (events (run_claude popen prompt config sid)) ->
  exists cmd raw,
    strs_of (run_claude_cmd prompt config sid) = Ok cmd /\
    In raw (stdout (popen cmd)) /\
    strip raw <> EmptyString /\
    json_loads (strip raw) = Ok (PyDict (data e)) /\
    type e = dict_get_default "type" (PyStr "unknown") (data e).
Proof.
  unfold run_claude, events.
  destruct (strs_of (run_claude_cmd prompt config sid)) as [cmd|];
    [|intros []].
  pose proof (read_stdout_yielded_from (enabled (debug config))
                (stdout (popen cmd)) e) as Hfrom.
  destruct (read_stdout (enabled (debug config)) (stdout (popen cmd)))
    as [acts [x|]]; cbn [actions fst] in *;
    rewrite yielded_opened, !yielded_app, yielded_closed; cbn [yielded];
    rewrite ?app_nil_r; intros H; destruct (Hfrom H) as [raw Hraw];
    exists cmd, raw; (split; [reflexivity|exact Hraw]).
Qed.

End StreamInvariants.

Lemma run_claude_ignores_blank_and_padding_witness :
  run_claude (rt := cpython)
    (process_of [("  " ++ system_line ++ nl)%string; ""; result_line] "" 0)
    "prompt" default_config (opt_str None)
  = run_claude (rt := cpython) (process_of [system_line; result_line] "" 0)
      "prompt" default_config (opt_str None).
Proof.
  refine (run_claude_ignores_blank_and_padding (rt := cpython)
            (process_of [("  " ++ system_line ++ nl)%string; ""; result_line] "" 0)
            (process_of [system_line; result_line] "" 0)
            "prompt" default_config None _ _ _).
  - vm_compute. reflexivity.
  - reflexivity.
  - reflexivity.
Defined.

Lemma run_claude_events_come_from_lines_witness :
  exists cmd raw,
    strs_of (run_claude_cmd "prompt" default_config PyNone) = Ok cmd /\
    In raw (stdout (process_of [untyped_line] "" 0 cmd)) /\
    strip raw <> EmptyString /\
    Json.loads (strip raw)
    = Ok (PyDict [("session_id", PyStr "s1"); ("note", PyStr "x")]) /\
    PyStr "unknown"
    = dict_get_default "type" (PyStr "unknown")
        [("session_id", PyStr "s1"); ("note", PyStr "x")].
Proof.
  refine (run_claude_events_come_from_lines (rt := cpython)
            (process_of [untyped_line] "" 0) "prompt" default_config PyNone
            {| type := PyStr "unknown";
               data := [("session_id", PyStr "s1"); ("note", PyStr "x")] |} _).
  vm_compute. left. reflexivity.
Defined.

(* ================================================================== *)
(** ** Further properties: the console front end and the plan loop *)
(* ================================================================== *)

Lemma is_result_text_content (e : ClaudeEvent) :
  is_result e = true -> text_content e = Ok None.
Proof.
  unfold is_result, text_content, py_eq_str.
  destruct (type e) as [| | | |s| |]; try discriminate.
  intros H. apply String.eqb_eq in H. subst s. reflexivity.
Qed.

Lemma not_result_no_error (e : ClaudeEvent) :
  is_result e = false -> truthy (is_error e) = false.
Proof. unfold is_error. now intros ->. Qed.

Section ConsoleLoop.
Context {rt : PyLib}.

(** The prompt without a default reads empty lines until a line that is not
    empty. *)
Lemma click_prompt_consumes (replies : list string) :
  forall value rest,
    click_prompt None replies = Ok (value, rest) ->
    exists used,
      replies = used ++ rest /\
      1 <= List.length used /\
      List.length used
      <= 1 + List.length (filter (fun line => String.eqb line EmptyString) used).
Proof.
  induction replies as [|reply replies IH]; intros value rest H;
    cbn [click_prompt] in H; [discriminate|].
  destruct (String.eqb reply EmptyString) eqn:Hreply.
  - destruct (IH _ _ H) as [used [-> [Hone Hmany]]].
    exists (reply :: used). cbn [app filter List.length]. rewrite Hreply.
    cbn [List.length]. repeat split; lia.
  - injection H as _ <-. exists [reply]. cbn [app filter List.length].
    rewrite Hreply. cbn [List.length]. repeat split; lia.
Qed.

Lemma answer_question_consumes (q : Question) (replies rest : list string)
    (a : pyval) :
  answer_question q replies = Ok (a, rest) ->
  exists used,
    replies = used ++ rest /\
    1 <= List.length used /\
    List.length used
    <= 1 + List.length (filter (fun line => String.eqb line EmptyString) used) /\
    (truthy (options q) = true -> List.length used = 1).
Proof.
  unfold answer_question.
  destruct (truthy (options q)).
  - destruct (py_iter (options q)) as [opts|]; [|discriminate]. cbn [bind].
    destruct (echo_options opts); [|discriminate]. cbn [bind].
    destruct replies as [|reply replies]; [discriminate|].
    rewrite click_prompt_default. cbn [bind].
    assert (Hused : exists used,
              reply :: replies = used ++ replies /\
              1 <= List.length used /\
              List.length used
              <= 1 + List.length
                       (filter (fun line => String.eqb line EmptyString) used) /\
              (true = true -> List.length used = 1)).
    { exists [reply]. cbn [app List.length]. repeat split; lia. }
    destruct (int_of_str (entered "1" reply)) as [n|].
    + destruct (py_len (options q)) as [len|]; [|discriminate]. cbn [bind].
      destruct ((0 <=? n - 1) && (n - 1 <? Z.of_nat len))%Z.
      * destruct (py_index (options q) (Z.to_nat (n - 1))) as [opt|];
          [|discriminate]. cbn [bind].
        destruct (py_getitem opt "label") as [label|]; [|discriminate].
        cbn [bind]. intros H. injection H as _ <-. exact Hused.
      * intros H. injection H as _ <-. exact Hused.
    + intros H. injection H as _ <-. exact Hused.
  - destruct (click_prompt None replies) as [[value replies']|] eqn:Hp;
      [|discriminate]. cbn [bind].
    intros H. injection H as _ <-.
    destruct (click_prompt_consumes _ _ _ Hp) as [used [Hu [Hone Hmany]]].
    exists used. repeat split; try assumption. discriminate.
Qed.

Lemma collect_answers_consumes (questions : list Question) :
  forall (acc : list pyval) (replies : list string) answers rest,
    collect_answers questions acc replies = Ok (answers, rest) ->
    exists used,
      replies = used ++ rest /\
      List.length questions <= List.length used /\
      List.length used
      <= List.length questions
         + List.length (filter (fun line => String.eqb line EmptyString) used) /\
      (Forall (fun q => truthy (options q) = true) questions ->
       List.length used = List.length questions).
Proof.
  induction questions as [|q questions IH]; intros acc replies answers rest H;
    cbn [collect_answers] in H.
  - injection H as _ <-. exists []. cbn. repeat split; lia.
  - destruct (answer_question q replies) as [[a replies']|] eqn:Hq;
      [|discriminate]. cbn [bind] in H.
    destruct (answer_question_consumes _ _ _ _ Hq)
      as [used1 [-> [Hone [Hmany Hopt]]]].
    destruct (IH _ _ _ _ H) as [used2 [-> [Hleast [Hmost Hall]]]].
    exists (used1 ++ used2). rewrite <- app_assoc.
    rewrite filter_app, !length_app. cbn [List.length].
    repeat split; try lia.
    intros Hq_all. inversion Hq_all as [|q' qs' Hq' Hqs']; subst.
    rewrite (Hopt Hq'), (Hall Hqs'). reflexivity.
Qed.

(** X11. When [prompt_user_for_answer] returns, it has read its lines from the
    front of what the user typed and has left the rest untouched. It has
    read at least one line for each question, so with fewer lines than
    questions it does not return; every line it has read beyond one for each
    question is an empty line, which the prompt of a question without options
    refuses; and when every question has options it has read exactly one
    line for each question. *)
Theorem prompt_user_for_answer_reads_from_front
    (questions : list Question) (replies rest : list string) (joined : string) :
  prompt_user_for_answer questions replies = Ok (joined, rest) ->
  exists used,
    replies = used ++ rest /\
    List.length questions <= List.length used /\
    List.length used
    <= List.length questions
       + List.length (filter (fun line => String.eqb line EmptyString) used) /\
    (Forall (fun q => truthy (options q) = true) questions ->
     List.length used = List.length questions).
Proof.
  unfold prompt_user_for_answer.
  destruct (collect_answers questions [] replies) as [[answers replies']|] eqn:Hc;
    [|discriminate]. cbn [bind].
  destruct (py_join "; " answers); [|discriminate]. cbn [bind].
  intros H. injection H as _ <-.
  exact (collect_answers_consumes _ _ _ _ _ Hc).
Qed.

Lemma consume_app (before after : list ClaudeEvent) :
  forall t,
    consume (before ++ after) t = (t' <- consume before t ;; consume after t').
Proof.
  induction before as [|e before IH]; intros t; cbn [app consume];
    [reflexivity|].
  destruct (on_event t e) as [t1|]; cbn [bind]; [apply IH|reflexivity].
Qed.

(** X12. A result record with a true [is_error] fails the plan with the error
    that carries its result text, at that event: the events after it, the
    exit code of the process and a result recorded before play no part, and
    no further call is made. *)
Theorem plan_loop_fails_on_error_result (fuel : nat)
    (popen : nat -> list string -> Process) (config : SpektacularConfig)
    (n : nat) (current_prompt : string) (sid final_result : pyval)
    (replies : list string) (before after : list ClaudeEvent)
    (r : ClaudeEvent) :
  events (run_claude (popen n) current_prompt config sid)
  = before ++ r :: after ->
  Forall quiet before ->
  Forall (fun e => truthy (is_error e) = false) before ->
  is_result r = true ->
  truthy (is_error r) = true ->
  plan_loop (S fuel) popen config n current_prompt sid final_result replies
  = {| invocations := [(current_prompt, sid)];
       outcome := Failed (AgentRuntimeError (result_text r)) |}.
Proof.
  intros Hev Hq Herr Hr Hre. cbn [plan_loop].
  rewrite Hev, consume_app, (consume_quiet _ Hq Herr). cbn [bind consume].
  unfold on_event. rewrite (is_result_text_content r Hr). cbn [bind].
  rewrite Hr, Hre. reflexivity.
Qed.

(** X13. When the run of a turn ends with an error after its last event (the
    error of a non-zero exit code, or an exception of the loop over the
    lines), the plan fails with that error although no event failed in the
    consumer: a result recorded in the turn is not written, and the user is
    not asked the questions found. *)
Theorem plan_loop_fails_on_run_error (fuel : nat)
    (popen : nat -> list string -> Process) (config : SpektacularConfig)
    (n : nat) (current_prompt : string) (sid final_result : pyval)
    (replies : list string) (t : Turn) (e : exn) :
  consume (events (run_claude (popen n) current_prompt config sid))
    {| turn_session_id := sid; turn_final_result := final_result;
       questions_found := [] |} = Ok t ->
  raised (run_claude (popen n) current_prompt config sid) = Some e ->
  plan_loop (S fuel) popen config n current_prompt sid final_result replies
  = {| invocations := [(current_prompt, sid)]; outcome := Failed e |}.
Proof.
  intros Hc Hraised. cbn [plan_loop]. now rewrite Hc, Hraised.
Qed.

(** X14. A result recorded in a turn that also asks questions is kept: when the
    turn that follows the answers has no result record, no question and no
    error, the plan completes with the text recorded in the turn before. *)
Theorem plan_loop_keeps_earlier_result (fuel : nat)
    (popen : nat -> list string -> Process) (config : SpektacularConfig)
    (n : nat) (current_prompt : string) (sid final_result : pyval)
    (replies replies' : list string) (t : Turn) (q : Question)
    (qs : list Question) (answer text : string) :
  consume (events (run_claude (popen n) current_prompt config sid))
    {| turn_session_id := sid; turn_final_result := final_result;
       questions_found := [] |} = Ok t ->
  raised (run_claude (popen n) current_prompt config sid) = None ->
  questions_found t = q :: qs ->
  prompt_user_for_answer (q :: qs) replies = Ok (answer, replies') ->
  turn_final_result t = PyStr text ->
  text <> EmptyString ->
  raised (run_claude (popen (S n)) answer config (turn_session_id t)) = None ->
  Forall quiet
    (events (run_claude (popen (S n)) answer config (turn_session_id t))) ->
  Forall (fun e => is_result e = false)
    (events (run_claude (popen (S n)) answer config (turn_session_id t))) ->
  plan_loop (S (S fuel)) popen config n current_prompt sid final_result replies
  = {| invocations := [(current_prompt, sid); (answer, turn_session_id t)];
       outcome := Completed text |}.
Proof.
  intros Hc Hraised Hqs Hanswer Hfinal Hne Hraised' Hquiet Hnone.
  assert (Herr : Forall (fun e => truthy (is_error e) = false)
                   (events (run_claude (popen (S n)) answer config
                              (turn_session_id t)))).
  { apply (Forall_impl _ not_result_no_error Hnone). }
  change (plan_loop (S (S fuel)) popen config n current_prompt sid
            final_result replies)
    with (invoked (current_prompt, sid)
            match consume (events (run_claude (popen n) current_prompt config sid))
                    {| turn_session_id := sid;
                       turn_final_result := final_result;
                       questions_found := [] |} with
            | Raise e => ended (Failed e)
            | Ok t =>
                match raised (run_claude (popen n) current_prompt config sid) with
                | Some e => ended (Failed e)
                | None =>
                    match questions_found t with
                    | [] => ended (write_result (turn_final_result t))
                    | qs =>
                        match prompt_user_for_answer qs replies with
                        | Raise e => ended (Failed e)
                        | Ok (answer, replies') =>
                            plan_loop (S fuel) popen config (S n) answer
                              (turn_session_id t) (turn_final_result t) replies'
                        end
                    end
                end
            end).
  rewrite Hc, Hraised, Hqs, Hanswer.
  rewrite (plan_loop_last_turn fuel popen config (S n) answer
             (turn_session_id t) (turn_final_result t) replies'
             Hraised' Hquiet Herr).
  rewrite (last_result_no_result _ _ Hnone), Hfinal.
  unfold invoked, write_result. cbn [invocations outcome truthy].
  apply String.eqb_neq in Hne. now rewrite Hne.
Qed.

End ConsoleLoop.

(** The second question has no options: the empty line after the first
    reply is read and refused. *)
Lemma prompt_user_for_answer_reads_from_front_witness :
  exists used,
    ["2"; ""; "because"; "left over"] = used ++ ["left over"] /\
    List.length [choice_question; free_question] <= List.length used /\
    List.length used
    <= List.length [choice_question; free_question]
       + List.length (filter (fun line => String.eqb line EmptyString) used) /\
    (Forall (fun q => truthy (options q) = true) [choice_question; free_question] ->
     List.length used = List.length [choice_question; free_question]).
Proof.
  refine (prompt_user_for_answer_reads_from_front (rt := cpython)
            [choice_question; free_question]
            ["2"; ""; "because"; "left over"]
            ["left over"] "B; because" _).
  vm_compute. reflexivity.
Defined.

Lemma plan_loop_fails_on_error_result_witness :
  plan_loop (rt := cpython) 1 error_agent default_config 0 "prompt" PyNone
    PyNone []
  = {| invocations := [("prompt", PyNone)];
       outcome := Failed (AgentRuntimeError (PyStr "out of credit")) |}.
Proof.
  refine (plan_loop_fails_on_error_result (rt := cpython) 0 error_agent
            default_config 0 "prompt" PyNone PyNone []
            [{| type := PyStr "system";
                data := [("type", PyStr "system"); ("session_id", PyStr "s1")] |}]
            [{| type := PyStr "result";
                data := [("type", PyStr "result"); ("result", PyStr "done");
                         ("is_error", PyBool false)] |}]
            {| type := PyStr "result";
               data := [("type", PyStr "result");
                        ("result", PyStr "out of credit");
                        ("is_error", PyBool true)] |} _ _ _ _ _).
  - vm_compute. reflexivity.
  - apply Forall_cons; [left; reflexivity|apply Forall_nil].
  - apply Forall_cons; [reflexivity|apply Forall_nil].
  - reflexivity.
  - reflexivity.
Defined.

Lemma plan_loop_fails_on_run_error_witness :
  plan_loop (rt := cpython) 1 failing_agent default_config 0 "prompt" PyNone
    PyNone []
  = {| invocations := [("prompt", PyNone)];
       outcome :=
         Failed (RuntimeError "Claude process exited with code 1: boom") |}.
Proof.
  refine (plan_loop_fails_on_run_error (rt := cpython) 0 failing_agent
            default_config 0 "prompt" PyNone PyNone []
            {| turn_session_id := PyNone; turn_final_result := PyStr "done";
               questions_found := [] |} _ _ _).
  - vm_compute. reflexivity.
  - vm_compute. reflexivity.
Defined.

Lemma plan_loop_keeps_earlier_result_witness :
  plan_loop (rt := cpython) 2 result_then_question_agent default_config 0
    "prompt" PyNone PyNone ["yes"]
  = {| invocations := [("prompt", PyNone); ("yes", PyStr "s2")];
       outcome := Completed "done" |}.
Proof.
  refine (plan_loop_keeps_earlier_result (rt := cpython) 0
            result_then_question_agent default_config 0 "prompt" PyNone PyNone
            ["yes"] []
            {| turn_session_id := PyStr "s2"; turn_final_result := PyStr "done";
               questions_found :=
                 [{| question := PyStr "Go on?"; header := PyStr EmptyString;
                     options := PyList [] |}] |}
            {| question := PyStr "Go on?"; header := PyStr EmptyString;
               options := PyList [] |}
            [] "yes" "done" _ _ _ _ _ _ _ _ _).
  - vm_compute. reflexivity.
  - vm_compute. reflexivity.
  - reflexivity.
  - vm_compute. reflexivity.
  - reflexivity.
  - discriminate.
  - vm_compute. reflexivity.
  - change (events (run_claude (result_then_question_agent 1) "yes"
                      default_config (PyStr "s2")))
      with (ltac:(let v := eval vm_compute in
                    (events (run_claude (rt := cpython)
                               (result_then_question_agent 1) "yes"
                               default_config (PyStr "s2"))) in exact v)).
    apply Forall_cons; [left; reflexivity|apply Forall_nil].
  - change (events (run_claude (result_then_question_agent 1) "yes"
                      default_config (PyStr "s2")))
      with (ltac:(let v := eval vm_compute in
                    (events (run_claude (rt := cpython)
                               (result_then_question_agent 1) "yes"
                               default_config (PyStr "s2"))) in exact v)).
    apply Forall_cons; [reflexivity|apply Forall_nil].
Defined.

(* ================================================================== *)
(** ** Further properties: the text interface *)
(* ================================================================== *)

Lemma no_closing_app (a b : list Message) :
  no_closing (a ++ b) = (no_closing a && no_closing b)%bool.
Proof. unfold no_closing. apply forallb_app. Qed.

Lemma post_tools_no_closing (tools : list pyval) :
  forall msgs,
    no_closing msgs = true ->
    no_closing (fst (post_tools tools msgs)) = true.
Proof.
  induction tools as [|tool tools IH]; intros msgs H; cbn [post_tools];
    [exact H|].
  destruct (name <- py_get tool "name" (PyStr "tool") ;;
            input_data <- py_get tool "input" (PyDict []) ;;
            described <- tool_description name input_data ;;
            Ok (AgentToolUse name described)) as [m|] eqn:Hm; [|exact H].
  apply IH. rewrite no_closing_app, H.
  destruct (py_get tool "name" (PyStr "tool")) as [name|]; [|discriminate].
  cbn [bind] in Hm.
  destruct (py_get tool "input" (PyDict [])) as [input_data|]; [|discriminate].
  cbn [bind] in Hm.
  destruct (tool_description name input_data); [|discriminate].
  cbn [bind] in Hm. injection Hm as <-. reflexivity.
Qed.

Section WorkerProperties.
Context {rt : PyLib}.

Lemma worker_loop_session_id (evs : list ClaudeEvent) :
  forall w,
  exists k,
    worker_session_id (fst (worker_loop evs w))
    = last_session_id (firstn k evs) (worker_session_id w).
Proof.
  induction evs as [|e evs IH]; intros w; cbn [worker_loop].
  - now exists 0.
  - pose proof (worker_event_session_id w e) as He.
    destruct (worker_event w e) as [w' [h|]]; cbn [fst] in *.
    + exists 1. cbn. exact He.
    + destruct (IH w') as [k Hk]. exists (S k).
      cbn [firstn last_session_id fold_left].
      fold (last_session_id (firstn k evs)
              (observe_session_id (worker_session_id w) e)).
      now rewrite Hk, He.
Qed.

(** What messages one event adds: none that ends the turn, unless the event
    makes the worker return, and then the error message is the last one. *)
Lemma worker_event_messages (w : Worker) (e : ClaudeEvent) :
  no_closing (posted w) = true ->
  match worker_event w e with
  | (w', Some Returned) =>
      exists body m,
        posted w' = body ++ [m] /\ closing m = true /\ no_closing body = true
  | (w', _) => no_closing (posted w') = true
  end.
Proof.
  intros H. unfold worker_event.
  destruct (tool_uses e) as [tools|]; [|exact H].
  pose proof (post_tools_no_closing tools (posted w) H) as Htools.
  destruct (post_tools tools (posted w)) as [msgs [x|]]; cbn [fst] in Htools;
    [exact Htools|].
  destruct (text_content e) as [text|]; [|exact Htools].
  set (said := match text with
               | Some s => negb (String.eqb s EmptyString)
               | None => false
               end).
  set (s := match text with Some s => s | None => EmptyString end).
  assert (Hmsgs : no_closing (if said then msgs ++ [AgentOutput s] else msgs)
                  = true).
  { destruct said; [|exact Htools]. now rewrite no_closing_app, Htools. }
  destruct (if said then detect_questions s else Ok []) as [detected|];
    [|exact Hmsgs].
  destruct (is_result e); [|exact Hmsgs].
  destruct (truthy (is_error e)); [|exact Hmsgs].
  cbn [posted]. eexists _, _. split; [reflexivity|]. split; [reflexivity|].
  exact Hmsgs.
Qed.

Lemma worker_loop_messages (evs : list ClaudeEvent) :
  forall w,
    no_closing (posted w) = true ->
    match worker_loop evs w with
    | (w', Some Returned) =>
        exists body m,
          posted w' = body ++ [m] /\ closing m = true /\ no_closing body = true
    | (w', _) => no_closing (posted w') = true
    end.
Proof.
  induction evs as [|e evs IH]; intros w H; cbn [worker_loop]; [exact H|].
  pose proof (worker_event_messages w e H) as He.
  destruct (worker_event w e) as [w' [[|x]|]]; try exact He.
  now apply IH.
Qed.

(** X16. The session id that a call of [_run_agent] leaves in the app is the one
    it started with, updated by the events it handled before it stopped, a
    first part of the events of the run; a session id that is set is still
    set afterwards. *)
Theorem run_agent_session_id (popen : list string -> Process)
    (config : SpektacularConfig) (sid : pyval) (prompt : string) :
  (exists k,
     fst (fst (run_agent popen config sid prompt))
     = last_session_id
         (firstn k (events (run_claude popen prompt config sid))) sid) /\
  (truthy sid = true ->
   truthy (fst (fst (run_agent popen config sid prompt))) = true).
Proof.
  assert (H : exists k,
     fst (fst (run_agent popen config sid prompt))
     = last_session_id
         (firstn k (events (run_claude popen prompt config sid))) sid).
  { unfold run_agent.
    destruct (worker_loop_session_id
                (events (run_claude popen prompt config sid))
                {| worker_session_id := sid; posted := [];
                   worker_questions := []; worker_final_result := PyNone |})
      as [k Hk].
    exists k. cbn [worker_session_id] in Hk. rewrite <- Hk.
    destruct (worker_loop _ _) as [w [[|x]|]]; cbn [fst]; try reflexivity.
    destruct (raised _); [reflexivity|].
    destruct (worker_questions w); [|reflexivity].
    destruct (truthy (worker_final_result w)); [|reflexivity].
    destruct (worker_final_result w); reflexivity. }
  split; [exact H|].
  intros Hsid. destruct H as [k ->]. now apply truthy_last_session_id.
Qed.

(** X17. A call of [_run_agent] that does not die posts exactly one message that
    ends the turn (the questions, the completion or an error), and posts it
    last, after the outputs and tool calls. When writing the plan raises,
    the worker dies without having posted any such message. *)
Theorem run_agent_posts_one_closing_message (popen : list string -> Process)
    (config : SpektacularConfig) (sid : pyval) (prompt : string) :
  match snd (run_agent popen config sid prompt) with
  | None =>
      exists body m,
        snd (fst (run_agent popen config sid prompt)) = body ++ [m] /\
        closing m = true /\ no_closing body = true
  | Some _ =>
      no_closing (snd (fst (run_agent popen config sid prompt))) = true
  end.
Proof.
  unfold run_agent.
  pose proof (worker_loop_messages
                (events (run_claude popen prompt config sid))
                {| worker_session_id := sid; posted := [];
                   worker_questions := []; worker_final_result := PyNone |}
                eq_refl) as Hloop.
  destruct (worker_loop _ _) as [w [[|x]|]]; cbn [fst snd].
  - exact Hloop.
  - eexists _, _. repeat split. exact Hloop.
  - destruct (raised _); cbn [fst snd].
    + eexists _, _. repeat split. exact Hloop.
    + destruct (worker_questions w); cbn [fst snd].
      * destruct (truthy (worker_final_result w)); cbn [fst snd].
        -- destruct (worker_final_result w); cbn [fst snd];
             try exact Hloop.
           eexists _, _. repeat split. exact Hloop.
        -- eexists _, _. repeat split. exact Hloop.
      * eexists _, _. repeat split. exact Hloop.
Qed.

End WorkerProperties.

Lemma select_answers_from (questions : list Question) :
  forall (answers acc : list string),
    questions <> [] ->
    List.length answers = List.length questions ->
    select_answers {| pending_questions := questions;
                      pending_answers := map PyStr acc |}
      (map PyStr answers)
    = ({| pending_questions := [];
          pending_answers := map PyStr (acc ++ answers) |},
       repeat (Ok None) (List.length questions - 1)
       ++ [Ok (Some (String.concat nl (acc ++ answers)))]).
Proof.
  induction questions as [|q questions IH]; intros answers acc Hne Hlen;
    [congruence|].
  destruct answers as [|a answers]; [discriminate Hlen|].
  cbn [map select_answers]. unfold on_answer_selected.
  cbn [pending_questions pending_answers].
  replace (map PyStr acc ++ [PyStr a]) with (map PyStr (acc ++ [a]))
    by (now rewrite map_app).
  destruct questions as [|q' questions].
  - destruct answers; [|discriminate Hlen].
    cbn [map select_answers List.length Nat.sub repeat app].
    unfold py_join. rewrite strs_of_map_PyStr. reflexivity.
  - rewrite (IH answers (acc ++ [a])); [|discriminate|now injection Hlen].
    rewrite <- app_assoc. cbn [app List.length Nat.sub].
    now rewrite Nat.sub_0_r.
Qed.

(** X18. In the text interface, once the questions of a turn are shown, the
    answers selected for them are collected in order; nothing is restarted
    before the last question is answered, and the last answer restarts the
    worker with the answers joined by line feeds (the console joins them
    with a semicolon and a space). An answer that arrives when no question
    is pending changes nothing. *)
Theorem select_answers_restarts_with_joined_answers
    (questions : list Question) (answers : list string) (late : pyval) :
  questions <> [] ->
  List.length answers = List.length questions ->
  select_answers (on_agent_question questions) (map PyStr answers)
  = ({| pending_questions := []; pending_answers := map PyStr answers |},
     repeat (Ok None) (List.length questions - 1)
     ++ [Ok (Some (String.concat nl answers))]) /\
  on_answer_selected
    (fst (select_answers (on_agent_question questions) (map PyStr answers)))
    late
  = (fst (select_answers (on_agent_question questions) (map PyStr answers)),
     Ok None).
Proof.
  intros Hne Hlen. unfold on_agent_question.
  change (@nil pyval) with (map PyStr []).
  rewrite (select_answers_from questions answers [] Hne Hlen).
  split; reflexivity.
Qed.

Lemma select_answers_restarts_with_joined_answers_witness :
  select_answers (on_agent_question [choice_question; free_question])
    (map PyStr ["B"; "because"])
  = ({| pending_questions := [];
        pending_answers := map PyStr ["B"; "because"] |},
     repeat (Ok None) (List.length [choice_question; free_question] - 1)
     ++ [Ok (Some (String.concat nl ["B"; "because"]))]).
Proof.
  refine (proj1 (select_answers_restarts_with_joined_answers
                   [choice_question; free_question] ["B"; "because"] PyNone
                   _ _)).
  - discriminate.
  - reflexivity.
Defined.

Section FrontEnds.
Context {rt : PyLib}.

(** X19. The two front ends select the same answer for the same number: for a
    question whose options are objects that each have a [label], the number
    [n] typed at the console (the value of the prompt, which is the line
    typed, or the default [1] at an empty line), between 1 and the number of
    options, and the index [n - 1] that the key [n] passes to the panel of
    the text interface both give the label of the option at that position.
    Past the last option the panel posts nothing. *)
Theorem front_ends_select_same_label (q : Question) (others : list Question)
    (opts : list dict) (choice : string) (rest : list string) (n : Z) :
  options q = PyList (map PyDict opts) ->
  Forall (fun o => dict_get "label" o <> None) opts ->
  int_of_str (entered "1" choice) = Some n ->
  (1 <= n <= Z.of_nat (List.length opts))%Z ->
  (exists label,
     answer_question q (choice :: rest) = Ok (label, rest) /\
     action_select (q :: others) (Z.to_nat (n - 1)) = Ok (Some label)) /\
  (forall idx, List.length opts <= idx ->
     action_select (q :: others) idx = Ok None).
Proof.
  intros Hopts Hlabels Hn Hrange.
  assert (Hne : opts <> []) by (destruct opts; [cbn in Hrange; lia|discriminate]).
  split.
  - rewrite (answer_question_options q opts choice rest Hopts Hne Hlabels), Hn.
    replace ((0 <=? n - 1) && (n - 1 <? Z.of_nat (List.length opts)))%Z
      with true
      by (symmetry; apply andb_true_iff; split;
          [apply Z.leb_le | apply Z.ltb_lt]; lia).
    unfold action_select. rewrite Hopts. cbn [py_len bind py_index].
    rewrite length_map, nth_error_map. unfold dict in *.
    replace (Z.to_nat (n - 1) <? List.length opts)%nat with true
      by (symmetry; apply Nat.ltb_lt; lia).
    destruct (nth_error opts (Z.to_nat (n - 1))) as [o|] eqn:Ho.
    + pose proof (proj1 (Forall_forall _ _) Hlabels o (nth_error_In _ _ Ho)) as Hl.
      cbn [option_map bind py_getitem].
      destruct (dict_get "label" o) as [label|] eqn:Hlabel; [|congruence].
      exists label. split; reflexivity.
    + apply nth_error_None in Ho. lia.
  - intros idx Hidx. unfold action_select. rewrite Hopts.
    cbn [py_len bind]. rewrite length_map. unfold dict in *.
    replace (idx <? List.length opts)%nat with false
      by (symmetry; apply Nat.ltb_ge; lia).
    reflexivity.
Qed.

End FrontEnds.

Lemma front_ends_select_same_label_witness :
  exists label,
    answer_question (rt := cpython) choice_question ["2"] = Ok (label, []) /\
    action_select [choice_question; free_question] (Z.to_nat (2 - 1))
    = Ok (Some label).
Proof.
  refine (proj1 (front_ends_select_same_label (rt := cpython) choice_question
                   [free_question] two_options "2" [] 2 _ _ _ _)).
  - reflexivity.
  - repeat apply Forall_cons; try apply Forall_nil; discriminate.
  - vm_compute. reflexivity.
  - cbn. lia.
Defined.

Lemma run_agent_session_id_witness :
  truthy (fst (fst (run_agent (rt := cpython) (two_session_agent 1)
                      default_config (PyStr "s2") "yes"))) = true.
Proof.
  refine (proj2 (run_agent_session_id (rt := cpython) (two_session_agent 1)
                   default_config (PyStr "s2") "yes") _).
  reflexivity.
Defined.

Section Agreement.
Context {rt : PyLib}.

Lemma worker_event_quiet (w : Worker) (e : ClaudeEvent) :
  tool_uses e = Ok [] ->
  quiet e ->
  truthy (is_error e) = false ->
  worker_event w e
  = ({| worker_session_id := observe_session_id (worker_session_id w) e;
        posted := posted w ++ outputs_of [e];
        worker_questions := worker_questions w;
        worker_final_result := observe_result (worker_final_result w) e |},
     None).
Proof.
  intros Htools Hq Herr.
  unfold worker_event, observe_session_id, observe_result.
  rewrite Htools. cbn [post_tools outputs_of].
  destruct Hq as [Hnone | [s [Hs Hcase]]].
  - rewrite Hnone. cbn iota. rewrite !app_nil_r, Herr.
    destruct (is_result e); reflexivity.
  - rewrite Hs. cbn iota.
    destruct (String.eqb s EmptyString) eqn:Hempty; cbn [negb].
    + rewrite !app_nil_r, Herr. destruct (is_result e); reflexivity.
    + destruct Hcase as [-> | Hdetect]; [discriminate Hempty|].
      rewrite Hdetect, !app_nil_r, Herr.
      destruct (is_result e); reflexivity.
Qed.

Lemma outputs_of_cons (e : ClaudeEvent) (evs : list ClaudeEvent) :
  outputs_of (e :: evs) = outputs_of [e] ++ outputs_of evs.
Proof.
  cbn [outputs_of]. destruct (text_content e) as [[s|]|]; try reflexivity.
  now destruct (String.eqb s EmptyString).
Qed.

Lemma worker_loop_quiet (evs : list ClaudeEvent) :
  Forall (fun e => tool_uses e = Ok []) evs ->
  Forall quiet evs ->
  Forall (fun e => truthy (is_error e) = false) evs ->
  forall w,
    worker_loop evs w
    = ({| worker_session_id := last_session_id evs (worker_session_id w);
          posted := posted w ++ outputs_of evs;
          worker_questions := worker_questions w;
          worker_final_result := last_result evs (worker_final_result w) |},
       None).
Proof.
  induction evs as [|e evs IH]; intros Htools Hq Herr w.
  - cbn [worker_loop outputs_of last_session_id last_result fold_left].
    rewrite app_nil_r. now destruct w.
  - inversion Htools as [|? ? Hte Htes]; subst.
    inversion Hq as [|? ? Hqe Hqs]; subst.
    inversion Herr as [|? ? Hee Hes]; subst.
    cbn [worker_loop]. rewrite (worker_event_quiet w e Hte Hqe Hee).
    rewrite (IH Htes Hqs Hes). cbn [worker_session_id posted worker_questions
                                      worker_final_result].
    rewrite (outputs_of_cons e evs), app_assoc. reflexivity.
Qed.

Lemma no_closing_outputs_of (evs : list ClaudeEvent) :
  no_closing (outputs_of evs) = true.
Proof.
  induction evs as [|e evs IH]; [reflexivity|]. cbn [outputs_of].
  destruct (text_content e) as [[s|]|]; try exact IH.
  destruct (String.eqb s EmptyString); exact IH.
Qed.

(** X20. On a first turn without tool calls, questions and errors, after which
    the process exits with code 0, the two front ends reach the same
    verdict from the same result text: where [run_plan] writes the plan, the
    worker posts the completion with the same text after the texts it has
    shown; where [run_plan] fails for want of a result, the worker posts
    that error; and both leave the same session id. *)
Theorem front_ends_agree_on_quiet_turn (popen : list string -> Process)
    (config : SpektacularConfig) (sid : pyval) (prompt : string)
    (replies : list string) :
  raised (run_claude popen prompt config sid) = None ->
  Forall (fun e => tool_uses e = Ok []) (events (run_claude popen prompt config sid)) ->
  Forall quiet (events (run_claude popen prompt config sid)) ->
  Forall (fun e => truthy (is_error e) = false)
    (events (run_claude popen prompt config sid)) ->
  run_agent popen config sid prompt
  = (last_session_id (events (run_claude popen prompt config sid)) sid,
     outputs_of (events (run_claude popen prompt config sid))
     ++ fst (worker_verdict
               (outcome (plan_loop 1 (fun _ => popen) config 0 prompt sid
                           PyNone replies))),
     snd (worker_verdict
            (outcome (plan_loop 1 (fun _ => popen) config 0 prompt sid PyNone
                        replies)))) /\
  no_closing (outputs_of (events (run_claude popen prompt config sid))) = true.
Proof.
  intros Hraised Htools Hq Herr.
  split; [|apply no_closing_outputs_of].
  rewrite (plan_loop_last_turn 0 (fun _ => popen) config 0 prompt sid PyNone
             replies Hraised Hq Herr).
  cbn [outcome]. unfold run_agent.
  rewrite (worker_loop_quiet _ Htools Hq Herr). rewrite Hraised.
  cbn [worker_session_id posted worker_questions worker_final_result app].
  unfold write_result.
  destruct (truthy (last_result (events (run_claude popen prompt config sid))
                      PyNone)) eqn:Htruthy.
  - destruct (last_result (events (run_claude popen prompt config sid)) PyNone);
      cbn [worker_verdict fst snd]; rewrite ?app_nil_r; reflexivity.
  - reflexivity.
Qed.

End Agreement.

Lemma front_ends_agree_on_quiet_turn_witness :
  run_agent (rt := cpython) (done_agent 0) default_config PyNone "prompt"
  = (last_session_id
       (events (run_claude (rt := cpython) (done_agent 0) "prompt"
                  default_config PyNone)) PyNone,
     outputs_of (events (run_claude (rt := cpython) (done_agent 0) "prompt"
                           default_config PyNone))
     ++ fst (worker_verdict
               (outcome (plan_loop (rt := cpython) 1 (fun _ => done_agent 0)
                           default_config 0 "prompt" PyNone PyNone []))),
     snd (worker_verdict
            (outcome (plan_loop (rt := cpython) 1 (fun _ => done_agent 0)
                        default_config 0 "prompt" PyNone PyNone [])))).
Proof.
  refine (proj1 (front_ends_agree_on_quiet_turn (rt := cpython) (done_agent 0)
                   default_config PyNone "prompt" [] _ _ _ _)).
  - vm_compute. reflexivity.
  - change (events (run_claude (done_agent 0) "prompt" default_config PyNone))
      with (ltac:(let v := eval vm_compute in
                    (events (run_claude (rt := cpython) (done_agent 0) "prompt"
                               default_config PyNone)) in exact v)).
    repeat apply Forall_cons; try apply Forall_nil; reflexivity.
  - change (events (run_claude (done_agent 0) "prompt" default_config PyNone))
      with (ltac:(let v := eval vm_compute in
                    (events (run_claude (rt := cpython) (done_agent 0) "prompt"
                               default_config PyNone)) in exact v)).
    repeat apply Forall_cons; try apply Forall_nil; left; reflexivity.
  - change (events (run_claude (done_agent 0) "prompt" default_config PyNone))
      with (ltac:(let v := eval vm_compute in
                    (events (run_claude (rt := cpython) (done_agent 0) "prompt"
                               default_config PyNone)) in exact v)).
    repeat apply Forall_cons; try apply Forall_nil; reflexivity.
Defined.

(* ================================================================== *)
(** ** Further properties: the exceptions of the decoder *)
(* ================================================================== *)

Section DecoderErrors.
Context {rt : PyLib}.


End DecoderErrors.

